(** * The OCR pipelines of gosexpert-experiments

    A shallow embedding of [src/pipelines/OCR_gemini/step_1_ocr_pipeline.py]
    and [src/pipelines/OCR_gemini/vertex_ai_client.py] and, in module
    [DeepSeek], of [src/pipelines/OCR_deepseek/step2_deepseek_ocr.py].

    - Python [str] values are lists of Unicode code points.
    - The outside world (PyMuPDF, the Vertex AI service, the file system
      calls that may raise) is a record of oracles, one per operation
      that the code guards with [try]/[except]; [json.loads] is a
      parameter of the pipeline.
    - [self.errors], [self.processing_status] and the results directory
      are threaded explicitly as a [State]; the calls a page worker
      makes to the outside world are appended to a trace.
    - The thread pools are modelled by the order in which their futures
      complete, an arbitrary rearrangement of the submitted ones; the
      effects of one worker are recorded together, before its result is
      tallied.
    - Timestamps ([datetime.now()]), image paths and log lines are left
      out. *)

From Stdlib Require Import ZArith NArith Ascii String.
From stdpp Require Import gmap list.

Local Open Scope N_scope.

(** ** Python strings *)

Module PyStr.

(** A Python [str]: the sequence of its code points. *)
Abbreviation str := (list N).

Definition of_string (s : string) : str :=
  N_of_ascii <$> list_ascii_of_string s.

(** [str.isspace] on one character (CPython's [_PyUnicode_IsWhitespace]). *)
Definition isspace (c : N) : bool :=
  ((9 <=? c) && (c <=? 13)) || ((28 <=? c) && (c <=? 32))
  || (c =? 133) || (c =? 160) || (c =? 5760)
  || ((8192 <=? c) && (c <=? 8202))
  || (c =? 8232) || (c =? 8233) || (c =? 8239) || (c =? 8287)
  || (c =? 12288).

Fixpoint lstrip (s : str) : str :=
  match s with
  | c :: s' => if isspace c then lstrip s' else s
  | [] => []
  end.

Definition rstrip (s : str) : str := rev (lstrip (rev s)).

(** [s.strip()] *)
Definition strip (s : str) : str := rstrip (lstrip s).

(** [s.split()]: the maximal runs of non-whitespace characters.
    [cur] accumulates the current run, reversed. *)
Fixpoint split_from (cur : str) (s : str) : list str :=
  match s with
  | [] => match cur with [] => [] | _ => [rev cur] end
  | c :: s' =>
      if isspace c
      then match cur with
           | [] => split_from [] s'
           | _ => rev cur :: split_from [] s'
           end
      else split_from (c :: cur) s'
  end.

Definition split (s : str) : list str := split_from [] s.

Fixpoint startswith (s p : str) : bool :=
  match p, s with
  | [], _ => true
  | _ :: _, [] => false
  | a :: p', b :: s' => (a =? b) && startswith s' p'
  end.

Definition endswith (s p : str) : bool := startswith (rev s) (rev p).

End PyStr.
Import PyStr.

(** ** Extraction method selector *)

Definition MIN_TEXT_LENGTH : nat := 50.
Definition MIN_WORDS : nat := 10.

(** [check_page_has_text], applied to the value of [page.get_text()]
    (the same function in the Gemini and in the DeepSeek pipeline). *)
Definition check_page_has_text (text : str) : bool :=
  let text_cleaned := strip text in
  let word_count := length (split text_cleaned) in
  (MIN_TEXT_LENGTH <=? length text_cleaned)%nat && (MIN_WORDS <=? word_count)%nat.

(** ** JSON values, as [json.loads] returns them *)

#[local] Unset Elimination Schemes.
Inductive json :=
| JNull
| JBool (b : bool)
| JInt (n : Z)
| JFloat (literal : str)
| JStr (s : str)
| JArr (items : list json)
| JObj (members : list (str * json)).
#[local] Set Elimination Schemes.

(** [d.get(key, default)] on a dict. *)
Fixpoint dict_get (d : list (str * json)) (key : str) (default : json) : json :=
  match d with
  | [] => default
  | (k, v) :: d' => if decide (k = key) then v else dict_get d' key default
  end.

(** [d[key] = v] on a dict. *)
Fixpoint dict_set (d : list (str * json)) (key : str) (v : json) : list (str * json) :=
  match d with
  | [] => [(key, v)]
  | (k, w) :: d' => if decide (k = key) then (k, v) :: d' else (k, w) :: dict_set d' key v
  end.

(** [len(v)]; [None] is Python's [TypeError]. *)
Definition py_len (v : json) : option nat :=
  match v with
  | JStr s => Some (length s)
  | JArr l => Some (length l)
  | JObj d => Some (length d)
  | _ => None
  end.

(** A decoder for the fragment of JSON without string escapes and
    without fractions or exponents, used to run the pipeline on the
    concrete replies of this file: on a JSON text of the fragment it
    returns the value [json.loads] returns (a later duplicate key
    overrides the earlier one), and it rejects a text that starts with a
    code fence or with prose, as [json.loads] does. *)
Module BasicJson.

Definition json_ws (c : N) : bool :=
  (c =? 32) || (c =? 9) || (c =? 10) || (c =? 13).

Fixpoint skip_ws (s : str) : str :=
  match s with
  | c :: s' => if json_ws c then skip_ws s' else s
  | [] => []
  end.

Fixpoint scan_string (acc : str) (s : str) : option (str * str) :=
  match s with
  | [] => None
  | c :: s' =>
      if c =? 34 then Some (rev acc, s')
      else if (c =? 92) || (c <? 32) then None
      else scan_string (c :: acc) s'
  end.

Definition is_digit (c : N) : bool := (48 <=? c) && (c <=? 57).

Fixpoint scan_digits (acc : N) (s : str) : N * str :=
  match s with
  | c :: s' => if is_digit c then scan_digits (10 * acc + (c - 48)) s' else (acc, s)
  | [] => (acc, [])
  end.

Definition scan_int (s : str) : option (Z * str) :=
  let '(neg, s1) := match s with
                    | c :: r => if c =? 45 then (true, r) else (false, s)
                    | [] => (false, s)
                    end in
  match s1 with
  | c :: r =>
      if is_digit c then
        let '(n, rest) := if c =? 48 then (0, r) else scan_digits 0 s1 in
        let z := if neg : bool then (- Z.of_N n)%Z else Z.of_N n in
        match rest with
        | d :: _ => if (d =? 46) || (d =? 101) || (d =? 69) then None else Some (z, rest)
        | [] => Some (z, rest)
        end
      else None
  | [] => None
  end.

Fixpoint parse_items (pv : str -> option (json * str)) (n : nat) (s : str)
    (acc : list json) : option (list json * str) :=
  match n with
  | O => None
  | S n' =>
      match pv s with
      | None => None
      | Some (v, r) =>
          match skip_ws r with
          | c :: r' =>
              if c =? 44 then parse_items pv n' r' (v :: acc)
              else if c =? 93 then Some (rev (v :: acc), r')
              else None
          | [] => None
          end
      end
  end.

Fixpoint parse_members (pv : str -> option (json * str)) (n : nat) (s : str)
    (acc : list (str * json)) : option (list (str * json) * str) :=
  match n with
  | O => None
  | S n' =>
      match skip_ws s with
      | q :: r0 =>
          if q =? 34 then
            match scan_string [] r0 with
            | None => None
            | Some (key, r1) =>
                match skip_ws r1 with
                | colon :: r2 =>
                    if colon =? 58 then
                      match pv r2 with
                      | None => None
                      | Some (v, r3) =>
                          match skip_ws r3 with
                          | c :: r4 =>
                              if c =? 44 then parse_members pv n' r4 (dict_set acc key v)
                              else if c =? 125 then Some (dict_set acc key v, r4)
                              else None
                          | [] => None
                          end
                      end
                    else None
                | [] => None
                end
            end
          else None
      | [] => None
      end
  end.

Fixpoint parse_value (fuel : nat) (s : str) : option (json * str) :=
  match fuel with
  | O => None
  | S fuel' =>
      let s := skip_ws s in
      if startswith s (of_string "null") then Some (JNull, drop 4 s)
      else if startswith s (of_string "true") then Some (JBool true, drop 4 s)
      else if startswith s (of_string "false") then Some (JBool false, drop 5 s)
      else match s with
           | [] => None
           | c :: r =>
               if c =? 34 then
                 match scan_string [] r with
                 | Some (x, r') => Some (JStr x, r')
                 | None => None
                 end
               else if c =? 91 then
                 match skip_ws r with
                 | d :: r' =>
                     if d =? 93 then Some (JArr [], r')
                     else match parse_items (parse_value fuel') (length r) r [] with
                          | Some (l, r'') => Some (JArr l, r'')
                          | None => None
                          end
                 | [] => None
                 end
               else if c =? 123 then
                 match skip_ws r with
                 | d :: r' =>
                     if d =? 125 then Some (JObj [], r')
                     else match parse_members (parse_value fuel') (length r) r [] with
                          | Some (m, r'') => Some (JObj m, r'')
                          | None => None
                          end
                 | [] => None
                 end
               else match scan_int s with
                    | Some (z, r') => Some (JInt z, r')
                    | None => None
                    end
           end
  end.

Definition loads (s : str) : option json :=
  match parse_value (S (length s)) s with
  | Some (v, r) => match skip_ws r with [] => Some v | _ => None end
  | None => None
  end.

End BasicJson.

(** ** Data model of the pipeline *)

(** The value of a call that may raise: [Raises msg] carries [str(e)]. *)
Inductive call (A : Type) :=
| Returns (a : A)
| Raises (msg : str).
Arguments Returns {A} a.
Arguments Raises {A} msg.

(** What [open(output_path, 'w')] followed by [json.dump] does to the
    artifact file: written in full; [open] raises and no file appears;
    [json.dump] raises after [open] created the file. *)
Inductive WriteResult :=
| Written
| OpenFails (msg : str)
| DumpFails (msg : str).

(** One PDF of the corpus and the behaviour of the outside world on it.
    Pages are numbered from 1 in every oracle.  The document is an
    input that no run changes: every [fitz.open] of it answers the same. *)
Record Pdf := {
  stem : str;                              (* pdf_path.stem *)
  name : str;                              (* pdf_path.name *)
  fitz_open : call nat;                    (* fitz.open(pdf_path), len(pdf_document) *)
  get_text : nat -> str;                   (* page.get_text() *)
  get_pixmap : nat -> call unit;           (* page.get_pixmap(...), pix.save(...) *)
  generate_content : nat -> call str;      (* Image.load_from_file, model.generate_content, response.text *)
  mkdir_temp : call unit;                  (* pdf_temp_dir.mkdir(...) *)
  mkdir_results : call unit;               (* pdf_results_dir.mkdir(...) *)
  write_json : nat -> WriteResult          (* open(output_path, 'w'), json.dump *)
}.

Definition DPI : nat := 300.

Record Metadata := {
  md_pdf_name : str;
  md_page_number : nat;
  md_dpi : nat;
  md_extraction_method : str;
  md_ocr_engine : str
}.

(** The result dict of one page. *)
Record Result := {
  text : json;
  headings : json;
  tables : json;
  images : json;
  structure : json;
  raw_response : option str;
  metadata : option Metadata           (* the key is absent until the pipeline sets it *)
}.

Inductive Stage :=
| gemini_ocr_processing
| save_result
| page_processing
| pdf_open
| pdf_processing.

Inductive PageRef :=
| PageNo (n : nat)
| PageNA.

Record ErrorRecord := {
  err_pdf_file : str;
  err_page : PageRef;
  err_stage : Stage;
  err_error : str
}.

(** The dict [process_single_page] returns. *)
Record PageResult := {
  page : nat;
  success : bool;
  error : option str;
  skipped : bool
}.

Inductive Status :=
| processing
| completed
| completed_with_errors
| failed
| skipped_already_processed.

(** The stats dict of one PDF. *)
Module Doc.
Record t := {
  pdf_name : str;
  pdf_file : str;
  total_pages : nat;
  successful_pages : nat;
  failed_pages : nat;
  conventional_pages : nat;
  gemini_ocr_pages : nat;
  skipped_pages : option nat;          (* the early-return dict has no such key *)
  status : Status
}.
End Doc.

(** [overall_stats]. *)
Module Run.
Record t := {
  total_pdfs : nat;
  processed_pdfs : nat;
  skipped_pdfs : nat;
  total_pages : nat;
  successful_pages : nat;
  failed_pages : nat;
  conventional_pages : nat;
  gemini_ocr_pages : nat;
  skipped_pages : nat;
  pdf_details : list Doc.t
}.
End Run.

(** A file [<page>.json] in a results directory. *)
Inductive Artifact :=
| Complete (r : Result)
| Truncated.

(** Calls a page worker makes to the outside world. *)
Inductive Action :=
| OpenDocument
| RenderPage
| AcquirePermit
| Recognize
| WriteArtifact.

Record Event := {
  ev_pdf : str;
  ev_page : nat;
  ev_action : Action
}.

(** [OCR_RESULTS_DIR] maps a PDF stem to its directory, and the directory
    maps a page number [i] to the file [i.json]; a stem without a
    directory has no entry. *)
Record State := {
  results : gmap str (gmap nat Artifact);
  errors : list ErrorRecord;               (* self.errors *)
  processing_status : list Doc.t;          (* self.processing_status *)
  trace : list Event
}.

(** The order in which [as_completed] hands back the submitted futures:
    some rearrangement of them. *)
Record Schedule := {
  completion : list nat -> list nat;
  completion_perm : forall l, completion l ≡ₚ l
}.

(** ** State updates *)

Definition event (pdf : Pdf) (page_index : nat) (a : Action) : Event :=
  {| ev_pdf := stem pdf; ev_page := page_index; ev_action := a |}.

Definition log_event (pdf : Pdf) (page_index : nat) (a : Action) (s : State) : State :=
  {| results := results s;
     errors := errors s;
     processing_status := processing_status s;
     trace := trace s ++ [event pdf page_index a] |}.

(** [self.errors.append(e)] *)
Definition add_error (e : ErrorRecord) (s : State) : State :=
  {| results := results s;
     errors := errors s ++ [e];
     processing_status := processing_status s;
     trace := trace s |}.

Definition set_results (r : gmap str (gmap nat Artifact)) (s : State) : State :=
  {| results := r;
     errors := errors s;
     processing_status := processing_status s;
     trace := trace s |}.

(** [self.processing_status.append(stats)] *)
Definition add_status (stats : Doc.t) (s : State) : State :=
  {| results := results s;
     errors := errors s;
     processing_status := processing_status s ++ [stats];
     trace := trace s |}.

(** The directory [OCR_RESULTS_DIR / pdf_name], empty when it is not there. *)
Definition results_dir (pdf : Pdf) (s : State) : gmap nat Artifact :=
  default ∅ (results s !! stem pdf).

(** [result_file.exists()] for [OCR_RESULTS_DIR / pdf_name / f"{page_index}.json"] *)
Definition result_file_exists (pdf : Pdf) (page_index : nat) (s : State) : bool :=
  match results s !! stem pdf with
  | Some dir => bool_decide (is_Some (dir !! page_index))
  | None => false
  end.

(** ** The recognition client *)

Definition default_structure : json :=
  JObj [ (of_string "has_headings", JBool false);
         (of_string "has_tables", JBool false);
         (of_string "has_lists", JBool false);
         (of_string "has_images", JBool false);
         (of_string "document_type", JStr (of_string "unknown")) ].

Definition code_fence : str := of_string "```".
Definition json_code_fence : str := of_string "```json".

(** Lines 127-134 of [vertex_ai_client.py]. *)
Definition clean_response (raw_response : str) : str :=
  let cleaned := strip raw_response in
  let cleaned := if startswith cleaned json_code_fence then drop 7 cleaned else cleaned in
  let cleaned := if startswith cleaned code_fence then drop 3 cleaned else cleaned in
  let cleaned := if endswith cleaned code_fence
                 then take (length cleaned - 3)%nat cleaned else cleaned in
  strip cleaned.

(** The result built when [json.loads] raises [JSONDecodeError]. *)
Definition raw_text_result (raw_response : str) : Result :=
  {| text := JStr raw_response;
     headings := JArr [];
     tables := JArr [];
     images := JArr [];
     structure := default_structure;
     raw_response := Some raw_response;
     metadata := None |}.

Definition attribute_error : str := of_string "object has no attribute 'get'".
Definition type_error : str := of_string "object has no len()".
Definition index_error : str := of_string "page not in document".
Definition no_result : str := of_string "OCR returned no result".

Definition set_metadata (result : Result) (m : Metadata) : Result :=
  {| text := text result;
     headings := headings result;
     tables := tables result;
     images := images result;
     structure := structure result;
     raw_response := raw_response result;
     metadata := Some m |}.

(** The metadata [_process_page_image_async] attaches to a result. *)
Definition gemini_metadata (pdf : Pdf) (page_num : nat) : Metadata :=
  {| md_pdf_name := stem pdf;
     md_page_number := page_num;
     md_dpi := DPI;
     md_extraction_method := of_string "gemini_2.5_flash_ocr";
     md_ocr_engine := of_string "gemini-2.5-flash" |}.

(** The record [process_page_image] appends when the recognition fails. *)
Definition recognition_error (pdf : Pdf) (page_num : nat) (e : str) : ErrorRecord :=
  {| err_pdf_file := stem pdf ++ of_string ".pdf";
     err_page := PageNo page_num;
     err_stage := gemini_ocr_processing;
     err_error := e |}.

(** The record [save_page_result] appends when the write fails. *)
Definition save_error (pdf : Pdf) (page_num : nat) (e : str) : ErrorRecord :=
  {| err_pdf_file := stem pdf ++ of_string ".pdf";
     err_page := PageNo page_num;
     err_stage := save_result;
     err_error := e |}.

(** The record [process_pdf] appends for a page that was not a success. *)
Definition page_error (pdf : Pdf) (page_index : nat) (e : str) : ErrorRecord :=
  {| err_pdf_file := name pdf;
     err_page := PageNo page_index;
     err_stage := page_processing;
     err_error := e |}.

Section Pipeline.

(** [json.loads]; [None] stands for [json.JSONDecodeError]. *)
Variable json_loads : str -> option json.

(** [VertexAIGeminiClient.generate] on the image of page [page_index]. *)
Definition generate (pdf : Pdf) (page_index : nat) : call Result :=
  match generate_content pdf page_index with
  | Raises e => Raises e
  | Returns raw =>
      match json_loads (clean_response raw) with
      | Some (JObj parsed_result) =>
          let result :=
            {| text := dict_get parsed_result (of_string "text") (JStr []);
               headings := dict_get parsed_result (of_string "headings") (JArr []);
               tables := dict_get parsed_result (of_string "tables") (JArr []);
               images := dict_get parsed_result (of_string "images") (JArr []);
               structure := dict_get parsed_result (of_string "structure") default_structure;
               raw_response := Some raw;
               metadata := None |} in
          match py_len (text result) with
          | Some _ => Returns result
          | None => Raises type_error
          end
      | Some _ => Raises attribute_error
      | None => Returns (raw_text_result raw)
      end
  end.

(** ** The page worker *)

(** [process_page_image], with [_process_page_image_async] inlined:
    the permit is taken before the client is called. *)
Definition process_page_image (pdf : Pdf) (page_num : nat) (s : State)
    : option Result * State :=
  let s := log_event pdf page_num AcquirePermit s in
  let s := log_event pdf page_num Recognize s in
  let failure e := (None, add_error (recognition_error pdf page_num e) s) in
  match generate pdf page_num with
  | Raises e => failure e
  | Returns result =>
      let result := set_metadata result (gemini_metadata pdf page_num) in
      match py_len (text result) with
      | Some _ => (Some result, s)
      | None => failure type_error
      end
  end.

(** [save_page_result]; the [mkdir] stands outside the [try]. *)
Definition save_page_result (result : Result) (pdf : Pdf) (page_num : nat) (s : State)
    : call unit * State :=
  match mkdir_results pdf with
  | Raises e => (Raises e, s)
  | Returns _ =>
      let dir := results_dir pdf s in
      let s := set_results (<[stem pdf := dir]> (results s)) s in
      let s := log_event pdf page_num WriteArtifact s in
      match write_json pdf page_num with
      | Written =>
          (Returns (),
           set_results (<[stem pdf := <[page_num := Complete result]> dir]> (results s)) s)
      | OpenFails e => (Returns (), add_error (save_error pdf page_num e) s)
      | DumpFails e =>
          (Returns (),
           add_error (save_error pdf page_num e)
             (set_results (<[stem pdf := <[page_num := Truncated]> dir]> (results s)) s))
      end
  end.

Definition page_failure (page_index : nat) (e : str) : PageResult :=
  {| page := page_index; success := false; error := Some e; skipped := false |}.

Definition page_skipped (page_index : nat) : PageResult :=
  {| page := page_index; success := true; error := None; skipped := true |}.

Definition page_recognized (page_index : nat) : PageResult :=
  {| page := page_index; success := true; error := None; skipped := false |}.

(** [process_single_page]; [page_num] counts from 0. *)
Definition process_single_page (pdf : Pdf) (page_num : nat) (s : State)
    : PageResult * State :=
  let page_index := (page_num + 1)%nat in
  if result_file_exists pdf page_index s then (page_skipped page_index, s)
  else
    let s := log_event pdf page_index OpenDocument s in
    match fitz_open pdf with
    | Raises e => (page_failure page_index e, s)
    | Returns n =>
        if decide (page_num < n)%nat then
          let s := log_event pdf page_index RenderPage s in
          match get_pixmap pdf page_index with
          | Raises e => (page_failure page_index e, s)
          | Returns _ =>
              match process_page_image pdf page_index s with
              | (Some result, s) =>
                  match save_page_result result pdf page_index s with
                  | (Returns _, s) => (page_recognized page_index, s)
                  | (Raises e, s) => (page_failure page_index e, s)
                  end
              | (None, s) => (page_failure page_index no_result, s)
              end
          end
        else (page_failure page_index index_error, s)
    end.

(** ** The document scheduler *)

(** [is_pdf_already_processed]: [(is_complete, total_pages, existing_pages_count)]. *)
Definition is_pdf_already_processed (pdf : Pdf) (s : State) : bool * nat * nat :=
  match results s !! stem pdf with
  | None => (false, 0, 0)%nat
  | Some dir =>
      match fitz_open pdf with
      | Raises _ => (false, 0, 0)%nat
      | Returns total_pages =>
          let existing_page_count := size dir in
          (bool_decide (total_pages <= existing_page_count)%nat,
           total_pages, existing_page_count)
      end
  end.

(** The body of the [as_completed] loop of [process_pdf]. *)
Definition tally (pdf : Pdf) (stats : Doc.t) (page_result : PageResult) (s : State)
    : Doc.t * State :=
  if success page_result then
    ({| Doc.pdf_name := Doc.pdf_name stats;
        Doc.pdf_file := Doc.pdf_file stats;
        Doc.total_pages := Doc.total_pages stats;
        Doc.successful_pages := Doc.successful_pages stats + 1;
        Doc.failed_pages := Doc.failed_pages stats;
        Doc.conventional_pages := Doc.conventional_pages stats;
        Doc.gemini_ocr_pages :=
          if skipped page_result then Doc.gemini_ocr_pages stats
          else Doc.gemini_ocr_pages stats + 1;
        Doc.skipped_pages :=
          if skipped page_result then (λ n, n + 1) <$> Doc.skipped_pages stats
          else Doc.skipped_pages stats;
        Doc.status := Doc.status stats |}%nat, s)
  else
    ({| Doc.pdf_name := Doc.pdf_name stats;
        Doc.pdf_file := Doc.pdf_file stats;
        Doc.total_pages := Doc.total_pages stats;
        Doc.successful_pages := Doc.successful_pages stats;
        Doc.failed_pages := Doc.failed_pages stats + 1;
        Doc.conventional_pages := Doc.conventional_pages stats;
        Doc.gemini_ocr_pages := Doc.gemini_ocr_pages stats;
        Doc.skipped_pages := Doc.skipped_pages stats;
        Doc.status := Doc.status stats |}%nat,
     add_error (page_error pdf (page page_result) (default [] (error page_result))) s).

(** The pages of one PDF, each run by a worker and tallied, in the
    order in which the futures complete.  [stats['skipped_pages']] is
    a key of the stats this loop works on. *)
Fixpoint run_pages (pdf : Pdf) (order : list nat) (stats : Doc.t) (s : State)
    : Doc.t * State :=
  match order with
  | [] => (stats, s)
  | page_num :: rest =>
      let '(page_result, s) := process_single_page pdf page_num s in
      let '(stats, s) := tally pdf stats page_result s in
      run_pages pdf rest stats s
  end.

Definition set_total (n : nat) (stats : Doc.t) : Doc.t :=
  {| Doc.pdf_name := Doc.pdf_name stats;
     Doc.pdf_file := Doc.pdf_file stats;
     Doc.total_pages := n;
     Doc.successful_pages := Doc.successful_pages stats;
     Doc.failed_pages := Doc.failed_pages stats;
     Doc.conventional_pages := Doc.conventional_pages stats;
     Doc.gemini_ocr_pages := Doc.gemini_ocr_pages stats;
     Doc.skipped_pages := Doc.skipped_pages stats;
     Doc.status := Doc.status stats |}.

Definition set_status (st : Status) (stats : Doc.t) : Doc.t :=
  {| Doc.pdf_name := Doc.pdf_name stats;
     Doc.pdf_file := Doc.pdf_file stats;
     Doc.total_pages := Doc.total_pages stats;
     Doc.successful_pages := Doc.successful_pages stats;
     Doc.failed_pages := Doc.failed_pages stats;
     Doc.conventional_pages := Doc.conventional_pages stats;
     Doc.gemini_ocr_pages := Doc.gemini_ocr_pages stats;
     Doc.skipped_pages := Doc.skipped_pages stats;
     Doc.status := st |}.

(** The handler of the [try] of [process_pdf]. *)
Definition pdf_failure (pdf : Pdf) (stats : Doc.t) (e : str) (s : State) : Doc.t * State :=
  (set_status failed stats,
   add_error {| err_pdf_file := name pdf;
                err_page := PageNA;
                err_stage := pdf_open;
                err_error := e |} s).

(** The stats [process_pdf] returns for a PDF it finds fully processed. *)
Definition already_processed (pdf : Pdf) (total_pages existing_pages : nat) : Doc.t :=
  {| Doc.pdf_name := stem pdf;
     Doc.pdf_file := name pdf;
     Doc.total_pages := total_pages;
     Doc.successful_pages := existing_pages;
     Doc.failed_pages := 0;
     Doc.conventional_pages := 0;
     Doc.gemini_ocr_pages := existing_pages;
     Doc.skipped_pages := None;
     Doc.status := skipped_already_processed |}%nat.

(** The stats [process_pdf] starts from. *)
Definition fresh_stats (pdf : Pdf) : Doc.t :=
  {| Doc.pdf_name := stem pdf;
     Doc.pdf_file := name pdf;
     Doc.total_pages := 0;
     Doc.successful_pages := 0;
     Doc.failed_pages := 0;
     Doc.conventional_pages := 0;
     Doc.gemini_ocr_pages := 0;
     Doc.skipped_pages := Some 0;
     Doc.status := processing |}%nat.

(** [process_pdf] *)
Definition process_pdf (sched : Schedule) (pdf : Pdf) (s : State) : Doc.t * State :=
  let '(is_complete, total_pages, existing_pages) := is_pdf_already_processed pdf s in
  if is_complete : bool then (already_processed pdf total_pages existing_pages, s)
  else
    let stats := fresh_stats pdf in
    let '(stats, s) :=
      match fitz_open pdf with
      | Raises e => pdf_failure pdf stats e s
      | Returns n =>
          let stats := set_total n stats in
          match mkdir_temp pdf with
          | Raises e => pdf_failure pdf stats e s
          | Returns _ =>
              let '(stats, s) := run_pages pdf (completion sched (seq 0 n)) stats s in
              (set_status (if decide (Doc.failed_pages stats = 0)%nat
                           then completed else completed_with_errors) stats, s)
          end
      end in
    (stats, add_status stats s).

End Pipeline.

(** ** The corpus scheduler *)

(** [overall_stats] as [process_all_pdfs] creates it. *)
Definition overall_stats_init (n : nat) : Run.t :=
  {| Run.total_pdfs := n;
     Run.processed_pdfs := 0;
     Run.skipped_pdfs := 0;
     Run.total_pages := 0;
     Run.successful_pages := 0;
     Run.failed_pages := 0;
     Run.conventional_pages := 0;
     Run.gemini_ocr_pages := 0;
     Run.skipped_pages := 0;
     Run.pdf_details := [] |}%nat.

(** Lines 460-470: one [stats] merged into [overall_stats]. *)
Definition merge_stats (overall : Run.t) (stats : Doc.t) : Run.t :=
  {| Run.total_pdfs := Run.total_pdfs overall;
     Run.processed_pdfs := Run.processed_pdfs overall + 1;
     Run.skipped_pdfs :=
       match Doc.status stats with
       | skipped_already_processed => Run.skipped_pdfs overall + 1
       | _ => Run.skipped_pdfs overall
       end;
     Run.total_pages := Run.total_pages overall + Doc.total_pages stats;
     Run.successful_pages := Run.successful_pages overall + Doc.successful_pages stats;
     Run.failed_pages := Run.failed_pages overall + Doc.failed_pages stats;
     Run.conventional_pages := Run.conventional_pages overall + Doc.conventional_pages stats;
     Run.gemini_ocr_pages := Run.gemini_ocr_pages overall + Doc.gemini_ocr_pages stats;
     Run.skipped_pages := Run.skipped_pages overall + default 0 (Doc.skipped_pages stats);
     Run.pdf_details := Run.pdf_details overall ++ [stats] |}%nat.

(** The [as_completed] loop of [process_all_pdfs] over the results of the
    futures, in the order of arrival: [(pdf_path.name, future.result())]. *)
Fixpoint merge_all (arrivals : list (str * call Doc.t)) (overall : Run.t)
    (errs : list ErrorRecord) : Run.t * list ErrorRecord :=
  match arrivals with
  | [] => (overall, errs)
  | (_, Returns stats) :: rest => merge_all rest (merge_stats overall stats) errs
  | (file, Raises e) :: rest =>
      merge_all rest overall
        (errs ++ [{| err_pdf_file := file;
                     err_page := PageNA;
                     err_stage := pdf_processing;
                     err_error := e |}])
  end.

(** The counters of [overall_stats], without the list of details. *)
Definition counters (o : Run.t) : list nat :=
  [ Run.total_pdfs o; Run.processed_pdfs o; Run.skipped_pdfs o;
    Run.total_pages o; Run.successful_pages o; Run.failed_pages o;
    Run.conventional_pages o; Run.gemini_ocr_pages o; Run.skipped_pages o ].

(** ** Reading a state *)

Definition is_open_event (e : Event) : bool :=
  match ev_action e with OpenDocument => true | _ => false end.

Definition is_recognition (e : Event) : bool :=
  match ev_action e with Recognize => true | _ => false end.

(** The pages a worker went to work on: those whose document it opened. *)
Definition processed_pages (tr : list Event) : list nat :=
  ev_page <$> List.filter is_open_event tr.

(** The recognition calls of a trace. *)
Definition recognition_calls (tr : list Event) : list Event :=
  List.filter is_recognition tr.

(** The error records about page [i]. *)
Definition about_page (i : nat) (e : ErrorRecord) : bool :=
  match err_page e with
  | PageNo k => Nat.eqb k i
  | PageNA => false
  end.

(** Every page of an [n]-page PDF has its artifact. *)
Definition all_pages_present (pdf : Pdf) (n : nat) (s : State) : Prop :=
  forall i, (1 <= i <= n)%nat -> result_file_exists pdf i s = true.

(** A page whose worker, when it has to run, gets through rendering,
    recognition and the creation of the results directory. *)
Definition page_goes_through (json_loads : str -> option json) (pdf : Pdf) (i : nat) : Prop :=
  get_pixmap pdf i = Returns () /\
  (exists g, generate json_loads pdf i = Returns g) /\
  mkdir_results pdf = Returns ().

(** The counters after each tally: every page is counted once, as a
    success or as a failure; a success is a recognized page or a skipped
    one; nothing is ever counted as conventional. *)
Definition balanced (k : nat) (st : Doc.t) : Prop :=
  (Doc.successful_pages st + Doc.failed_pages st = k)%nat /\
  (exists sk, Doc.skipped_pages st = Some sk /\
              Doc.successful_pages st = (Doc.gemini_ocr_pages st + sk)%nat) /\
  Doc.conventional_pages st = 0%nat.

(** A boolean of the structure summary of a result. *)
Definition structure_flag (r : Result) (key : string) : json :=
  match structure r with
  | JObj d => dict_get d (of_string key) JNull
  | _ => JNull
  end.


(** ** Concrete runs *)

Definition empty_state : State :=
  {| results := ∅; errors := []; processing_status := []; trace := [] |}.

Definition in_submission_order : Schedule :=
  {| completion := fun l => l; completion_perm := fun l => Permutation_refl l |}.

Definition last_submitted_first : Schedule :=
  {| completion := @rev nat; completion_perm := fun l => Permutation_sym (Permutation_rev l) |}.

Definition newline : str := [10].
Definition quoted (s : string) : str := [34] ++ of_string s ++ [34].

Definition json_reply : str :=
  of_string "{" ++ quoted "text" ++ of_string ": " ++ quoted "Budget report" ++ of_string "}".

Definition fenced_reply : str :=
  json_code_fence ++ newline ++ json_reply ++ newline ++ code_fence.

Definition prose_reply : str := of_string "Sorry, the scan is unreadable.".

Definition rich_text : str :=
  of_string "The committee approved the annual budget for the regional expert review board." ++ newline.

(** 50 characters and 10 words, the last character being a newline. *)
Definition boundary_text : str :=
  of_string "aaaa aaaa aaaa aaaa aaaa aaaa aaaa aaaa aaaa aaaa" ++ newline.

(** Three pages: rich embedded text on page 1, none on pages 2 and 3,
    and a recognition call that fails on page 3. *)
Definition report : Pdf :=
  {| stem := of_string "report";
     name := of_string "report.pdf";
     fitz_open := Returns 3%nat;
     get_text := fun i => match i with 1%nat => rich_text | _ => [] end;
     get_pixmap := fun _ => Returns ();
     generate_content := fun i =>
       match i with
       | 1%nat => Returns fenced_reply
       | 2%nat => Returns prose_reply
       | _ => Raises (of_string "429 quota exceeded")
       end;
     mkdir_temp := Returns ();
     mkdir_results := Returns ();
     write_json := fun _ => Written |}.

(** One page, recognized, whose artifact file cannot be opened for writing. *)
Definition unwritable : Pdf :=
  {| stem := of_string "scan";
     name := of_string "scan.pdf";
     fitz_open := Returns 1%nat;
     get_text := fun _ => [];
     get_pixmap := fun _ => Returns ();
     generate_content := fun _ => Returns json_reply;
     mkdir_temp := Returns ();
     mkdir_results := Returns ();
     write_json := fun _ => OpenFails (of_string "No space left on device") |}.

(** Two pages, both recognized and written. *)
Definition leaflet : Pdf :=
  {| stem := of_string "leaflet";
     name := of_string "leaflet.pdf";
     fitz_open := Returns 2%nat;
     get_text := fun _ => [];
     get_pixmap := fun _ => Returns ();
     generate_content := fun _ => Returns fenced_reply;
     mkdir_temp := Returns ();
     mkdir_results := Returns ();
     write_json := fun _ => Written |}.

(** A PDF that opens with no page at all. *)
Definition blank : Pdf :=
  {| stem := of_string "blank";
     name := of_string "blank.pdf";
     fitz_open := Returns 0%nat;
     get_text := fun _ => [];
     get_pixmap := fun _ => Returns ();
     generate_content := fun _ => Returns prose_reply;
     mkdir_temp := Returns ();
     mkdir_results := Returns ();
     write_json := fun _ => Written |}.

Definition report_run : Doc.t * State :=
  process_pdf BasicJson.loads in_submission_order report empty_state.

Definition unwritable_page : PageResult * State :=
  process_single_page BasicJson.loads unwritable 0 empty_state.

Definition blank_run : Doc.t * State :=
  process_pdf BasicJson.loads in_submission_order blank empty_state.

Definition blank_rerun : Doc.t * State :=
  process_pdf BasicJson.loads in_submission_order blank blank_run.2.

(** The state in which page 2 of [report] has its artifact already. *)
Definition page_2_done : State :=
  {| results := {[ stem report := {[ 2%nat := Truncated ]} ]};
     errors := [];
     processing_status := [];
     trace := [] |}.

Definition leaflet_run : Doc.t * State :=
  process_pdf BasicJson.loads in_submission_order leaflet empty_state.

(** Three futures of [process_all_pdfs], one of which raised. *)
Definition arrivals : list (str * call Doc.t) :=
  [ (name report, Returns report_run.1);
    (name blank, Raises (of_string "cannot start new thread"));
    (name leaflet, Returns (already_processed leaflet 2 2)) ].

(** ** More ways to read a state *)

#[global] Instance Stage_eq_dec : EqDecision Stage.
Proof. solve_decision. Defined.

#[global] Instance Status_eq_dec : EqDecision Status.
Proof. solve_decision. Defined.

(** The file [<q>.json] in the results directory of the PDF with stem
    [k], when directory and file exist. *)
Definition lookup_file (k : str) (q : nat) (s : State) : option Artifact :=
  results s !! k ≫= (fun dir => dir !! q).

(** In a trace, permits and recognition calls come in adjacent pairs:
    each recognition call directly follows the permit taken for the
    same page of the same PDF, and no permit is left unused. *)
Fixpoint permits_paired (tr : list Event) : bool :=
  match tr with
  | [] => true
  | a :: rest =>
      match ev_action a with
      | AcquirePermit =>
          match rest with
          | r :: rest' =>
              is_recognition r && bool_decide (ev_pdf r = ev_pdf a)
              && Nat.eqb (ev_page r) (ev_page a) && permits_paired rest'
          | [] => false
          end
      | Recognize => false
      | _ => permits_paired rest
      end
  end.

(** The events of a trace about page [q], in their order. *)
Definition page_events (q : nat) (tr : list Event) : list Event :=
  List.filter (fun e => Nat.eqb (ev_page e) q) tr.

(** The error records a loop of [process_pdf] appends for failed pages. *)
Definition page_failures (es : list ErrorRecord) : list ErrorRecord :=
  List.filter (fun e => bool_decide (err_stage e = page_processing)) es.

(** ** The corpus run: [process_all_pdfs] and [main] *)

(** A report file: written in full, or left broken by a write that
    failed after the file was created. *)
Inductive Report (A : Type) :=
| Whole (a : A)
| Broken.
Arguments Whole {A} a.
Arguments Broken {A}.

(** The value [process_all_pdfs] returns: the dict with [total_pdfs]
    alone when there is no PDF, [overall_stats] otherwise. *)
Inductive Overall :=
| NoPdfs
| Stats (overall_stats : Run.t).

(** The files a run writes besides the page artifacts: the error log
    ([OCR_ERRORS_FILE]), the tracking table ([CSV_TRACKING_FILE], one
    row per entry of [processing_status]) and the summary
    ([_processing_summary.json]); [None] when the file is not there. *)
Record Reports := {
  error_log : option (Report (list ErrorRecord));
  tracking : option (Report (list Doc.t));
  summary : option (Report Run.t)
}.

(** What the three writes do. *)
Record Disk := {
  write_error_log : WriteResult;           (* pd.DataFrame(self.errors).to_csv(...) *)
  write_tracking : WriteResult;            (* open(CSV_TRACKING_FILE, 'w'), csv.DictWriter *)
  write_summary : WriteResult              (* open(summary_path, 'w'), json.dump *)
}.

(** The file after a write of [content] over [old]. *)
Definition written {A} (w : WriteResult) (content : A) (old : option (Report A))
    : option (Report A) :=
  match w with
  | Written => Some (Whole content)
  | OpenFails _ => old
  | DumpFails _ => Some Broken
  end.

(** [save_error_log]: the exception of the write is logged and dropped. *)
Definition save_error_log (disk : Disk) (s : State) (r : Reports) : Reports :=
  match errors s with
  | [] => r
  | _ :: _ =>
      {| error_log := written (write_error_log disk) (errors s) (error_log r);
         tracking := tracking r;
         summary := summary r |}
  end.

(** [save_csv_tracking] *)
Definition save_csv_tracking (disk : Disk) (s : State) (r : Reports) : Reports :=
  {| error_log := error_log r;
     tracking := written (write_tracking disk) (processing_status s) (tracking r);
     summary := summary r |}.

(** [save_summary] *)
Definition save_summary (disk : Disk) (stats : Run.t) (r : Reports) : Reports :=
  {| error_log := error_log r;
     tracking := tracking r;
     summary := written (write_summary disk) stats (summary r) |}.

Definition set_errors (es : list ErrorRecord) (s : State) : State :=
  {| results := results s;
     errors := es;
     processing_status := processing_status s;
     trace := trace s |}.

Section Corpus.

Variable json_loads : str -> option json.

(** The order in which the page futures of the [i]-th PDF complete. *)
Variable page_sched : nat -> Schedule.

(** The PDFs of the corpus, each run by [process_pdf], in the order in
    which their futures complete ([order] lists positions in
    [pdf_files]); the result of each future with the name of its PDF.
    Each run is recorded as a whole, before the next one. *)
Fixpoint run_pdfs (pdf_files : list Pdf) (order : list nat) (s : State)
    : list (str * call Doc.t) * State :=
  match order with
  | [] => ([], s)
  | i :: rest =>
      match pdf_files !! i with
      | Some pdf =>
          let '(stats, s) := process_pdf json_loads (page_sched i) pdf s in
          let '(arrivals, s) := run_pdfs pdf_files rest s in
          ((name pdf, Returns stats) :: arrivals, s)
      | None => run_pdfs pdf_files rest s
      end
  end.

(** [process_all_pdfs].  [cleanup_temp_images] removes the page images,
    which the state does not hold, and drops its own exceptions. *)
Definition process_all_pdfs (doc_sched : Schedule) (disk : Disk) (pdf_files : list Pdf)
    (cleanup_temp : bool) (s : State) (r : Reports) : Overall * State * Reports :=
  match pdf_files with
  | [] => (NoPdfs, s, r)
  | _ :: _ =>
      let '(arrivals, s) :=
        run_pdfs pdf_files (completion doc_sched (seq 0 (length pdf_files))) s in
      let '(overall_stats, errs) :=
        merge_all arrivals (overall_stats_init (length pdf_files)) (errors s) in
      let s := set_errors errs s in
      let r := match errors s with [] => r | _ :: _ => save_error_log disk s r end in
      let r := save_csv_tracking disk s r in
      let r := save_summary disk overall_stats r in
      (Stats overall_stats, s, r)
  end.

(** [main]: the exit status.  [init] is the construction of the
    pipeline with its client, [test_connection] the answer of
    [vertex_client.test_connection()]; a fresh pipeline has no error
    and no status yet, and finds [files] on disk. *)
Definition main (doc_sched : Schedule) (disk : Disk) (init : call unit)
    (test_connection : bool) (pdf_files : list Pdf)
    (files : gmap str (gmap nat Artifact)) (r : Reports) : nat * State * Reports :=
  let s := {| results := files; errors := []; processing_status := []; trace := [] |} in
  match init with
  | Raises _ => (1%nat, s, r)
  | Returns _ =>
      if test_connection then
        let '(stats, s, r) := process_all_pdfs doc_sched disk pdf_files true s r in
        let failed_pages :=
          match stats with NoPdfs => 0%nat | Stats o => Run.failed_pages o end in
        (if (0 <? failed_pages)%nat then 1%nat else 0%nat, s, r)
      else (1%nat, s, r)
  end.

End Corpus.

(** The stats and the messages among the results of the futures. *)
Definition returned (arrivals : list (str * call Doc.t)) : list Doc.t :=
  omap (fun a => match a.2 with Returns st => Some st | Raises _ => None end) arrivals.

Definition raised (arrivals : list (str * call Doc.t)) : list ErrorRecord :=
  omap (fun a => match a.2 with
                 | Returns _ => None
                 | Raises e => Some {| err_pdf_file := a.1; err_page := PageNA;
                                       err_stage := pdf_processing; err_error := e |}
                 end) arrivals.

Definition is_skipped (st : Doc.t) : bool :=
  bool_decide (Doc.status st = skipped_already_processed).


(** ** More concrete runs *)

Definition list_reply : str := of_string "[]".

Definition null_text_reply : str :=
  of_string "{" ++ quoted "text" ++ of_string ": null}".

(** Two pages whose replies are JSON, but not a result: a list, and an
    object whose text is [null]. *)
Definition oddities : Pdf :=
  {| stem := of_string "oddities";
     name := of_string "oddities.pdf";
     fitz_open := Returns 2%nat;
     get_text := fun _ => [];
     get_pixmap := fun _ => Returns ();
     generate_content := fun i =>
       match i with
       | 1%nat => Returns list_reply
       | _ => Returns null_text_reply
       end;
     mkdir_temp := Returns ();
     mkdir_results := Returns ();
     write_json := fun _ => Written |}.

(** A file that PyMuPDF cannot open. *)
Definition locked : Pdf :=
  {| stem := of_string "locked";
     name := of_string "locked.pdf";
     fitz_open := Raises (of_string "cannot open broken document");
     get_text := fun _ => [];
     get_pixmap := fun _ => Returns ();
     generate_content := fun _ => Returns prose_reply;
     mkdir_temp := Returns ();
     mkdir_results := Returns ();
     write_json := fun _ => Written |}.

(** Two pages, and no way to make the directory for their images. *)
Definition no_temp_dir : Pdf :=
  {| stem := of_string "memo";
     name := of_string "memo.pdf";
     fitz_open := Returns 2%nat;
     get_text := fun _ => [];
     get_pixmap := fun _ => Returns ();
     generate_content := fun _ => Returns json_reply;
     mkdir_temp := Raises (of_string "Permission denied");
     mkdir_results := Returns ();
     write_json := fun _ => Written |}.

(** One page, recognized, for which the results directory cannot be made. *)
Definition no_results_dir : Pdf :=
  {| stem := of_string "fax";
     name := of_string "fax.pdf";
     fitz_open := Returns 1%nat;
     get_text := fun _ => [];
     get_pixmap := fun _ => Returns ();
     generate_content := fun _ => Returns json_reply;
     mkdir_temp := Returns ();
     mkdir_results := Raises (of_string "Permission denied");
     write_json := fun _ => Written |}.

Definition no_reports : Reports :=
  {| error_log := None; tracking := None; summary := None |}.

Definition sound_disk : Disk :=
  {| write_error_log := Written; write_tracking := Written; write_summary := Written |}.

(** * The DeepSeek pipeline

    [src/pipelines/OCR_deepseek/step2_deepseek_ocr.py], the hybrid
    pipeline: one PDF after another and one page after another, with
    no thread pool, no rate limiter and no look at the artifacts of an
    earlier run.  Its client, [OCR_deepseek/vertex_ai_client.py], has
    the [generate] of the Gemini client statement for statement, so
    [generate] above stands for both.  A PDF is the same record of
    oracles; what PyMuPDF reports about the layout of a page comes in a
    record of its own. *)

From Stdlib Require PrimFloat DecimalString.

Module DeepSeek.

Import PrimFloat.

(** ** Data model *)

(** A span of [page.get_text("dict")]: font size and text.  PyMuPDF
    gives every block its [type], every text block its [lines], every
    line its [spans] and every span its [size] and [text], so the
    defaults of the [.get] calls of the code are never used.  Sizes are
    binary64 floats, as in Python; PyMuPDF reports numbers, no NaN. *)
Record Span := {
  span_size : float;
  span_text : str
}.

Record Block := {
  block_type : nat;                        (* 0: text block, 1: image block *)
  block_lines : list (list Span)           (* the spans of each line *)
}.

(** [bbox.x0, bbox.y0, bbox.x1, bbox.y1], each as [json.dump] prints it. *)
Record Rect := {
  x0 : str;
  y0 : str;
  x1 : str;
  y1 : str
}.

(** What PyMuPDF reports about one page besides its plain text. *)
Record Layout := {
  get_text_dict : call (list Block);       (* page.get_text("dict"), its blocks *)
  get_images : call (list (call Rect))     (* page.get_images(), page.get_image_bbox(img) of each *)
}.

(** [result['metadata']]; [dpi] is [None] for a conventional result. *)
Record Metadata := {
  md_pdf_name : str;
  md_page_number : nat;
  md_dpi : option nat;
  md_extraction_method : str;
  md_ocr_engine : str
}.

(** The result dict of one page: the keys the client or the
    conventional extractor fills, and the metadata of this pipeline. *)
Record Extracted := {
  body : Result;
  meta : Metadata
}.

Inductive Stage :=
| deepseek_ocr_processing
| save_result
| page_processing
| pdf_open.

Record ErrorRecord := {
  err_pdf_file : str;
  err_page : PageRef;
  err_stage : Stage;
  err_error : str
}.

(** The stats dict of one PDF. *)
Module Doc.
Record t := {
  pdf_name : str;
  total_pages : nat;
  successful_pages : nat;
  failed_pages : nat;
  conventional_pages : nat;
  deepseek_ocr_pages : nat
}.
End Doc.

(** [overall_stats]. *)
Module Run.
Record t := {
  total_pdfs : nat;
  processed_pdfs : nat;
  total_pages : nat;
  successful_pages : nat;
  failed_pages : nat;
  conventional_pages : nat;
  deepseek_ocr_pages : nat;
  pdf_details : list Doc.t
}.
End Run.

(** A file [<page>.json] in a results directory. *)
Inductive Artifact :=
| Complete (r : Extracted)
| Truncated.

(** [DEEPSEEK_OCR_RESULTS_DIR], [self.errors] and the calls made to the
    outside world. *)
Record State := {
  results : gmap str (gmap nat Artifact);
  errors : list ErrorRecord;
  trace : list Event
}.

Definition log_event (pdf : Pdf) (page_index : nat) (a : Action) (s : State) : State :=
  {| results := results s;
     errors := errors s;
     trace := trace s ++ [event pdf page_index a] |}.

(** [self.errors.append(e)] *)
Definition add_error (e : ErrorRecord) (s : State) : State :=
  {| results := results s;
     errors := errors s ++ [e];
     trace := trace s |}.

Definition set_results (r : gmap str (gmap nat Artifact)) (s : State) : State :=
  {| results := r;
     errors := errors s;
     trace := trace s |}.

(** The directory [DEEPSEEK_OCR_RESULTS_DIR / pdf_name], empty when it is not there. *)
Definition results_dir (pdf : Pdf) (s : State) : gmap nat Artifact :=
  default ∅ (results s !! stem pdf).

(** ** Conventional extraction *)

(** [font_sizes]: a dict from a font size to the texts of that size,
    its keys in the order of insertion and compared with [==]. *)
Definition FontSizes := list (float * list str).

(** [if size not in font_sizes: font_sizes[size] = []] and
    [font_sizes[size].append(text_content)] *)
Fixpoint font_sizes_append (font_sizes : FontSizes) (size : float) (text_content : str)
    : FontSizes :=
  match font_sizes with
  | [] => [(size, [text_content])]
  | (k, texts) :: d =>
      if PrimFloat.eqb k size then (k, texts ++ [text_content]) :: d
      else (k, texts) :: font_sizes_append d size text_content
  end.

(** [font_sizes[size]] for a key of the dict. *)
Fixpoint font_sizes_get (font_sizes : FontSizes) (size : float) : list str :=
  match font_sizes with
  | [] => []
  | (k, texts) :: d => if PrimFloat.eqb k size then texts else font_sizes_get d size
  end.

(** The spans the three nested loops visit, in their order: those of
    the lines of the text blocks. *)
Definition text_spans (blocks : list Block) : list Span :=
  concat ((fun block => if Nat.eqb (block_type block) 0 then concat (block_lines block) else [])
            <$> blocks).

Definition collect_font_sizes (blocks : list Block) : FontSizes :=
  foldl (fun font_sizes span =>
           match strip (span_text span) with
           | [] => font_sizes
           | text_content => font_sizes_append font_sizes (span_size span) text_content
           end) [] (text_spans blocks).

Fixpoint insert_descending (x : float) (l : list float) : list float :=
  match l with
  | [] => [x]
  | y :: l' => if PrimFloat.ltb y x then x :: l else y :: insert_descending x l'
  end.

(** [sorted(keys, reverse=True)]: equal keys keep their order. *)
Definition sorted_descending (keys : list float) : list float :=
  foldl (fun sorted x => insert_descending x sorted) [] keys.

(** [min] of the non-empty [k :: keys]: the first of the least. *)
Definition py_min (k : float) (keys : list float) : float :=
  foldl (fun m x => if PrimFloat.ltb x m then x else m) k keys.

(** The float of the literal [1.2]. *)
Definition heading_factor : float := 0x1.3333333333333p+0%float.

(** The texts set in one of the two largest font sizes of the page,
    where that size is more than [1.2] times the smallest. *)
Definition find_headings (font_sizes : FontSizes) : list str :=
  match font_sizes.*1 with
  | [] => []
  | k :: keys =>
      let sorted_sizes := sorted_descending (k :: keys) in
      foldl (fun headings size =>
               if PrimFloat.ltb (PrimFloat.mul (py_min k keys) heading_factor) size
               then headings ++ font_sizes_get font_sizes size
               else headings) [] (take 2 sorted_sizes)
  end.

(** [str(idx)] *)
Definition str_of_nat (n : nat) : str :=
  of_string (DecimalString.NilEmpty.string_of_uint (Nat.to_uint n)).

Definition image_entry (idx : nat) (bbox : Rect) : json :=
  JObj [ (of_string "id", JStr (of_string "IMAGE_" ++ str_of_nat idx));
         (of_string "bbox", JArr [JFloat (x0 bbox); JFloat (y0 bbox);
                                  JFloat (x1 bbox); JFloat (y1 bbox)]);
         (of_string "caption", JStr []);
         (of_string "description", JStr (of_string "Image embedded in PDF (not analyzed)"));
         (of_string "type", JStr (of_string "embedded"));
         (of_string "position", JStr (of_string "unknown")) ].

(** The loop over [enumerate(image_list, 1)]: an image whose
    [get_image_bbox] raises is passed over. *)
Fixpoint collect_images (idx : nat) (image_list : list (call Rect)) : list json :=
  match image_list with
  | [] => []
  | Returns bbox :: rest => image_entry idx bbox :: collect_images (S idx) rest
  | Raises _ :: rest => collect_images (S idx) rest
  end.

Definition conventional_structure (headings : list str) (tables images : list json) : json :=
  JObj [ (of_string "has_headings", JBool (0 <? length headings)%nat);
         (of_string "has_tables", JBool (0 <? length tables)%nat);
         (of_string "has_lists", JBool false);
         (of_string "has_images", JBool (0 <? length images)%nat);
         (of_string "document_type", JStr (of_string "digital_pdf")) ].

Definition conventional_metadata (pdf : Pdf) (page_num : nat) : Metadata :=
  {| md_pdf_name := stem pdf;
     md_page_number := page_num;
     md_dpi := None;
     md_extraction_method := of_string "conventional";
     md_ocr_engine := of_string "pymupdf" |}.

(** The metadata [process_page_image] attaches to a result. *)
Definition ocr_metadata (pdf : Pdf) (page_num : nat) : Metadata :=
  {| md_pdf_name := stem pdf;
     md_page_number := page_num;
     md_dpi := Some DPI;
     md_extraction_method := of_string "deepseek_ocr_vertex_ai";
     md_ocr_engine := of_string "deepseek" |}.

(** The record [process_page_image] appends when the recognition fails. *)
Definition recognition_error (pdf : Pdf) (page_num : nat) (e : str) : ErrorRecord :=
  {| err_pdf_file := stem pdf ++ of_string ".pdf";
     err_page := PageNo page_num;
     err_stage := deepseek_ocr_processing;
     err_error := e |}.

(** The record [save_page_result] appends when the write fails. *)
Definition save_error (pdf : Pdf) (page_num : nat) (e : str) : ErrorRecord :=
  {| err_pdf_file := stem pdf ++ of_string ".pdf";
     err_page := PageNo page_num;
     err_stage := save_result;
     err_error := e |}.

(** The record the page loop of [process_pdf] appends for an exception. *)
Definition page_error (pdf : Pdf) (page_index : nat) (e : str) : ErrorRecord :=
  {| err_pdf_file := name pdf;
     err_page := PageNo page_index;
     err_stage := page_processing;
     err_error := e |}.

(** The record [process_pdf] appends for an exception outside the page loop. *)
Definition open_error (pdf : Pdf) (e : str) : ErrorRecord :=
  {| err_pdf_file := name pdf;
     err_page := PageNA;
     err_stage := pdf_open;
     err_error := e |}.

(** The stats [process_pdf] starts from. *)
Definition fresh_stats (pdf : Pdf) : Doc.t :=
  {| Doc.pdf_name := stem pdf;
     Doc.total_pages := 0;
     Doc.successful_pages := 0;
     Doc.failed_pages := 0;
     Doc.conventional_pages := 0;
     Doc.deepseek_ocr_pages := 0 |}%nat.

Definition set_total (n : nat) (stats : Doc.t) : Doc.t :=
  {| Doc.pdf_name := Doc.pdf_name stats;
     Doc.total_pages := n;
     Doc.successful_pages := Doc.successful_pages stats;
     Doc.failed_pages := Doc.failed_pages stats;
     Doc.conventional_pages := Doc.conventional_pages stats;
     Doc.deepseek_ocr_pages := Doc.deepseek_ocr_pages stats |}.

(** [stats['successful_pages'] += 1] *)
Definition count_successful (stats : Doc.t) : Doc.t :=
  {| Doc.pdf_name := Doc.pdf_name stats;
     Doc.total_pages := Doc.total_pages stats;
     Doc.successful_pages := Doc.successful_pages stats + 1;
     Doc.failed_pages := Doc.failed_pages stats;
     Doc.conventional_pages := Doc.conventional_pages stats;
     Doc.deepseek_ocr_pages := Doc.deepseek_ocr_pages stats |}%nat.

(** [stats['failed_pages'] += 1] *)
Definition count_failed (stats : Doc.t) : Doc.t :=
  {| Doc.pdf_name := Doc.pdf_name stats;
     Doc.total_pages := Doc.total_pages stats;
     Doc.successful_pages := Doc.successful_pages stats;
     Doc.failed_pages := Doc.failed_pages stats + 1;
     Doc.conventional_pages := Doc.conventional_pages stats;
     Doc.deepseek_ocr_pages := Doc.deepseek_ocr_pages stats |}%nat.

(** [stats['conventional_pages'] += 1] *)
Definition count_conventional (stats : Doc.t) : Doc.t :=
  {| Doc.pdf_name := Doc.pdf_name stats;
     Doc.total_pages := Doc.total_pages stats;
     Doc.successful_pages := Doc.successful_pages stats;
     Doc.failed_pages := Doc.failed_pages stats;
     Doc.conventional_pages := Doc.conventional_pages stats + 1;
     Doc.deepseek_ocr_pages := Doc.deepseek_ocr_pages stats |}%nat.

(** [stats['deepseek_ocr_pages'] += 1] *)
Definition count_deepseek_ocr (stats : Doc.t) : Doc.t :=
  {| Doc.pdf_name := Doc.pdf_name stats;
     Doc.total_pages := Doc.total_pages stats;
     Doc.successful_pages := Doc.successful_pages stats;
     Doc.failed_pages := Doc.failed_pages stats;
     Doc.conventional_pages := Doc.conventional_pages stats;
     Doc.deepseek_ocr_pages := Doc.deepseek_ocr_pages stats + 1 |}%nat.

(** [overall_stats] as [process_all_pdfs] creates it. *)
Definition overall_stats_init (n : nat) : Run.t :=
  {| Run.total_pdfs := n;
     Run.processed_pdfs := 0;
     Run.total_pages := 0;
     Run.successful_pages := 0;
     Run.failed_pages := 0;
     Run.conventional_pages := 0;
     Run.deepseek_ocr_pages := 0;
     Run.pdf_details := [] |}%nat.

(** The body of the loop of [process_all_pdfs] after [process_pdf]. *)
Definition merge_stats (overall : Run.t) (stats : Doc.t) : Run.t :=
  {| Run.total_pdfs := Run.total_pdfs overall;
     Run.processed_pdfs := Run.processed_pdfs overall + 1;
     Run.total_pages := Run.total_pages overall + Doc.total_pages stats;
     Run.successful_pages := Run.successful_pages overall + Doc.successful_pages stats;
     Run.failed_pages := Run.failed_pages overall + Doc.failed_pages stats;
     Run.conventional_pages := Run.conventional_pages overall + Doc.conventional_pages stats;
     Run.deepseek_ocr_pages := Run.deepseek_ocr_pages overall + Doc.deepseek_ocr_pages stats;
     Run.pdf_details := Run.pdf_details overall ++ [stats] |}%nat.

(** The value [process_all_pdfs] returns: the dict with [total_pdfs]
    alone when there is no PDF, [overall_stats] otherwise. *)
Inductive Overall :=
| NoPdfs
| Stats (overall_stats : Run.t).

(** The files a run writes besides the page artifacts: the error log
    ([OCR_ERRORS_FILE]) and the summary ([_processing_summary.json]). *)
Record Reports := {
  error_log : option (Report (list ErrorRecord));
  summary : option (Report Run.t)
}.

Record Disk := {
  write_error_log : WriteResult;           (* pd.DataFrame(self.errors).to_csv(...) *)
  write_summary : WriteResult              (* open(summary_path, 'w'), json.dump *)
}.

(** [save_error_log]: the exception of the write is logged and dropped. *)
Definition save_error_log (disk : Disk) (s : State) (r : Reports) : Reports :=
  match errors s with
  | [] => r
  | _ :: _ =>
      {| error_log := written (write_error_log disk) (errors s) (error_log r);
         summary := summary r |}
  end.

(** [save_summary] *)
Definition save_summary (disk : Disk) (stats : Run.t) (r : Reports) : Reports :=
  {| error_log := error_log r;
     summary := written (write_summary disk) stats (summary r) |}.

Definition zero_division_error : str := of_string "division by zero".

(** [print_summary]: the success rate divides by [stats['total_pages']]. *)
Definition print_summary (stats : Run.t) : call unit :=
  if Nat.eqb (Run.total_pages stats) 0 then Raises zero_division_error else Returns ().

Section Pipeline.

(** [json.loads]; [None] stands for [json.JSONDecodeError]. *)
Variable json_loads : str -> option json.

(** The layout PyMuPDF reports for a page of a PDF, pages from 1. *)
Variable layout : Pdf -> nat -> Layout.

(** [extract_text_conventional] *)
Definition extract_text_conventional (pdf : Pdf) (page_num : nat) : call Extracted :=
  let text := get_text pdf page_num in
  match get_text_dict (layout pdf page_num) with
  | Raises e => Raises e
  | Returns blocks =>
      let headings := find_headings (collect_font_sizes blocks) in
      let tables : list json := [] in
      match get_images (layout pdf page_num) with
      | Raises e => Raises e
      | Returns image_list =>
          let images := collect_images 1 image_list in
          Returns
            {| body :=
                 {| text := JStr text;
                    headings := JArr (JStr <$> take 10 headings);
                    tables := JArr tables;
                    images := JArr images;
                    structure := conventional_structure headings tables images;
                    raw_response := None;
                    metadata := None |};
               meta := conventional_metadata pdf page_num |}
      end
  end.

(** [process_page_image]: the recognition of a rendered page. *)
Definition process_page_image (pdf : Pdf) (page_num : nat) (s : State)
    : option Extracted * State :=
  let s := log_event pdf page_num Recognize s in
  let failure e := (None, add_error (recognition_error pdf page_num e) s) in
  match generate json_loads pdf page_num with
  | Raises e => failure e
  | Returns result =>
      match py_len (text result) with
      | Some _ => (Some {| body := result; meta := ocr_metadata pdf page_num |}, s)
      | None => failure type_error
      end
  end.

(** [save_page_result]; the [mkdir] stands outside the [try]. *)
Definition save_page_result (result : Extracted) (pdf : Pdf) (page_num : nat) (s : State)
    : call unit * State :=
  match mkdir_results pdf with
  | Raises e => (Raises e, s)
  | Returns _ =>
      let dir := results_dir pdf s in
      let s := set_results (<[stem pdf := dir]> (results s)) s in
      let s := log_event pdf page_num WriteArtifact s in
      match write_json pdf page_num with
      | Written =>
          (Returns (),
           set_results (<[stem pdf := <[page_num := Complete result]> dir]> (results s)) s)
      | OpenFails e => (Returns (), add_error (save_error pdf page_num e) s)
      | DumpFails e =>
          (Returns (),
           add_error (save_error pdf page_num e)
             (set_results (<[stem pdf := <[page_num := Truncated]> dir]> (results s)) s))
      end
  end.

(** The handler of the [try] inside the page loop. *)
Definition page_exception (pdf : Pdf) (page_index : nat) (e : str) (stats : Doc.t) (s : State)
    : Doc.t * State :=
  (count_failed stats, add_error (page_error pdf page_index e) s).

(** [if result: self.save_page_result(...)] and the count of the
    success, for a result, which is a dict with keys and so true. *)
Definition save_and_count (result : Extracted) (pdf : Pdf) (page_index : nat)
    (stats : Doc.t) (s : State) : Doc.t * State :=
  match save_page_result result pdf page_index s with
  | (Returns _, s) => (count_successful stats, s)
  | (Raises e, s) => page_exception pdf page_index e stats s
  end.

(** The body of the page loop of [process_pdf]; [page_num] counts from 0. *)
Definition process_page (pdf : Pdf) (page_num : nat) (stats : Doc.t) (s : State)
    : Doc.t * State :=
  let page_index := (page_num + 1)%nat in
  if check_page_has_text (get_text pdf page_index) then
    match extract_text_conventional pdf page_index with
    | Raises e => page_exception pdf page_index e stats s
    | Returns result => save_and_count result pdf page_index (count_conventional stats) s
    end
  else
    let s := log_event pdf page_index RenderPage s in
    match get_pixmap pdf page_index with
    | Raises e => page_exception pdf page_index e stats s
    | Returns _ =>
        match process_page_image pdf page_index s with
        | (Some result, s) =>
            save_and_count result pdf page_index (count_deepseek_ocr stats) s
        | (None, s) => (count_failed stats, s)
        end
    end.

Fixpoint run_pages (pdf : Pdf) (pages : list nat) (stats : Doc.t) (s : State)
    : Doc.t * State :=
  match pages with
  | [] => (stats, s)
  | page_num :: rest =>
      let '(stats, s) := process_page pdf page_num stats s in
      run_pages pdf rest stats s
  end.

(** [process_pdf] *)
Definition process_pdf (pdf : Pdf) (s : State) : Doc.t * State :=
  let stats := fresh_stats pdf in
  match fitz_open pdf with
  | Raises e => (stats, add_error (open_error pdf e) s)
  | Returns n =>
      let stats := set_total n stats in
      match mkdir_temp pdf with
      | Raises e => (stats, add_error (open_error pdf e) s)
      | Returns _ => run_pages pdf (seq 0 n) stats s
      end
  end.

(** The stats of the PDFs of a corpus, each as [process_pdf] returns
    them from the state [s]. *)
Definition corpus_stats (pdf_files : list Pdf) (s : State) : list Doc.t :=
  (fun pdf => (process_pdf pdf s).1) <$> pdf_files.

(** The loop of [process_all_pdfs]. *)
Fixpoint run_pdfs (pdf_files : list Pdf) (overall_stats : Run.t) (s : State)
    : Run.t * State :=
  match pdf_files with
  | [] => (overall_stats, s)
  | pdf :: rest =>
      let '(stats, s) := process_pdf pdf s in
      run_pdfs rest (merge_stats overall_stats stats) s
  end.

(** [process_all_pdfs]; it raises what [print_summary] raises, after
    the reports are written.  [cleanup_temp_images] removes the page
    images, which the state does not hold, and drops its own exceptions. *)
Definition process_all_pdfs (disk : Disk) (pdf_files : list Pdf) (cleanup_temp : bool)
    (s : State) (r : Reports) : call Overall * State * Reports :=
  match pdf_files with
  | [] => (Returns NoPdfs, s, r)
  | _ :: _ =>
      let '(overall_stats, s) := run_pdfs pdf_files (overall_stats_init (length pdf_files)) s in
      let r := match errors s with [] => r | _ :: _ => save_error_log disk s r end in
      let r := save_summary disk overall_stats r in
      match print_summary overall_stats with
      | Raises e => (Raises e, s, r)
      | Returns _ => (Returns (Stats overall_stats), s, r)
      end
  end.

(** [main]: the exit status.  [init] is the construction of the
    pipeline with its client, [test_connection] the answer of
    [vertex_client.test_connection()]; a fresh pipeline has no error
    yet and finds [files] on disk. *)
Definition main (disk : Disk) (init : call unit) (test_connection : bool)
    (pdf_files : list Pdf) (files : gmap str (gmap nat Artifact)) (r : Reports)
    : nat * State * Reports :=
  let s := {| results := files; errors := []; trace := [] |} in
  match init with
  | Raises _ => (1%nat, s, r)
  | Returns _ =>
      if test_connection then
        match process_all_pdfs disk pdf_files true s r with
        | (Returns stats, s, r) =>
            let failed_pages :=
              match stats with NoPdfs => 0%nat | Stats o => Run.failed_pages o end in
            (if (0 <? failed_pages)%nat then 1%nat else 0%nat, s, r)
        | (Raises _, s, r) => (1%nat, s, r)
        end
      else (1%nat, s, r)
  end.

End Pipeline.

(** ** Reading a state *)

#[global] Instance deepseek_stage_eq_dec : EqDecision Stage.
Proof. solve_decision. Defined.

(** The records of the pages that count as failed: every record but
    those of a failed write and of a PDF that did not open. *)
Definition page_failures (es : list ErrorRecord) : list ErrorRecord :=
  List.filter (fun e => bool_decide (err_stage e = deepseek_ocr_processing)
                        || bool_decide (err_stage e = page_processing)) es.

Definition page_of (e : ErrorRecord) : option nat :=
  match err_page e with
  | PageNo k => Some k
  | PageNA => None
  end.

(** The file [<q>.json] in the results directory of the PDF with stem
    [k], when directory and file exist. *)
Definition lookup_file (k : str) (q : nat) (s : State) : option Artifact :=
  results s !! k ≫= (fun dir => dir !! q).

Definition is_render (e : Event) : bool :=
  match ev_action e with RenderPage => true | _ => false end.

(** ** Concrete pages *)

(** A page with a title in 18 points over a line in 10 points, an
    image block, and two images, the first of which has no box. *)
Definition title_page : Layout :=
  {| get_text_dict :=
       Returns
         [ {| block_type := 0;
              block_lines :=
                [ [ {| span_size := 18%float; span_text := of_string " Annual report " |} ];
                  [ {| span_size := 10%float; span_text := rich_text |};
                    {| span_size := 10%float; span_text := of_string "  " |} ] ] |};
           {| block_type := 1; block_lines := [] |} ];
     get_images :=
       Returns
         [ Raises (of_string "bad xref");
           Returns {| x0 := of_string "72.0"; y0 := of_string "90.5";
                      x1 := of_string "300.0"; y1 := of_string "240.25" |} ] |}.

Definition title_pages : Pdf -> nat -> Layout := fun _ _ => title_page.

Definition empty_state : State := {| results := ∅; errors := []; trace := [] |}.

Definition no_reports : Reports := {| error_log := None; summary := None |}.

Definition sound_disk : Disk := {| write_error_log := Written; write_summary := Written |}.

End DeepSeek.
(** * Properties *)

(** ** Strings *)

Lemma lstrip_decompose (s : str) :
  exists w, s = w ++ lstrip s /\ Forall (fun c => isspace c = true) w.
Proof.
  induction s as [|c s [w [Hs Hw]]]; simpl.
  - exists []. split; [reflexivity | constructor].
  - destruct (isspace c) eqn:Hc.
    + exists (c :: w). split; [simpl; congruence | constructor; assumption].
    + exists []. split; [reflexivity | constructor].
Qed.

Lemma rstrip_decompose (s : str) :
  exists w, s = rstrip s ++ w /\ Forall (fun c => isspace c = true) w.
Proof.
  destruct (lstrip_decompose (rev s)) as [w [Hs Hw]].
  exists (rev w). split.
  - unfold rstrip. rewrite <- rev_app_distr, <- Hs. symmetry. apply rev_involutive.
  - apply Forall_rev. exact Hw.
Qed.

Lemma split_spaces (w : str) :
  Forall (fun c => isspace c = true) w -> split_from [] w = [].
Proof.
  induction 1 as [|c w Hc _ IH]; [reflexivity|]. simpl. rewrite Hc. exact IH.
Qed.

Lemma split_from_spaces (cur w : str) :
  Forall (fun c => isspace c = true) w ->
  split_from cur w = split_from cur [].
Proof.
  intros Hw. destruct Hw as [|c w Hc Hw]; [reflexivity|].
  simpl. rewrite Hc. rewrite (split_spaces w Hw). destruct cur; reflexivity.
Qed.

Lemma split_from_app_spaces (s w cur : str) :
  Forall (fun c => isspace c = true) w ->
  split_from cur (s ++ w) = split_from cur s.
Proof.
  intros Hw. revert cur. induction s as [|c s IH]; intros cur; simpl.
  - apply split_from_spaces, Hw.
  - destruct (isspace c); [destruct cur|]; rewrite ?IH; reflexivity.
Qed.

Lemma split_spaces_app (w s : str) :
  Forall (fun c => isspace c = true) w ->
  split_from [] (w ++ s) = split_from [] s.
Proof.
  induction 1 as [|c w Hc _ IH]; [reflexivity|]. simpl. rewrite Hc. exact IH.
Qed.

(** Stripping a text does not change its words. *)
Lemma split_strip (s : str) : split (strip s) = split s.
Proof.
  unfold split, strip.
  destruct (lstrip_decompose s) as [w1 [H1 Hw1]].
  destruct (rstrip_decompose (lstrip s)) as [w2 [H2 Hw2]].
  rewrite H1 at 2. rewrite split_spaces_app by assumption.
  rewrite H2 at 2. rewrite split_from_app_spaces by assumption.
  reflexivity.
Qed.

(** ** C2: the selector *)



(** C2, as stated, fails: a text of 50 characters and 10 words, the last
    character being the newline that ends the page text, is sent to
    recognition, because the character threshold is applied to the
    stripped text. *)
Lemma selector_counts_stripped_text :
  length boundary_text = 50%nat /\
  length (split boundary_text) = 10%nat /\
  check_page_has_text boundary_text = false.
Proof. repeat split; vm_compute; reflexivity. Qed.

(** C2 (amended): the selector is a total function of the embedded text;
    it answers [true] (conventional) exactly when the text, stripped of
    leading and trailing whitespace, has at least 50 characters and the
    text has at least 10 words, and [false] (recognition required)
    otherwise, the empty text included. *)
Theorem selector_thresholds (embedded : str) :
  check_page_has_text embedded = true <->
  (50 <= length (strip embedded))%nat /\ (10 <= length (split embedded))%nat.
Proof.
  unfold check_page_has_text, MIN_TEXT_LENGTH, MIN_WORDS.
  rewrite split_strip, andb_true_iff, !Nat.leb_le. reflexivity.
Qed.

(** ** The page worker, path by path *)

Section PageWorker.

Variable json_loads : str -> option json.
Variable pdf : Pdf.

Lemma result_file_exists_dir (q : nat) (s : State) :
  result_file_exists pdf q s = bool_decide (is_Some (results_dir pdf s !! q)).
Proof.
  unfold result_file_exists, results_dir.
  destruct (results s !! stem pdf) as [dir|]; simpl; [reflexivity|].
  rewrite lookup_empty. symmetry. apply bool_decide_eq_false. intros [x Hx]. discriminate.
Qed.

Lemma generate_has_len (i : nat) (g : Result) :
  generate json_loads pdf i = Returns g -> py_len (text g) <> None.
Proof.
  unfold generate. destruct (generate_content pdf i) as [raw|]; [|discriminate].
  destruct (json_loads (clean_response raw)) as [[]|]; try discriminate.
  - simpl. destruct (py_len _) eqn:E; [|discriminate]. intros [= <-]. simpl. congruence.
  - intros [= <-]. discriminate.
Qed.

Lemma process_page_image_returns (i : nat) (s : State) (g : Result) :
  generate json_loads pdf i = Returns g ->
  process_page_image json_loads pdf i s =
    (Some (set_metadata g (gemini_metadata pdf i)),
     log_event pdf i Recognize (log_event pdf i AcquirePermit s)).
Proof.
  intros Hg. unfold process_page_image. rewrite Hg. simpl.
  destruct (py_len (text g)) eqn:E; [reflexivity|].
  exfalso. eapply generate_has_len; eassumption.
Qed.

Lemma process_page_image_raises (i : nat) (s : State) (e : str) :
  generate json_loads pdf i = Raises e ->
  process_page_image json_loads pdf i s =
    (None, add_error (recognition_error pdf i e)
             (log_event pdf i Recognize (log_event pdf i AcquirePermit s))).
Proof. intros Hg. unfold process_page_image. rewrite Hg. reflexivity. Qed.

Lemma results_dir_insert (s : State) (d : gmap nat Artifact) :
  results_dir pdf (set_results (<[stem pdf := d]> (results s)) s) = d.
Proof. unfold results_dir. simpl. rewrite lookup_insert_eq. reflexivity. Qed.

(** What the worker does on a page without artifact, following the
    oracles in the order in which the code consults them. *)
Lemma process_single_page_paths (p : nat) (s : State) :
  result_file_exists pdf (p + 1) s = false ->
  let i := (p + 1)%nat in
  let r := process_single_page json_loads pdf p s in
  let ev := event pdf i in
  processing_status r.2 = processing_status s /\
  (forall q, q <> i -> results_dir pdf r.2 !! q = results_dir pdf s !! q) /\
  match fitz_open pdf with
  | Raises e =>
      r.1 = page_failure i e /\ errors r.2 = errors s /\
      trace r.2 = trace s ++ [ev OpenDocument]
  | Returns n =>
      if decide (p < n)%nat then
        match get_pixmap pdf i with
        | Raises e =>
            r.1 = page_failure i e /\ errors r.2 = errors s /\
            trace r.2 = trace s ++ [ev OpenDocument; ev RenderPage]
        | Returns _ =>
            match generate json_loads pdf i with
            | Raises e =>
                r.1 = page_failure i no_result /\
                errors r.2 = errors s ++ [recognition_error pdf i e] /\
                trace r.2 = trace s ++ [ev OpenDocument; ev RenderPage;
                                        ev AcquirePermit; ev Recognize]
            | Returns g =>
                match mkdir_results pdf with
                | Raises e =>
                    r.1 = page_failure i e /\ errors r.2 = errors s /\
                    trace r.2 = trace s ++ [ev OpenDocument; ev RenderPage;
                                            ev AcquirePermit; ev Recognize]
                | Returns _ =>
                    r.1 = page_recognized i /\
                    trace r.2 = trace s ++ [ev OpenDocument; ev RenderPage; ev AcquirePermit;
                                            ev Recognize; ev WriteArtifact] /\
                    match write_json pdf i with
                    | Written =>
                        errors r.2 = errors s /\
                        results_dir pdf r.2 !! i =
                          Some (Complete (set_metadata g (gemini_metadata pdf i)))
                    | OpenFails e =>
                        errors r.2 = errors s ++ [save_error pdf i e] /\
                        results_dir pdf r.2 !! i = None
                    | DumpFails e =>
                        errors r.2 = errors s ++ [save_error pdf i e] /\
                        results_dir pdf r.2 !! i = Some Truncated
                    end
                end
            end
        end
      else
        r.1 = page_failure i index_error /\ errors r.2 = errors s /\
        trace r.2 = trace s ++ [ev OpenDocument]
  end.
Proof.
  intros Hno i r ev.
  assert (Hnone : results_dir pdf s !! i = None).
  { rewrite result_file_exists_dir in Hno. apply bool_decide_eq_false in Hno.
    destruct (results_dir pdf s !! i) eqn:E; [|reflexivity]. exfalso. apply Hno. eauto. }
  subst r. unfold process_single_page. rewrite Hno. fold i.
  destruct (fitz_open pdf) as [n|e]; [|simpl; auto].
  destruct (decide (p < n)%nat); [|simpl; auto].
  destruct (get_pixmap pdf i) as [[]|e]; [|simpl; rewrite <- app_assoc; auto].
  destruct (generate json_loads pdf i) as [g|e] eqn:Hg.
  - rewrite (process_page_image_returns _ _ _ Hg).
    unfold save_page_result.
    destruct (mkdir_results pdf) as [[]|e].
    + destruct (write_json pdf i) as [|e|e]; simpl;
        rewrite <- ?app_assoc; simpl;
        (split; [reflexivity|]);
        (split; [intros q Hq; unfold results_dir; simpl;
                 rewrite ?insert_insert_eq, lookup_insert_eq; simpl;
                 rewrite ?lookup_insert_ne by congruence; reflexivity|]);
        (split; [reflexivity|]); (split; [reflexivity|]); split; try reflexivity;
        unfold results_dir; simpl; rewrite ?insert_insert_eq, lookup_insert_eq; simpl;
        rewrite ?lookup_insert_eq; try reflexivity.
      exact Hnone.
    + simpl. rewrite <- !app_assoc. auto.
  - rewrite (process_page_image_raises _ _ _ Hg). simpl. rewrite <- !app_assoc. auto.
Qed.



(** A page that already has its artifact. *)
Lemma process_single_page_skips (p : nat) (s : State) :
  result_file_exists pdf (p + 1) s = true ->
  process_single_page json_loads pdf p s = (page_skipped (p + 1), s).
Proof. intros H. unfold process_single_page. rewrite H. reflexivity. Qed.

(** The worker of one page leaves the files of the other pages alone. *)
Lemma process_single_page_frame (p q : nat) (s : State) :
  q <> (p + 1)%nat ->
  result_file_exists pdf q (process_single_page json_loads pdf p s).2
  = result_file_exists pdf q s.
Proof.
  intros Hq. destruct (result_file_exists pdf (p + 1) s) eqn:Hex.
  - rewrite process_single_page_skips by exact Hex. reflexivity.
  - destruct (process_single_page_paths p s Hex) as (_ & Hframe & _).
    rewrite !result_file_exists_dir, Hframe by exact Hq. reflexivity.
Qed.

(** No artifact disappears. *)
Lemma process_single_page_keeps (p q : nat) (s : State) :
  result_file_exists pdf q s = true ->
  result_file_exists pdf q (process_single_page json_loads pdf p s).2 = true.
Proof.
  intros H. destruct (decide (q = (p + 1)%nat)) as [->|Hq].
  - rewrite process_single_page_skips by exact H. exact H.
  - rewrite process_single_page_frame by exact Hq. exact H.
Qed.

Lemma process_single_page_status (p : nat) (s : State) :
  processing_status (process_single_page json_loads pdf p s).2 = processing_status s.
Proof.
  destruct (result_file_exists pdf (p + 1) s) eqn:Hex.
  - rewrite process_single_page_skips by exact Hex. reflexivity.
  - apply (process_single_page_paths p s Hex).
Qed.

(** The events of one worker: none for a page with an artifact; otherwise
    the document is opened once, and at most one recognition call follows. *)
Lemma process_single_page_trace (p : nat) (s : State) :
  exists tr,
    trace (process_single_page json_loads pdf p s).2 = trace s ++ tr /\
    processed_pages tr = (if result_file_exists pdf (p + 1) s then [] else [(p + 1)%nat]) /\
    (result_file_exists pdf (p + 1) s = true -> tr = []).
Proof.
  destruct (result_file_exists pdf (p + 1) s) eqn:Hex.
  - rewrite process_single_page_skips by exact Hex. exists []. simpl.
    rewrite app_nil_r. auto.
  - destruct (process_single_page_paths p s Hex) as (_ & _ & H).
    destruct (fitz_open pdf) as [n|e].
    2:{ destruct H as (_ & _ & ->). eexists. split; [reflexivity|]. split; [reflexivity|discriminate]. }
    destruct (decide (p < n)%nat).
    2:{ destruct H as (_ & _ & ->). eexists. split; [reflexivity|]. split; [reflexivity|discriminate]. }
    destruct (get_pixmap pdf (p + 1)) as [[]|e].
    2:{ destruct H as (_ & _ & ->). eexists. split; [reflexivity|]. split; [reflexivity|discriminate]. }
    destruct (generate json_loads pdf (p + 1)) as [g|e].
    2:{ destruct H as (_ & _ & ->). eexists. split; [reflexivity|]. split; [reflexivity|discriminate]. }
    destruct (mkdir_results pdf) as [[]|e].
    2:{ destruct H as (_ & _ & ->). eexists. split; [reflexivity|]. split; [reflexivity|discriminate]. }
    destruct H as (_ & -> & _). eexists. split; [reflexivity|]. split; [reflexivity|discriminate].
Qed.

(** The error records of one worker are about its own page. *)
Lemma process_single_page_errors (p : nat) (s : State) :
  exists es,
    errors (process_single_page json_loads pdf p s).2 = errors s ++ es /\
    Forall (fun e => err_page e = PageNo (p + 1)) es.
Proof.
  destruct (result_file_exists pdf (p + 1) s) eqn:Hex.
  - rewrite process_single_page_skips by exact Hex. exists []. simpl.
    rewrite app_nil_r. auto.
  - destruct (process_single_page_paths p s Hex) as (_ & _ & H).
    destruct (fitz_open pdf) as [n|e].
    2:{ destruct H as (_ & -> & _). exists []. rewrite app_nil_r. auto. }
    destruct (decide (p < n)%nat).
    2:{ destruct H as (_ & -> & _). exists []. rewrite app_nil_r. auto. }
    destruct (get_pixmap pdf (p + 1)) as [[]|e].
    2:{ destruct H as (_ & -> & _). exists []. rewrite app_nil_r. auto. }
    destruct (generate json_loads pdf (p + 1)) as [g|e].
    2:{ destruct H as (_ & -> & _). eexists. split; [reflexivity|]. repeat constructor. }
    destruct (mkdir_results pdf) as [[]|e].
    2:{ destruct H as (_ & -> & _). exists []. rewrite app_nil_r. auto. }
    destruct H as (_ & _ & H). destruct (write_json pdf (p + 1)) as [|e|e];
      destruct H as (-> & _).
    + exists []. rewrite app_nil_r. auto.
    + eexists. split; [reflexivity|]. repeat constructor.
    + eexists. split; [reflexivity|]. repeat constructor.
Qed.

(** A page that goes through is a success, whatever becomes of the write. *)
Lemma process_single_page_succeeds (p n : nat) (s : State) :
  fitz_open pdf = Returns n -> (p < n)%nat ->
  result_file_exists pdf (p + 1) s = true \/ page_goes_through json_loads pdf (p + 1) ->
  success (process_single_page json_loads pdf p s).1 = true.
Proof.
  intros Hopen Hp Hgood. destruct (result_file_exists pdf (p + 1) s) eqn:Hex.
  - rewrite process_single_page_skips by exact Hex. reflexivity.
  - destruct Hgood as [|(Hpix & [g Hg] & Hdir)]; [discriminate|].
    destruct (process_single_page_paths p s Hex) as (_ & _ & H).
    rewrite Hopen, Hpix, Hg, Hdir in H. destruct (decide (p < n)%nat); [|contradiction].
    destruct H as (-> & _). reflexivity.
Qed.

(** A page whose recognition call fails: a failure, with the record of
    [process_page_image]. *)
Lemma process_single_page_recognition_fails (p n : nat) (e : str) (s : State) :
  fitz_open pdf = Returns n -> (p < n)%nat ->
  result_file_exists pdf (p + 1) s = false ->
  get_pixmap pdf (p + 1) = Returns () ->
  generate json_loads pdf (p + 1) = Raises e ->
  (process_single_page json_loads pdf p s).1 = page_failure (p + 1) no_result /\
  errors (process_single_page json_loads pdf p s).2
  = errors s ++ [recognition_error pdf (p + 1) e].
Proof.
  intros Hopen Hp Hex Hpix Hg.
  destruct (process_single_page_paths p s Hex) as (_ & _ & H).
  rewrite Hopen, Hpix, Hg in H. destruct (decide (p < n)%nat); [|contradiction].
  destruct H as (-> & -> & _). auto.
Qed.

(** A page that goes through and is written has its artifact afterwards. *)
Lemma process_single_page_writes (p n : nat) (s : State) :
  fitz_open pdf = Returns n -> (p < n)%nat ->
  result_file_exists pdf (p + 1) s = true \/
    (page_goes_through json_loads pdf (p + 1) /\ write_json pdf (p + 1) = Written) ->
  result_file_exists pdf (p + 1) (process_single_page json_loads pdf p s).2 = true.
Proof.
  intros Hopen Hp Hgood. destruct (result_file_exists pdf (p + 1) s) eqn:Hex.
  - rewrite process_single_page_skips by exact Hex. exact Hex.
  - destruct Hgood as [|((Hpix & [g Hg] & Hdir) & Hw)]; [discriminate|].
    destruct (process_single_page_paths p s Hex) as (_ & _ & H).
    rewrite Hopen, Hpix, Hg, Hdir, Hw in H. destruct (decide (p < n)%nat); [|contradiction].
    destruct H as (_ & _ & _ & H). rewrite result_file_exists_dir, H.
    apply bool_decide_eq_true. eauto.
Qed.

End PageWorker.

(** ** The loop over the pages of one PDF *)

Section DocumentScheduler.

Variable json_loads : str -> option json.
Variable pdf : Pdf.

Lemma tally_results (st : Doc.t) (r : PageResult) (s : State) :
  results (tally pdf st r s).2 = results s /\
  trace (tally pdf st r s).2 = trace s /\
  processing_status (tally pdf st r s).2 = processing_status s.
Proof. unfold tally. destruct (success r); auto. Qed.

Lemma tally_exists (st : Doc.t) (r : PageResult) (s : State) (q : nat) :
  result_file_exists pdf q (tally pdf st r s).2 = result_file_exists pdf q s.
Proof.
  unfold result_file_exists. destruct (tally_results st r s) as (-> & _). reflexivity.
Qed.

Lemma tally_errors (st : Doc.t) (r : PageResult) (s : State) :
  errors (tally pdf st r s).2 =
  errors s ++ (if success r then []
               else [page_error pdf (page r) (default [] (error r))]).
Proof. unfold tally. destruct (success r); simpl; [rewrite app_nil_r|]; reflexivity. Qed.

Lemma tally_balanced (k : nat) (st : Doc.t) (r : PageResult) (s : State) :
  balanced k st -> balanced (S k) (tally pdf st r s).1.
Proof.
  intros (Hsum & (sk & Hsk & Hsucc) & Hconv). unfold tally, balanced.
  destruct (success r); simpl.
  - split; [lia|]. split; [|exact Hconv].
    destruct (skipped r); rewrite Hsk; simpl; eexists; (split; [reflexivity|lia]).
  - split; [lia|]. split; [|exact Hconv]. exists sk. auto.
Qed.

Lemma tally_keeps_total (st : Doc.t) (r : PageResult) (s : State) :
  Doc.total_pages (tally pdf st r s).1 = Doc.total_pages st.
Proof. unfold tally. destruct (success r); reflexivity. Qed.

Lemma run_pages_balanced (order : list nat) :
  forall k st s, balanced k st ->
    balanced (k + length order) (run_pages json_loads pdf order st s).1 /\
    Doc.total_pages (run_pages json_loads pdf order st s).1 = Doc.total_pages st.
Proof.
  induction order as [|p rest IH]; intros k st s Hb; simpl.
  - rewrite Nat.add_0_r. auto.
  - destruct (process_single_page json_loads pdf p s) as [r s1].
    destruct (tally pdf st r s1) as [st2 s2] eqn:Et.
    replace (k + S (length rest))%nat with (S k + length rest)%nat by lia.
    assert (Hb2 : balanced (S k) st2).
    { change st2 with (st2, s2).1. rewrite <- Et. apply tally_balanced, Hb. }
    destruct (IH (S k) st2 s2 Hb2) as [H1 H2]. split; [exact H1|].
    rewrite H2. change st2 with (st2, s2).1. rewrite <- Et. apply tally_keeps_total.
Qed.

Lemma processed_pages_app (t1 t2 : list Event) :
  processed_pages (t1 ++ t2) = processed_pages t1 ++ processed_pages t2.
Proof. unfold processed_pages. rewrite List.filter_app, fmap_app. reflexivity. Qed.

(** Each submitted page is processed or not according to the files that
    were there when the loop started. *)
Lemma run_pages_trace (order : list nat) :
  NoDup order ->
  forall st s, exists tr,
    trace (run_pages json_loads pdf order st s).2 = trace s ++ tr /\
    processed_pages tr =
      (fun p => (p + 1)%nat) <$>
        List.filter (fun p => negb (result_file_exists pdf (p + 1) s)) order.
Proof.
  induction 1 as [|p rest Hp Hnd IH]; intros st s; simpl.
  - exists []. rewrite app_nil_r. auto.
  - destruct (process_single_page_trace json_loads pdf p s) as (tr1 & Htr1 & Hpp & _).
    assert (Hframe : forall q, q ∈ rest ->
              result_file_exists pdf (q + 1) (process_single_page json_loads pdf p s).2
              = result_file_exists pdf (q + 1) s).
    { intros q Hq. apply process_single_page_frame. intros E.
      assert (q = p) by lia. subst q. contradiction. }
    destruct (process_single_page json_loads pdf p s) as [r s1]. simpl in *.
    pose proof (tally_results st r s1) as (_ & Htt & _).
    pose proof (tally_exists st r s1) as Hte.
    destruct (tally pdf st r s1) as [st2 s2]. simpl in *.
    destruct (IH st2 s2) as (tr2 & Htr2 & Hpp2).
    exists (tr1 ++ tr2). split.
    + rewrite Htr2, Htt, Htr1, app_assoc. reflexivity.
    + rewrite processed_pages_app, Hpp, Hpp2.
      rewrite (List.filter_ext_in
                 (fun q => negb (result_file_exists pdf (q + 1) s2))
                 (fun q => negb (result_file_exists pdf (q + 1) s)) rest).
      * destruct (result_file_exists pdf (p + 1) s); reflexivity.
      * intros q Hq. rewrite Hte, Hframe; [reflexivity|].
        apply list_elem_of_In. exact Hq.
Qed.

(** When every submitted page goes through and is written, every page
    that was submitted or already had its artifact has it in the end. *)
Lemma run_pages_all_written (n : nat) (order : list nat) :
  fitz_open pdf = Returns n ->
  forall st s,
    (forall p, p ∈ order -> (p < n)%nat) ->
    (forall p, p ∈ order ->
       result_file_exists pdf (p + 1) s = true \/
       (page_goes_through json_loads pdf (p + 1) /\ write_json pdf (p + 1) = Written)) ->
    forall q, result_file_exists pdf (q + 1) s = true \/ q ∈ order ->
      result_file_exists pdf (q + 1) (run_pages json_loads pdf order st s).2 = true.
Proof.
  intros Hopen. induction order as [|p rest IH]; intros st s Hlt Hgood q Hq; simpl.
  - destruct Hq as [Hq|Hq]; [exact Hq|]. inversion Hq.
  - pose proof (process_single_page_keeps json_loads pdf p) as Hkeep.
    pose proof (process_single_page_writes json_loads pdf p n s Hopen
                  (Hlt p ltac:(left)) (Hgood p ltac:(left))) as Hw.
    specialize (fun q => Hkeep q s).
    destruct (process_single_page json_loads pdf p s) as [r s1]. simpl in *.
    pose proof (tally_exists st r s1) as Hte.
    destruct (tally pdf st r s1) as [st2 s2]. simpl in *.
    apply IH.
    + intros p' Hp'. apply Hlt. right. exact Hp'.
    + intros p' Hp'. destruct (Hgood p' ltac:(right; exact Hp')) as [Hex|Hg].
      * left. rewrite Hte. apply Hkeep, Hex.
      * right. exact Hg.
    + destruct Hq as [Hq|Hq].
      * left. rewrite Hte. apply Hkeep, Hq.
      * apply elem_of_cons in Hq as [->|Hq]; [left|right; exact Hq].
        rewrite Hte. exact Hw.
Qed.



Lemma about_other_page (i k : nat) (es : list ErrorRecord) :
  k <> i ->
  Forall (fun e => err_page e = PageNo k) es ->
  List.filter (about_page i) es = [].
Proof.
  intros Hk. induction 1 as [|e es He _ IH]; [reflexivity|].
  simpl. unfold about_page at 1. rewrite He.
  destruct (Nat.eqb_spec k i); [contradiction|exact IH].
Qed.

(** One page whose recognition call fails among pages that go through. *)
Lemma run_pages_one_failure (n j : nat) (e : str) (order : list nat) :
  fitz_open pdf = Returns n ->
  get_pixmap pdf (j + 1) = Returns () ->
  generate json_loads pdf (j + 1) = Raises e ->
  NoDup order ->
  forall st s,
    (forall p, p ∈ order -> (p < n)%nat) ->
    (j ∈ order -> result_file_exists pdf (j + 1) s = false) ->
    (forall p, p ∈ order -> p <> j ->
       result_file_exists pdf (p + 1) s = true \/ page_goes_through json_loads pdf (p + 1)) ->
    let r := run_pages json_loads pdf order st s in
    let hit := if decide (j ∈ order) then 1%nat else 0%nat in
    Doc.failed_pages r.1 = (Doc.failed_pages st + hit)%nat /\
    (Doc.successful_pages r.1 + hit = Doc.successful_pages st + length order)%nat /\
    exists es,
      errors r.2 = errors s ++ es /\
      List.filter (about_page (j + 1)) es =
        if decide (j ∈ order)
        then [recognition_error pdf (j + 1) e; page_error pdf (j + 1) no_result]
        else [].
Proof.
  intros Hopen Hpix Hgen. induction 1 as [|p rest Hp Hnd IH]; intros st s Hlt Hj Hgood.
  - cbv zeta. cbn [run_pages fst snd length]. rewrite !decide_False by (intros H; inversion H).
    split; [lia|]. split; [lia|]. exists []. rewrite app_nil_r. auto.
  - cbv zeta. cbn [run_pages length].
    pose proof (process_single_page_keeps json_loads pdf p) as Hkeep.
    specialize (fun q => Hkeep q s).
    pose proof (process_single_page_frame json_loads pdf p) as Hframe.
    specialize (fun q => Hframe q s).
    pose proof (process_single_page_errors json_loads pdf p s) as (es1 & Hes1 & Hall1).
    assert (Hlt' : forall q, q ∈ rest -> (q < n)%nat)
      by (intros q Hq; apply Hlt; right; exact Hq).
    destruct (decide (p = j)) as [->|Hpj].
    + (* the failing page *)
      destruct (process_single_page_recognition_fails json_loads pdf j n e s
                  Hopen (Hlt j ltac:(left)) (Hj ltac:(left)) Hpix Hgen) as [Hr Herr].
      destruct (process_single_page json_loads pdf j s) as [r s1]. cbn [fst snd] in *. subst r.
      pose proof (tally_errors st (page_failure (j + 1) no_result) s1) as Hte.
      pose proof (tally_exists st (page_failure (j + 1) no_result) s1) as Hex.
      destruct (tally pdf st (page_failure (j + 1) no_result) s1) as [st2 s2] eqn:Et.
      assert (Hst2 : Doc.failed_pages st2 = (Doc.failed_pages st + 1)%nat /\
                     Doc.successful_pages st2 = Doc.successful_pages st).
      { unfold tally in Et. simpl in Et. injection Et as <- _. auto. }
      cbn [fst snd] in *.
      destruct (IH st2 s2 Hlt') as (Hf & Hs & es & Hes & Hfil).
      * intros Hin. contradiction.
      * intros q Hq Hqj. destruct (Hgood q ltac:(right; exact Hq) Hqj) as [H|H];
          [left; rewrite Hex; apply Hkeep, H | right; exact H].
      * rewrite decide_False in Hf by exact Hp. rewrite decide_False in Hs by exact Hp.
        rewrite decide_False in Hfil by exact Hp.
        rewrite !decide_True by left.
        destruct Hst2 as [Hf2 Hs2]. split; [lia|]. split; [lia|].
        exists ([recognition_error pdf (j + 1) e; page_error pdf (j + 1) no_result] ++ es).
        split.
        -- rewrite Hes, Hte, Herr. simpl. rewrite <- !app_assoc. reflexivity.
        -- rewrite List.filter_app, Hfil, app_nil_r. simpl.
           unfold about_page. simpl. rewrite Nat.eqb_refl. reflexivity.
    + (* a page that goes through *)
      pose proof (process_single_page_succeeds json_loads pdf p n s Hopen
                    (Hlt p ltac:(left)) (Hgood p ltac:(left) Hpj)) as Hsucc.
      destruct (process_single_page json_loads pdf p s) as [r s1]. cbn [fst snd] in *.
      pose proof (tally_errors st r s1) as Hte.
      pose proof (tally_exists st r s1) as Hex.
      destruct (tally pdf st r s1) as [st2 s2] eqn:Et.
      assert (Hst2 : Doc.failed_pages st2 = Doc.failed_pages st /\
                     Doc.successful_pages st2 = (Doc.successful_pages st + 1)%nat).
      { unfold tally in Et. rewrite Hsucc in Et. injection Et as <- _. auto. }
      cbn [fst snd] in *. rewrite Hsucc in Hte.
      destruct (IH st2 s2 Hlt') as (Hf & Hs & es & Hes & Hfil).
      * intros Hin. rewrite Hex, Hframe by lia. apply Hj. right. exact Hin.
      * intros q Hq Hqj. destruct (Hgood q ltac:(right; exact Hq) Hqj) as [H|H];
          [left; rewrite Hex; apply Hkeep, H | right; exact H].
      * assert (Hdec : (if decide (j ∈ p :: rest) then 1%nat else 0%nat)
                       = (if decide (j ∈ rest) then 1%nat else 0%nat) /\
                       forall A (a b : A), (if decide (j ∈ p :: rest) then a else b)
                                           = (if decide (j ∈ rest) then a else b)).
        { destruct (decide (j ∈ rest)) as [Hin|Hin].
          - rewrite decide_True by (right; exact Hin). split; [reflexivity|].
            intros A a b. rewrite decide_True by (right; exact Hin). reflexivity.
          - assert (Hn : ~ j ∈ p :: rest).
            { intros H. apply elem_of_cons in H as [H|H]; [congruence|contradiction]. }
            rewrite decide_False by exact Hn. split; [reflexivity|].
            intros A a b. rewrite decide_False by exact Hn. reflexivity. }
        destruct Hdec as [Hd1 Hd2]. rewrite Hd1, Hd2.
        destruct Hst2 as [Hf2 Hs2]. split; [lia|]. split; [lia|].
        exists (es1 ++ es). split.
        -- rewrite Hes, Hte, app_nil_r, Hes1, app_assoc. reflexivity.
        -- rewrite List.filter_app, Hfil.
           rewrite (about_other_page (j + 1) (p + 1) es1) by (lia || exact Hall1).
           reflexivity.
Qed.




End DocumentScheduler.

(** ** Lists of pages *)

Lemma filter_permutation {A} (f : A -> bool) (l1 l2 : list A) :
  l1 ≡ₚ l2 -> List.filter f l1 ≡ₚ List.filter f l2.
Proof.
  induction 1 as [|x l1 l2 _ IH|x y l|l1 l2 l3 _ IH1 _ IH2]; simpl.
  - reflexivity.
  - destruct (f x); [constructor|]; exact IH.
  - destruct (f x), (f y); try reflexivity. apply perm_swap.
  - etransitivity; eassumption.
Qed.

Lemma filter_shift (f : nat -> bool) (l : list nat) :
  (fun p => (p + 1)%nat) <$> List.filter (fun p => f (p + 1)%nat) l
  = List.filter f ((fun p => (p + 1)%nat) <$> l).
Proof.
  induction l as [|x l IH]; [reflexivity|]. simpl.
  destruct (f (x + 1)%nat); simpl; [f_equal|]; apply IH.
Qed.

Lemma seq_shift_1 (n : nat) : (fun p => (p + 1)%nat) <$> seq 0 n = seq 1 n.
Proof.
  rewrite <- seq_shift. apply list_fmap_ext. intros _ x _. lia.
Qed.

Lemma filter_negb_length {A} (f : A -> bool) (l : list A) :
  length (List.filter (fun x => negb (f x)) l) = (length l - length (List.filter f l))%nat.
Proof.
  induction l as [|x l IH]; [reflexivity|]. simpl.
  pose proof (List.filter_length_le f l).
  destruct (f x); simpl; lia.
Qed.

Lemma full_directory (d : gmap nat Artifact) (n : nat) :
  (forall i, (1 <= i <= n)%nat -> is_Some (d !! i)) -> (n <= size d)%nat.
Proof.
  intros H. rewrite <- size_dom.
  assert (Hsub : (list_to_set (seq 1 n) : gset nat) ⊆ dom d).
  { intros i Hi. apply elem_of_list_to_set, elem_of_seq in Hi.
    apply elem_of_dom, H. lia. }
  apply subseteq_size in Hsub. rewrite size_list_to_set in Hsub by apply NoDup_seq.
  rewrite length_seq in Hsub. exact Hsub.
Qed.

(** ** The document scheduler, case by case *)

Section Documents.

Variable json_loads : str -> option json.

Lemma process_pdf_complete (sched : Schedule) (pdf : Pdf) (s : State) (n k : nat) :
  is_pdf_already_processed pdf s = (true, n, k) ->
  process_pdf json_loads sched pdf s = (already_processed pdf n k, s).
Proof. intros H. unfold process_pdf. rewrite H. reflexivity. Qed.

Lemma process_pdf_dispatch (sched : Schedule) (pdf : Pdf) (s : State) (n : nat) :
  fitz_open pdf = Returns n ->
  mkdir_temp pdf = Returns () ->
  (is_pdf_already_processed pdf s).1.1 = false ->
  let r := run_pages json_loads pdf (completion sched (seq 0 n))
             (set_total n (fresh_stats pdf)) s in
  let st := set_status (if decide (Doc.failed_pages r.1 = 0)%nat
                        then completed else completed_with_errors) r.1 in
  process_pdf json_loads sched pdf s = (st, add_status st r.2).
Proof.
  intros Hopen Hmk Hpre. unfold process_pdf.
  destruct (is_pdf_already_processed pdf s) as [[c t] k]. simpl in Hpre. subst c.
  rewrite Hopen, Hmk. cbv zeta.
  destruct (run_pages json_loads pdf (completion sched (seq 0 n))
              (set_total n (fresh_stats pdf)) s) as [st s']. reflexivity.
Qed.

Lemma completion_NoDup (sched : Schedule) (n : nat) : NoDup (completion sched (seq 0 n)).
Proof. rewrite (completion_perm sched). apply NoDup_seq. Qed.

Lemma completion_elem (sched : Schedule) (n p : nat) :
  p ∈ completion sched (seq 0 n) <-> (p < n)%nat.
Proof. rewrite (completion_perm sched), elem_of_seq. lia. Qed.

Lemma completion_length (sched : Schedule) (n : nat) :
  length (completion sched (seq 0 n)) = n.
Proof. rewrite (completion_perm sched). apply length_seq. Qed.

Lemma present_complete (pdf : Pdf) (n : nat) (s : State) :
  all_pages_present pdf n s -> (0 < n)%nat -> fitz_open pdf = Returns n ->
  exists k, is_pdf_already_processed pdf s = (true, n, k).
Proof.
  intros Hall Hn Hopen. unfold is_pdf_already_processed.
  pose proof (Hall 1%nat ltac:(lia)) as H1. unfold result_file_exists in H1.
  destruct (results s !! stem pdf) as [dir|] eqn:Hdir; [|discriminate].
  rewrite Hopen. exists (size dir). rewrite bool_decide_eq_true_2; [reflexivity|].
  apply full_directory. intros i Hi. specialize (Hall i Hi).
  unfold result_file_exists in Hall. rewrite Hdir in Hall.
  apply bool_decide_eq_true in Hall. exact Hall.
Qed.

(** ** C1: the worker and the selector *)


(** ** C3: pages that already have their artifact *)

(** C3: a page whose artifact exists gets the outcome success/skipped
    and the state is left as it was: no event (opening, rendering,
    permit, recognition, write), no file, no error record.  In a run of
    the scheduler the processed pages are pages without artifact, and
    when the pages are dispatched they are exactly the pages of 1..N
    without artifact, N - K of them when K of the N artifacts exist. *)
Theorem existing_artifact_is_skipped (sched : Schedule) (pdf : Pdf) :
  (forall p s,
     result_file_exists pdf (p + 1) s = true ->
     process_single_page json_loads pdf p s = (page_skipped (p + 1), s)) /\
  (forall s, exists tr,
     trace (process_pdf json_loads sched pdf s).2 = trace s ++ tr /\
     (forall i, i ∈ processed_pages tr -> result_file_exists pdf i s = false) /\
     (forall n,
        fitz_open pdf = Returns n ->
        mkdir_temp pdf = Returns () ->
        (is_pdf_already_processed pdf s).1.1 = false ->
        processed_pages tr
          ≡ₚ List.filter (fun i => negb (result_file_exists pdf i s)) (seq 1 n) /\
        length (processed_pages tr)
          = (n - length (List.filter (fun i => result_file_exists pdf i s) (seq 1 n)))%nat)).
Proof.
  split; [intros p s; apply process_single_page_skips|].
  intros s.
  assert (Hidle : trace (process_pdf json_loads sched pdf s).2 = trace s ->
    (forall n, fitz_open pdf = Returns n -> mkdir_temp pdf = Returns () ->
               (is_pdf_already_processed pdf s).1.1 = false -> False) ->
    exists tr, trace (process_pdf json_loads sched pdf s).2 = trace s ++ tr /\
     (forall i, i ∈ processed_pages tr -> result_file_exists pdf i s = false) /\
     (forall n,
        fitz_open pdf = Returns n ->
        mkdir_temp pdf = Returns () ->
        (is_pdf_already_processed pdf s).1.1 = false ->
        processed_pages tr
          ≡ₚ List.filter (fun i => negb (result_file_exists pdf i s)) (seq 1 n) /\
        length (processed_pages tr)
          = (n - length (List.filter (fun i => result_file_exists pdf i s) (seq 1 n)))%nat)).
  { intros Htr Hno. exists []. rewrite app_nil_r. split; [exact Htr|]. split.
    - intros i Hi. inversion Hi.
    - intros n H1 H2 H3. exfalso. eapply Hno; eassumption. }
  destruct (is_pdf_already_processed pdf s) as [[c t] k] eqn:Hpre.
  destruct c.
  { apply Hidle; [|intros n _ _ H; discriminate].
    rewrite (process_pdf_complete sched pdf s t k Hpre). reflexivity. }
  destruct (fitz_open pdf) as [n|e] eqn:Hopen.
  2:{ apply Hidle; [|intros n H; discriminate].
      unfold process_pdf. rewrite Hpre, Hopen. reflexivity. }
  destruct (mkdir_temp pdf) as [[]|e] eqn:Hmk.
  2:{ apply Hidle; [|intros n' _ H; discriminate].
      unfold process_pdf. rewrite Hpre, Hopen, Hmk. reflexivity. }
  assert (Hpre' : (is_pdf_already_processed pdf s).1.1 = false) by (rewrite Hpre; reflexivity).
  rewrite (process_pdf_dispatch sched pdf s n Hopen Hmk Hpre'). cbv zeta. cbn [snd].
  destruct (run_pages_trace json_loads pdf _ (completion_NoDup sched n)
              (set_total n (fresh_stats pdf)) s) as (tr & Htr & Hpp).
  exists tr. split; [exact Htr|].
  pose proof (filter_shift (fun i => negb (result_file_exists pdf i s))
                (completion sched (seq 0 n))) as Hshift.
  cbv beta in Hshift. rewrite Hpp, Hshift. split.
  - intros i Hi. apply list_elem_of_In, List.filter_In in Hi as [_ Hi].
    apply negb_true_iff in Hi. exact Hi.
  - intros n' [= <-] _ _.
    assert (Hperm : List.filter (fun i => negb (result_file_exists pdf i s))
                      ((fun p => (p + 1)%nat) <$> completion sched (seq 0 n))
                    ≡ₚ List.filter (fun i => negb (result_file_exists pdf i s)) (seq 1 n)).
    { apply filter_permutation. rewrite (completion_perm sched), seq_shift_1. reflexivity. }
    split; [exact Hperm|].
    rewrite Hperm, filter_negb_length, length_seq. reflexivity.
Qed.



(** ** C4: the resumability precheck *)

(** C4 (amended): for a document with at least one page, when the
    results directory holds as many files as the document has pages the
    scheduler returns the stats marked [skipped_already_processed] at
    once and leaves the state as it was (no page processed, no
    recognition call); and after a first run in which every page went
    through and was written, any further run is skipped in this way. *)
Theorem complete_pdf_is_skipped (sched : Schedule) (pdf : Pdf) (n : nat) (s : State) :
  fitz_open pdf = Returns n ->
  (0 < n)%nat ->
  (size (results_dir pdf s) = n ->
   process_pdf json_loads sched pdf s = (already_processed pdf n n, s)) /\
  (mkdir_temp pdf = Returns () ->
   (forall i, (1 <= i <= n)%nat ->
      result_file_exists pdf i s = true \/
      (page_goes_through json_loads pdf i /\ write_json pdf i = Written)) ->
   forall sched',
     let s1 := (process_pdf json_loads sched pdf s).2 in
     Doc.status (process_pdf json_loads sched' pdf s1).1 = skipped_already_processed /\
     (process_pdf json_loads sched' pdf s1).2 = s1).
Proof.
  intros Hopen Hn. split.
  - intros Hsize. apply process_pdf_complete. unfold is_pdf_already_processed.
    unfold results_dir in Hsize. destruct (results s !! stem pdf) as [dir|]; simpl in Hsize.
    + rewrite Hopen, Hsize, bool_decide_eq_true_2 by lia. reflexivity.
    + rewrite map_size_empty in Hsize. lia.
  - intros Hmk Hgood sched' s1.
    assert (Hall : all_pages_present pdf n s1 \/
                   exists k, is_pdf_already_processed pdf s1 = (true, n, k)).
    { subst s1. destruct (is_pdf_already_processed pdf s) as [[c t] k] eqn:Hpre.
      destruct c.
      - right. rewrite (process_pdf_complete sched pdf s t k Hpre). cbn [snd].
        exists k. rewrite Hpre. f_equal. f_equal.
        unfold is_pdf_already_processed in Hpre.
        destruct (results s !! stem pdf); [|discriminate].
        rewrite Hopen in Hpre. congruence.
      - left. rewrite (process_pdf_dispatch sched pdf s n Hopen Hmk)
          by (rewrite Hpre; reflexivity).
        cbv zeta. cbn [snd]. intros i Hi.
        replace i with ((i - 1) + 1)%nat by lia.
        change (result_file_exists pdf (i - 1 + 1) (add_status ?st ?s'))
          with (result_file_exists pdf (i - 1 + 1) s').
        apply (run_pages_all_written json_loads pdf n); [exact Hopen| | |].
        + intros p Hp. apply completion_elem in Hp. exact Hp.
        + intros p Hp. apply completion_elem in Hp. apply Hgood. lia.
        + right. apply completion_elem. lia. }
    assert (Hdone : exists k, is_pdf_already_processed pdf s1 = (true, n, k)).
    { destruct Hall as [Hall|Hdone]; [|exact Hdone].
      apply present_complete; assumption. }
    destruct Hdone as [k Hk].
    rewrite (process_pdf_complete sched' pdf s1 n k Hk). auto.
Qed.

(** ** C5: a reply that is not JSON *)

(** C5 (amended): when the reply, stripped of its code fences and of
    surrounding whitespace, is rejected by [json.loads], the client
    returns the result whose text is the raw reply, whose lists are
    empty, whose structure booleans are false and whose [raw_response]
    is the raw reply; the recognition step records no error; and the
    worker, once the results directory is there, reports a success that
    the scheduler counts as such, with no error record when the write
    succeeds. *)
Theorem unparseable_reply_degrades (pdf : Pdf) (i : nat) (raw : str) :
  generate_content pdf i = Returns raw ->
  json_loads (clean_response raw) = None ->
  let degraded := raw_text_result raw in
  generate json_loads pdf i = Returns degraded /\
  (text degraded = JStr raw /\ headings degraded = JArr [] /\
   tables degraded = JArr [] /\ images degraded = JArr [] /\
   raw_response degraded = Some raw /\
   structure_flag degraded "has_headings" = JBool false /\
   structure_flag degraded "has_tables" = JBool false /\
   structure_flag degraded "has_lists" = JBool false /\
   structure_flag degraded "has_images" = JBool false) /\
  (forall s,
     (process_page_image json_loads pdf i s).1
       = Some (set_metadata degraded (gemini_metadata pdf i)) /\
     errors (process_page_image json_loads pdf i s).2 = errors s) /\
  (forall p n s st,
     i = (p + 1)%nat ->
     result_file_exists pdf i s = false ->
     fitz_open pdf = Returns n -> (p < n)%nat ->
     get_pixmap pdf i = Returns () ->
     mkdir_results pdf = Returns () ->
     let r := process_single_page json_loads pdf p s in
     let t := tally pdf st r.1 r.2 in
     r.1 = page_recognized i /\
     Doc.successful_pages t.1 = (Doc.successful_pages st + 1)%nat /\
     Doc.failed_pages t.1 = Doc.failed_pages st /\
     (write_json pdf i = Written ->
      errors t.2 = errors s /\
      results_dir pdf t.2 !! i
        = Some (Complete (set_metadata degraded (gemini_metadata pdf i))))).
Proof.
  intros Hraw Hparse degraded.
  assert (Hg : generate json_loads pdf i = Returns degraded).
  { unfold generate. rewrite Hraw, Hparse. reflexivity. }
  split; [exact Hg|]. split; [repeat split|]. split.
  - intros s. rewrite (process_page_image_returns json_loads pdf i s degraded Hg). auto.
  - intros p n s st -> Hex Hopen Hp Hpix Hdir r t.
    destruct (process_single_page_paths json_loads pdf p s Hex) as (_ & _ & H).
    rewrite Hopen, Hpix, Hg, Hdir in H. destruct (decide (p < n)%nat); [|contradiction].
    destruct H as (Hr & _ & Hw). fold r in Hr, Hw. subst t. rewrite Hr.
    split; [reflexivity|]. unfold tally. simpl. split; [reflexivity|].
    split; [reflexivity|]. intros Hwritten. rewrite Hwritten in Hw. exact Hw.
Qed.

(** ** C6: an artifact that cannot be persisted *)

(** C6 (amended): a page whose extraction succeeds and whose artifact
    cannot be persisted.  When the results directory of the document
    cannot be made, the worker reports the page as a failure, with the
    message of the exception; no [save_result] record is appended, and
    the scheduler counts the page as failed and records it under
    [page_processing], a stage distinct from that of a recognition
    failure.  When the directory is there and the write of the artifact
    fails, [save_page_result] appends one error record with stage
    [save_result], a stage distinct from that of a recognition failure
    and from that of a page failure; the worker still reports the page
    as a success, the scheduler counts it as such and adds no record.
    In both cases no complete artifact is on disk. *)
Theorem persistence_failure_outcomes (pdf : Pdf) (p n : nat) (g : Result) (s : State) :
  result_file_exists pdf (p + 1) s = false ->
  fitz_open pdf = Returns n -> (p < n)%nat ->
  get_pixmap pdf (p + 1) = Returns () ->
  generate json_loads pdf (p + 1) = Returns g ->
  (mkdir_results pdf = Returns () -> write_json pdf (p + 1) <> Written) ->
  let r := process_single_page json_loads pdf p s in
  save_result <> gemini_ocr_processing /\
  save_result <> page_processing /\
  page_processing <> gemini_ocr_processing /\
  (forall a, results_dir pdf r.2 !! (p + 1)%nat <> Some (Complete a)) /\
  match mkdir_results pdf with
  | Raises e =>
      r.1 = page_failure (p + 1) e /\
      errors r.2 = errors s /\
      results r.2 = results s /\
      forall st,
        errors (tally pdf st r.1 r.2).2 = errors r.2 ++ [page_error pdf (p + 1) e] /\
        err_stage (page_error pdf (p + 1) e) = page_processing /\
        Doc.successful_pages (tally pdf st r.1 r.2).1 = Doc.successful_pages st /\
        Doc.failed_pages (tally pdf st r.1 r.2).1 = (Doc.failed_pages st + 1)%nat
  | Returns _ =>
      r.1 = page_recognized (p + 1) /\
      (exists e, errors r.2 = errors s ++ [save_error pdf (p + 1) e] /\
                 err_stage (save_error pdf (p + 1) e) = save_result) /\
      forall st,
        errors (tally pdf st r.1 r.2).2 = errors r.2 /\
        Doc.successful_pages (tally pdf st r.1 r.2).1 = (Doc.successful_pages st + 1)%nat /\
        Doc.failed_pages (tally pdf st r.1 r.2).1 = Doc.failed_pages st
  end.
Proof.
  intros Hex Hopen Hp Hpix Hg Hcannot r.
  destruct (process_single_page_paths json_loads pdf p s Hex) as (_ & _ & H).
  rewrite Hopen, Hpix, Hg in H. destruct (decide (p < n)%nat); [|contradiction].
  split; [discriminate|]. split; [discriminate|]. split; [discriminate|].
  destruct (mkdir_results pdf) as [[]|e] eqn:Hdir.
  - destruct H as (Hr & _ & H). fold r in Hr, H. specialize (Hcannot eq_refl).
    assert (Htally : forall st,
      errors (tally pdf st r.1 r.2).2 = errors r.2 /\
      Doc.successful_pages (tally pdf st r.1 r.2).1 = (Doc.successful_pages st + 1)%nat /\
      Doc.failed_pages (tally pdf st r.1 r.2).1 = Doc.failed_pages st).
    { intros st. rewrite Hr. unfold tally. simpl. auto. }
    destruct (write_json pdf (p + 1)) as [|e|e]; [contradiction| |];
      destruct H as [Herr Hfile];
      (split; [intros a; rewrite Hfile; discriminate|]);
      (split; [exact Hr|]);
      (split; [exists e; split; [exact Herr|reflexivity]|exact Htally]).
  - destruct H as (Hr & Herr & _). fold r in Hr, Herr.
    assert (Hres : results r.2 = results s).
    { subst r. unfold process_single_page. cbv zeta. rewrite Hex, Hopen.
      destruct (decide (p < n)%nat); [|contradiction]. rewrite Hpix.
      rewrite (process_page_image_returns json_loads pdf (p + 1) _ g Hg).
      unfold save_page_result. rewrite Hdir. reflexivity. }
    split.
    { intros a Ha. rewrite result_file_exists_dir in Hex.
      apply bool_decide_eq_false in Hex. apply Hex.
      unfold results_dir in *. rewrite Hres in Ha. eauto. }
    split; [exact Hr|]. split; [exact Herr|]. split; [exact Hres|].
    intros st. rewrite Hr. unfold tally. simpl. auto.
Qed.

(** ** C7: one failing recognition call *)

(** C7 (amended): in an N-page document, when the recognition call of
    one page fails and every other page goes through (or already has
    its artifact), the stats count one failed page and N - 1 successful
    pages and the status is [completed_with_errors]: the failure stays
    inside the worker.  Two error records are produced for the failing
    page: the one of [process_page_image], stage
    [gemini_ocr_processing], with the message of the exception, and the
    one of [process_pdf], stage [page_processing], with the message of
    the worker. *)
Theorem one_failure_is_isolated (sched : Schedule) (pdf : Pdf) (n j : nat) (e : str)
    (s : State) :
  fitz_open pdf = Returns n ->
  mkdir_temp pdf = Returns () ->
  (is_pdf_already_processed pdf s).1.1 = false ->
  (j < n)%nat ->
  result_file_exists pdf (j + 1) s = false ->
  get_pixmap pdf (j + 1) = Returns () ->
  generate json_loads pdf (j + 1) = Raises e ->
  (forall p, (p < n)%nat -> p <> j ->
     result_file_exists pdf (p + 1) s = true \/ page_goes_through json_loads pdf (p + 1)) ->
  let r := process_pdf json_loads sched pdf s in
  Doc.total_pages r.1 = n /\
  Doc.failed_pages r.1 = 1%nat /\
  Doc.successful_pages r.1 = (n - 1)%nat /\
  Doc.status r.1 = completed_with_errors /\
  exists es,
    errors r.2 = errors s ++ es /\
    List.filter (about_page (j + 1)) es
      = [recognition_error pdf (j + 1) e; page_error pdf (j + 1) no_result].
Proof.
  intros Hopen Hmk Hpre Hj Hex Hpix Hg Hothers r. subst r.
  rewrite (process_pdf_dispatch sched pdf s n Hopen Hmk Hpre). cbv zeta. cbn [fst snd].
  destruct (run_pages_one_failure json_loads pdf n j e (completion sched (seq 0 n))
              Hopen Hpix Hg (completion_NoDup sched n) (set_total n (fresh_stats pdf)) s)
    as (Hf & Hs & es & Hes & Hfil).
  - intros p Hp. apply completion_elem in Hp. exact Hp.
  - intros _. exact Hex.
  - intros p Hp Hpj. apply completion_elem in Hp. apply Hothers; assumption.
  - rewrite decide_True in Hf by (apply completion_elem; exact Hj).
    rewrite decide_True in Hs by (apply completion_elem; exact Hj).
    rewrite decide_True in Hfil by (apply completion_elem; exact Hj).
    rewrite completion_length in Hs. cbn in Hf, Hs.
    destruct (run_pages_balanced json_loads pdf (completion sched (seq 0 n)) 0
                (set_total n (fresh_stats pdf)) s) as [_ Htot].
    { unfold balanced. simpl. split; [reflexivity|]. split; [|reflexivity].
      exists 0%nat. auto. }
    cbn in Htot.
    destruct (run_pages json_loads pdf (completion sched (seq 0 n))
                (set_total n (fresh_stats pdf)) s) as [st s'].
    cbn [fst snd] in *. simpl.
    split; [exact Htot|]. split; [exact Hf|]. split; [lia|].
    split; [destruct (decide (Doc.failed_pages st = 0%nat)); [lia|reflexivity]|].
    exists es. auto.
Qed.

(** ** C10: the counters of a document *)

(** The status [failed] is the status of a PDF that the precheck does
    not skip and whose opening raises: [fitz.open], or the creation of
    the directory of its page images. *)
Lemma process_pdf_failed (sched : Schedule) (pdf : Pdf) (s : State) :
  Doc.status (process_pdf json_loads sched pdf s).1 = failed <->
  (is_pdf_already_processed pdf s).1.1 = false /\
  ((exists e, fitz_open pdf = Raises e) \/
   (exists n e, fitz_open pdf = Returns n /\ mkdir_temp pdf = Raises e)).
Proof.
  destruct (is_pdf_already_processed pdf s) as [[c t] k] eqn:Hpre.
  destruct c.
  { rewrite (process_pdf_complete sched pdf s t k Hpre). simpl.
    split; [discriminate|intros [H _]; discriminate]. }
  destruct (fitz_open pdf) as [n|e] eqn:Hopen.
  2:{ unfold process_pdf. rewrite Hpre, Hopen. simpl. split; [eauto|reflexivity]. }
  destruct (mkdir_temp pdf) as [[]|e] eqn:Hmk.
  2:{ unfold process_pdf. rewrite Hpre, Hopen, Hmk. simpl. split; [eauto 6|reflexivity]. }
  rewrite (process_pdf_dispatch sched pdf s n Hopen Hmk) by (rewrite Hpre; reflexivity).
  cbv zeta. cbn [fst]. simpl. split.
  - destruct (decide _); discriminate.
  - intros [_ [[e He]|(n' & e & _ & He)]]; discriminate.
Qed.


End Documents.

(** ** C8: merging the stats of the documents *)

Lemma merge_stats_counters (o1 o2 : Run.t) (stats : Doc.t) :
  counters o1 = counters o2 ->
  counters (merge_stats o1 stats) = counters (merge_stats o2 stats).
Proof.
  unfold counters, merge_stats. simpl. intros [= -> -> -> -> -> -> -> -> ->]. reflexivity.
Qed.

Lemma merge_stats_swap (o1 o2 : Run.t) (a b : Doc.t) :
  counters o1 = counters o2 ->
  counters (merge_stats (merge_stats o1 a) b) = counters (merge_stats (merge_stats o2 b) a).
Proof.
  unfold counters, merge_stats. simpl. intros [= -> -> -> -> -> -> -> -> ->].
  destruct (Doc.status a), (Doc.status b); repeat (f_equal; try lia).
Qed.

(** Two runs of the loop over the same arrivals, from counters that agree. *)
Lemma merge_all_same (l : list (str * call Doc.t)) :
  forall o1 o2 e1 e2,
    counters o1 = counters o2 ->
    counters (merge_all l o1 e1).1 = counters (merge_all l o2 e2).1.
Proof.
  induction l as [|[f [st|m]] l IH]; intros o1 o2 e1 e2 Ho; simpl.
  - exact Ho.
  - apply IH, merge_stats_counters, Ho.
  - apply IH, Ho.
Qed.

Lemma merge_all_counters (l1 l2 : list (str * call Doc.t)) :
  l1 ≡ₚ l2 ->
  forall o1 o2 e1 e2,
    counters o1 = counters o2 ->
    counters (merge_all l1 o1 e1).1 = counters (merge_all l2 o2 e2).1.
Proof.
  induction 1 as [|[f [st|m]] l1 l2 _ IH|[f x] [f' y] l|l1 l2 l3 _ IH1 _ IH2];
    intros o1 o2 e1 e2 Ho.
  - exact Ho.
  - simpl. apply IH, merge_stats_counters, Ho.
  - simpl. apply IH, Ho.
  - destruct x as [a|m], y as [b|m']; simpl; apply merge_all_same.
    + apply merge_stats_swap, Ho.
    + apply merge_stats_counters, Ho.
    + apply merge_stats_counters, Ho.
    + exact Ho.
  - etransitivity; [apply (IH1 o1 o2 e1 e2 Ho)|]. apply (IH2 o2 o2 e2 e2 eq_refl).
Qed.

(** C8: the counters of [overall_stats] after the loop do not depend on
    the order in which the results of the documents arrive: two arrival
    orders of the same results, merged from the same [overall_stats],
    end with the same counters (total, successful, failed, per method,
    processed and skipped documents). *)
Theorem run_counters_order_independent (arrivals1 arrivals2 : list (str * call Doc.t))
    (overall : Run.t) (errs : list ErrorRecord) :
  arrivals1 ≡ₚ arrivals2 ->
  counters (merge_all arrivals1 overall errs).1
  = counters (merge_all arrivals2 overall errs).1.
Proof. intros H. apply merge_all_counters; [exact H|reflexivity]. Qed.

(** * The three-page scenario and other concrete runs *)

(** The selector at its thresholds, measured on the stripped text:
    50 characters and 10 words; 49 and 9; 50 and 9; 49 and 10; no text. *)
Example selector_boundaries :
  check_page_has_text (of_string "aaaaa aaaa aaaa aaaa aaaa aaaa aaaa aaaa aaaa aaaa") = true /\
  check_page_has_text (of_string "aaaaaaaaa aaaa aaaa aaaa aaaa aaaa aaaa aaaa aaaa") = false /\
  check_page_has_text (of_string "aaaaaaaaaa aaaa aaaa aaaa aaaa aaaa aaaa aaaa aaaa") = false /\
  check_page_has_text (of_string "aaaa aaaa aaaa aaaa aaaa aaaa aaaa aaaa aaaa aaaa") = false /\
  check_page_has_text [] = false.
Proof. repeat split; vm_compute; reflexivity. Qed.



Lemma existing_artifact_is_skipped_report :
  result_file_exists report 2 page_2_done = true /\
  process_single_page BasicJson.loads report 1 page_2_done = (page_skipped 2, page_2_done) /\
  exists tr,
    trace (process_pdf BasicJson.loads last_submitted_first report page_2_done).2 = tr /\
    processed_pages tr ≡ₚ [1; 3]%nat /\
    length (processed_pages tr) = (3 - 1)%nat.
Proof.
  destruct (existing_artifact_is_skipped BasicJson.loads last_submitted_first report)
    as [Hskip Hrun].
  split; [vm_compute; reflexivity|].
  split; [apply Hskip; vm_compute; reflexivity|].
  destruct (Hrun page_2_done) as (tr & Htr & _ & Hn).
  exists tr. split; [exact Htr|].
  destruct (Hn 3%nat) as [Hperm Hlen]; try (vm_compute; reflexivity).
  split; [exact Hperm|exact Hlen].
Defined.

(** C4, as stated, fails: [blank] opens with 0 pages and has 0
    artifacts, the two counts are equal, and yet the run is not marked
    [skipped_already_processed], the first time or the second, because
    the precheck answers "not complete" when the results directory does
    not exist. *)
Lemma pageless_pdf_is_not_skipped :
  fitz_open blank = Returns 0%nat /\
  size (results_dir blank empty_state) = 0%nat /\
  Doc.status blank_run.1 = completed /\
  size (results_dir blank blank_run.2) = 0%nat /\
  Doc.status blank_rerun.1 = completed.
Proof. repeat split; vm_compute; reflexivity. Qed.

Lemma complete_pdf_is_skipped_leaflet :
  size (results_dir leaflet leaflet_run.2) = 2%nat /\
  process_pdf BasicJson.loads last_submitted_first leaflet leaflet_run.2
    = (already_processed leaflet 2 2, leaflet_run.2) /\
  Doc.status (process_pdf BasicJson.loads last_submitted_first leaflet leaflet_run.2).1
    = skipped_already_processed.
Proof.
  assert (Hsize : size (results_dir leaflet leaflet_run.2) = 2%nat)
    by (vm_compute; reflexivity).
  split; [exact Hsize|].
  destruct (complete_pdf_is_skipped BasicJson.loads last_submitted_first leaflet 2
              leaflet_run.2 eq_refl ltac:(lia)) as [Hnow _].
  destruct (complete_pdf_is_skipped BasicJson.loads in_submission_order leaflet 2
              empty_state eq_refl ltac:(lia)) as [_ Hlater].
  split; [exact (Hnow Hsize)|].
  apply (Hlater eq_refl).
  intros i Hi. right. split; [|reflexivity].
  split; [reflexivity|]. split; [|reflexivity].
  eexists. vm_compute. reflexivity.
Defined.

(** C5, as stated, fails: the reply of page 1 of [report] is a JSON
    object between code fences; as it stands it is not JSON, and yet the
    result does not fall back to the raw reply: the fences are removed
    and the object is parsed. *)
Lemma fenced_reply_is_parsed :
  generate_content report 1 = Returns fenced_reply /\
  BasicJson.loads fenced_reply = None /\
  exists r, generate BasicJson.loads report 1 = Returns r /\
            text r = JStr (of_string "Budget report") /\
            text r <> JStr fenced_reply.
Proof.
  split; [reflexivity|]. split; [vm_compute; reflexivity|].
  eexists. split; [vm_compute; reflexivity|]. split; [reflexivity|].
  vm_compute. discriminate.
Qed.

Lemma unparseable_reply_degrades_report :
  generate_content report 2 = Returns prose_reply /\
  BasicJson.loads (clean_response prose_reply) = None /\
  generate BasicJson.loads report 2 = Returns (raw_text_result prose_reply) /\
  (process_single_page BasicJson.loads report 1 empty_state).1 = page_recognized 2.
Proof.
  assert (Hparse : BasicJson.loads (clean_response prose_reply) = None)
    by (vm_compute; reflexivity).
  split; [reflexivity|]. split; [exact Hparse|].
  destruct (unparseable_reply_degrades BasicJson.loads report 2 prose_reply eq_refl Hparse)
    as (Hg & _ & _ & Hpage).
  split; [exact Hg|].
  apply (Hpage 1%nat 3%nat empty_state (fresh_stats report));
    try reflexivity; lia.
Defined.

(** C6, as stated, fails: the page of [unwritable] is recognized, its
    artifact cannot be written and is not on disk, a [save_result]
    record is appended, and the worker reports a success, which the
    scheduler counts: one successful page, no failed page. *)
Lemma unwritten_page_is_a_success :
  write_json unwritable 1 = OpenFails (of_string "No space left on device") /\
  success unwritable_page.1 = true /\
  result_file_exists unwritable 1 unwritable_page.2 = false /\
  errors unwritable_page.2
    = [save_error unwritable 1 (of_string "No space left on device")] /\
  Doc.successful_pages
    (process_pdf BasicJson.loads in_submission_order unwritable empty_state).1 = 1%nat /\
  Doc.failed_pages
    (process_pdf BasicJson.loads in_submission_order unwritable empty_state).1 = 0%nat.
Proof. repeat split; vm_compute; reflexivity. Qed.

Lemma persistence_failure_outcomes_scans :
  (write_json unwritable 1 <> Written /\
   unwritable_page.1 = page_recognized 1 /\
   forall a, results_dir unwritable unwritable_page.2 !! 1%nat <> Some (Complete a)) /\
  (mkdir_results no_results_dir = Raises (of_string "Permission denied") /\
   let r := process_single_page BasicJson.loads no_results_dir 0 empty_state in
   r.1 = page_failure 1 (of_string "Permission denied") /\
   errors r.2 = [] /\
   results r.2 = ∅ /\
   forall st,
     errors (tally no_results_dir st r.1 r.2).2
     = errors r.2 ++ [page_error no_results_dir 1 (of_string "Permission denied")] /\
     Doc.failed_pages (tally no_results_dir st r.1 r.2).1 = (Doc.failed_pages st + 1)%nat).
Proof.
  assert (Hw : write_json unwritable 1 <> Written) by discriminate.
  split.
  - split; [exact Hw|].
    edestruct persistence_failure_outcomes
      with (json_loads := BasicJson.loads) (pdf := unwritable) (p := 0%nat) (n := 1%nat)
           (s := empty_state) as (_ & _ & _ & Hfile & Hr & _).
    + vm_compute; reflexivity.
    + reflexivity.
    + lia.
    + reflexivity.
    + vm_compute; reflexivity.
    + intros _. exact Hw.
    + split; [exact Hr|exact Hfile].
  - split; [reflexivity|].
    edestruct persistence_failure_outcomes
      with (json_loads := BasicJson.loads) (pdf := no_results_dir) (p := 0%nat) (n := 1%nat)
           (s := empty_state) as (_ & _ & _ & _ & Hr & Herr & Hres & Htally).
    + vm_compute; reflexivity.
    + reflexivity.
    + lia.
    + reflexivity.
    + vm_compute; reflexivity.
    + intros H. discriminate H.
    + split; [exact Hr|]. split; [exact Herr|]. split; [exact Hres|].
      intros st. destruct (Htally st) as (H1 & _ & _ & H4). split; [exact H1|exact H4].
Defined.

(** C7, as stated, fails: in the run of [report], where the recognition
    call of page 3 alone fails, two error records are produced for page
    3, one by [process_page_image] and one by [process_pdf]. *)
Lemma failing_page_has_two_records :
  Doc.failed_pages report_run.1 = 1%nat /\
  Doc.successful_pages report_run.1 = 2%nat /\
  Doc.status report_run.1 = completed_with_errors /\
  List.filter (about_page 3) (errors report_run.2)
    = [recognition_error report 3 (of_string "429 quota exceeded");
       page_error report 3 no_result] /\
  length (List.filter (about_page 3) (errors report_run.2)) = 2%nat.
Proof. repeat split; vm_compute; reflexivity. Qed.

Lemma one_failure_is_isolated_report :
  generate BasicJson.loads report 3 = Raises (of_string "429 quota exceeded") /\
  Doc.failed_pages
    (process_pdf BasicJson.loads last_submitted_first report empty_state).1 = 1%nat /\
  Doc.successful_pages
    (process_pdf BasicJson.loads last_submitted_first report empty_state).1 = (3 - 1)%nat /\
  Doc.status
    (process_pdf BasicJson.loads last_submitted_first report empty_state).1
    = completed_with_errors.
Proof.
  assert (Hg : generate BasicJson.loads report 3 = Raises (of_string "429 quota exceeded"))
    by (vm_compute; reflexivity).
  split; [exact Hg|].
  destruct (one_failure_is_isolated BasicJson.loads last_submitted_first report 3 2
              (of_string "429 quota exceeded") empty_state)
    as (_ & Hf & Hs & Hst & _); try reflexivity; try lia; try exact Hg.
  - intros p Hp Hne. right.
    destruct p as [|[|p]]; [| |lia];
      (split; [reflexivity|]; split; [|reflexivity]; eexists; vm_compute; reflexivity).
  - auto.
Defined.

Lemma run_counters_order_independent_arrivals :
  arrivals ≡ₚ rev arrivals /\
  counters (merge_all arrivals (overall_stats_init 3) []).1
  = counters (merge_all (rev arrivals) (overall_stats_init 3) []).1.
Proof.
  assert (Hperm : arrivals ≡ₚ rev arrivals) by apply Permutation_rev.
  split; [exact Hperm|].
  exact (run_counters_order_independent arrivals (rev arrivals) (overall_stats_init 3) [] Hperm).
Defined.



(** * Further properties of the Gemini pipeline *)

Section Replies.

Variable json_loads : str -> option json.
Variable pdf : Pdf.

(** Whenever the client returns a result, the result carries the reply
    as it came (not the cleaned one), has no metadata yet, and its text
    has a length. *)
Theorem generate_keeps_raw_reply (i : nat) (r : Result) :
  generate json_loads pdf i = Returns r ->
  exists raw,
    generate_content pdf i = Returns raw /\
    raw_response r = Some raw /\
    metadata r = None /\
    is_Some (py_len (text r)).
Proof.
  unfold generate. destruct (generate_content pdf i) as [raw|]; [|discriminate].
  intros H. exists raw. split; [reflexivity|].
  destruct (json_loads (clean_response raw)) as [[]|]; try discriminate.
  - simpl in H. destruct (py_len _) eqn:E; [|discriminate].
    injection H as <-. simpl. rewrite E. eauto.
  - injection H as <-. simpl. eauto.
Qed.

(** The worker on a page without artifact whose recognition raises. *)
Lemma failed_recognition_leaves_no_file (p n : nat) (e : str) (s : State) :
  result_file_exists pdf (p + 1) s = false ->
  fitz_open pdf = Returns n -> (p < n)%nat ->
  get_pixmap pdf (p + 1) = Returns () ->
  generate json_loads pdf (p + 1) = Raises e ->
  let r := process_single_page json_loads pdf p s in
  r.1 = page_failure (p + 1) no_result /\
  errors r.2 = errors s ++ [recognition_error pdf (p + 1) e] /\
  results r.2 = results s.
Proof.
  intros Hex Hopen Hp Hpix Hg. unfold process_single_page.
  rewrite Hex, Hopen, Hpix. destruct (decide (p < n)%nat); [|contradiction].
  rewrite (process_page_image_raises json_loads pdf _ _ e Hg). simpl. auto.
Qed.

(** A reply that is JSON but not a JSON object (a list, a string, a
    number, [null]) makes the client raise, and the page is a failure:
    the error is recorded under [gemini_ocr_processing], the worker
    answers "OCR returned no result", and no file is written. *)
Theorem non_object_reply_fails_page (p n : nat) (raw : str) (v : json) (s : State) :
  result_file_exists pdf (p + 1) s = false ->
  fitz_open pdf = Returns n -> (p < n)%nat ->
  get_pixmap pdf (p + 1) = Returns () ->
  generate_content pdf (p + 1) = Returns raw ->
  json_loads (clean_response raw) = Some v ->
  (forall members, v <> JObj members) ->
  let r := process_single_page json_loads pdf p s in
  (exists e, generate json_loads pdf (p + 1) = Raises e /\
             errors r.2 = errors s ++ [recognition_error pdf (p + 1) e]) /\
  r.1 = page_failure (p + 1) no_result /\
  results r.2 = results s.
Proof.
  intros Hex Hopen Hp Hpix Hraw Hv Hobj r.
  assert (Hg : generate json_loads pdf (p + 1) = Raises attribute_error).
  { unfold generate. rewrite Hraw, Hv. destruct v; try reflexivity.
    exfalso. eapply Hobj. reflexivity. }
  destruct (failed_recognition_leaves_no_file p n _ s Hex Hopen Hp Hpix Hg) as (H1 & H2 & H3).
  split; [eauto|]. auto.
Qed.

(** A reply that is a JSON object whose ["text"] has no length ([null],
    a number, a boolean) makes the client raise as well, with the same
    outcome for the page. *)
Theorem unsized_text_fails_page (p n : nat) (raw : str) (members : list (str * json))
    (s : State) :
  result_file_exists pdf (p + 1) s = false ->
  fitz_open pdf = Returns n -> (p < n)%nat ->
  get_pixmap pdf (p + 1) = Returns () ->
  generate_content pdf (p + 1) = Returns raw ->
  json_loads (clean_response raw) = Some (JObj members) ->
  py_len (dict_get members (of_string "text") (JStr [])) = None ->
  let r := process_single_page json_loads pdf p s in
  (exists e, generate json_loads pdf (p + 1) = Raises e /\
             errors r.2 = errors s ++ [recognition_error pdf (p + 1) e]) /\
  r.1 = page_failure (p + 1) no_result /\
  results r.2 = results s.
Proof.
  intros Hex Hopen Hp Hpix Hraw Hv Hlen r.
  assert (Hg : generate json_loads pdf (p + 1) = Raises type_error).
  { unfold generate. rewrite Hraw, Hv. simpl. rewrite Hlen. reflexivity. }
  destruct (failed_recognition_leaves_no_file p n _ s Hex Hopen Hp Hpix Hg) as (H1 & H2 & H3).
  split; [eauto|]. auto.
Qed.

(** The dict a worker returns: it names the page counted from 1; it is
    a success exactly when it carries no error message; and it is marked
    skipped only for a page whose artifact was there. *)
Theorem page_result_well_formed (p : nat) (s : State) :
  let r := (process_single_page json_loads pdf p s).1 in
  page r = (p + 1)%nat /\
  (success r = true <-> error r = None) /\
  (skipped r = true <-> result_file_exists pdf (p + 1) s = true) /\
  (skipped r = true -> success r = true).
Proof.
  unfold process_single_page.
  destruct (result_file_exists pdf (p + 1) s) eqn:Hex; simpl.
  { repeat split; auto. }
  assert (Hfail : forall e, let r := page_failure (p + 1) e in
            page r = (p + 1)%nat /\ (success r = true <-> error r = None) /\
            (skipped r = true <-> false = true) /\ (skipped r = true -> success r = true)).
  { intros e. simpl. repeat split; intros; discriminate. }
  destruct (fitz_open pdf) as [n|e]; [|apply Hfail].
  destruct (decide (p < n)%nat); [|apply Hfail].
  destruct (get_pixmap pdf (p + 1)) as [[]|e]; [|apply Hfail].
  destruct (process_page_image json_loads pdf (p + 1) _) as [[result|] s1]; [|apply Hfail].
  destruct (save_page_result result pdf (p + 1) s1) as [[[]|e] s2]; [|apply Hfail].
  simpl. repeat split; intros; try discriminate; auto.
Qed.

End Replies.

(** ** What a run of one PDF leaves behind *)

Lemma permits_paired_app (t1 t2 : list Event) :
  permits_paired t1 = true -> permits_paired t2 = true ->
  permits_paired (t1 ++ t2) = true.
Proof.
  remember (length t1) as n eqn:Hn. revert t1 Hn.
  induction n as [n IH] using lt_wf_ind. intros t1 Hn H1 H2.
  destruct t1 as [|a rest]; [exact H2|]. simpl in *.
  destruct (ev_action a).
  - apply (IH (length rest)); [lia|reflexivity|exact H1|exact H2].
  - apply (IH (length rest)); [lia|reflexivity|exact H1|exact H2].
  - destruct rest as [|r rest']; [discriminate|]. simpl.
    apply andb_true_iff in H1 as [H1 H1']. rewrite H1. simpl.
    apply (IH (length rest')); [simpl in Hn; lia|reflexivity|exact H1'|exact H2].
  - discriminate.
  - apply (IH (length rest)); [lia|reflexivity|exact H1|exact H2].
Qed.

Lemma recognition_calls_app (t1 t2 : list Event) :
  recognition_calls (t1 ++ t2) = recognition_calls t1 ++ recognition_calls t2.
Proof. apply List.filter_app. Qed.

Lemma page_failures_app (e1 e2 : list ErrorRecord) :
  page_failures (e1 ++ e2) = page_failures e1 ++ page_failures e2.
Proof. apply List.filter_app. Qed.

Lemma page_events_app (q : nat) (t1 t2 : list Event) :
  page_events q (t1 ++ t2) = page_events q t1 ++ page_events q t2.
Proof. apply List.filter_app. Qed.

Lemma page_events_own (i q : nat) (tr : list Event) :
  Forall (fun e => ev_page e = i) tr ->
  page_events q tr = if Nat.eqb i q then tr else [].
Proof.
  induction 1 as [|e tr He _ IH]; [destruct (Nat.eqb i q); reflexivity|].
  cbn [page_events List.filter]. fold (page_events q tr). rewrite IH, He.
  destruct (Nat.eqb i q); reflexivity.
Qed.

Section Runs.

Variable json_loads : str -> option json.
Variable pdf : Pdf.

(** One worker: the files it keeps, the events and the records it adds. *)
Lemma process_single_page_leaves (p : nat) (s : State) :
  let s' := (process_single_page json_loads pdf p s).2 in
  (forall k, k <> stem pdf -> results s' !! k = results s !! k) /\
  (forall q a, lookup_file (stem pdf) q s = Some a -> lookup_file (stem pdf) q s' = Some a) /\
  (exists tr,
     trace s' = trace s ++ tr /\
     Forall (fun e => ev_page e = (p + 1)%nat) tr /\
     permits_paired tr = true /\
     ev_page <$> recognition_calls tr `sublist_of` processed_pages tr) /\
  (exists es,
     errors s' = errors s ++ es /\ page_failures es = []).
Proof.
  destruct (result_file_exists pdf (p + 1) s) eqn:Hex.
  { rewrite process_single_page_skips by exact Hex. simpl.
    split; [auto|]. split; [auto|].
    split; exists []; rewrite app_nil_r; auto. }
  assert (Hnone : forall q a, lookup_file (stem pdf) q s = Some a -> q <> (p + 1)%nat).
  { intros q a Hq ->. unfold lookup_file, result_file_exists in *.
    destruct (results s !! stem pdf) as [d|]; simpl in *; [|discriminate].
    rewrite Hq in Hex. rewrite bool_decide_eq_true_2 in Hex by eauto. discriminate. }
  assert (Hdir : forall q a, lookup_file (stem pdf) q s = Some a ->
                             results_dir pdf s !! q = Some a).
  { intros q a Hq. unfold lookup_file, results_dir in *.
    destruct (results s !! stem pdf) as [d|]; simpl in *; [exact Hq|discriminate]. }
  unfold process_single_page. rewrite Hex.
  unfold process_page_image, save_page_result.
  repeat case_match; simplify_eq; simpl;
    (split; [intros k' Hk'; rewrite ?lookup_insert_ne by congruence; reflexivity|]);
    (split; [intros q' a' Hq'; unfold lookup_file; simpl;
             rewrite ?insert_insert_eq, ?lookup_insert_eq; simpl;
             rewrite ?lookup_insert_ne by (symmetry; eapply Hnone; eassumption);
             try (apply Hdir, Hq'); exact Hq'|]);
    (split; [eexists; split; [rewrite <- ?app_assoc; reflexivity|];
             split; [repeat constructor|];
             split; [cbn; rewrite ?bool_decide_eq_true_2 by reflexivity;
                     rewrite ?Nat.eqb_refl; reflexivity|];
             cbn; first [reflexivity | apply sublist_nil_l]|]);
    eexists; (split; [rewrite <- ?app_assoc; try reflexivity;
                      symmetry; apply app_nil_r|reflexivity]).
Qed.

Lemma run_pages_leaves (order : list nat) :
  forall st s,
    let r := run_pages json_loads pdf order st s in
    (forall k, k <> stem pdf -> results r.2 !! k = results s !! k) /\
    (forall q a, lookup_file (stem pdf) q s = Some a -> lookup_file (stem pdf) q r.2 = Some a) /\
    processing_status r.2 = processing_status s /\
    (exists tr,
       trace r.2 = trace s ++ tr /\
       (forall q, permits_paired (page_events q tr) = true) /\
       ev_page <$> recognition_calls tr `sublist_of` processed_pages tr) /\
    (exists es,
       errors r.2 = errors s ++ es /\
       (length (page_failures es) + Doc.failed_pages st = Doc.failed_pages r.1)%nat).
Proof.
  induction order as [|p rest IH]; intros st s; cbn [run_pages].
  - simpl. split; [auto|]. split; [auto|]. split; [auto|].
    split; exists []; rewrite app_nil_r; auto.
  - pose proof (process_single_page_leaves p s)
      as (Hk & Hq & (tr1 & Htr1 & Hown & Hp1 & Hs1) & (es1 & Hes1 & Hf1)).
    pose proof (process_single_page_status json_loads pdf p s) as Hst1.
    destruct (process_single_page json_loads pdf p s) as [res s1]. cbn [fst snd] in *.
    pose proof (tally_results pdf st res s1) as (Hr2 & Ht2 & Hps2).
    pose proof (tally_errors pdf st res s1) as He2.
    assert (Hfail : Doc.failed_pages (tally pdf st res s1).1
                    = (Doc.failed_pages st + if success res then 0 else 1)%nat).
    { unfold tally. destruct (success res); simpl; lia. }
    destruct (tally pdf st res s1) as [st2 s2]. cbn [fst snd] in *.
    destruct (IH st2 s2) as (Hk' & Hq' & Hps' & (tr2 & Htr2 & Hp2 & Hs2) & (es2 & Hes2 & Hf2)).
    split; [intros k Hne; rewrite Hk', Hr2, Hk by exact Hne; reflexivity|].
    split.
    { intros q a Hqa. apply Hq'. unfold lookup_file. rewrite Hr2. apply Hq, Hqa. }
    split; [congruence|]. split.
    + exists (tr1 ++ tr2). split; [rewrite Htr2, Ht2, Htr1, app_assoc; reflexivity|].
      split; [intros q; rewrite page_events_app; apply permits_paired_app;
              [rewrite (page_events_own _ q _ Hown); destruct (Nat.eqb _ q);
               [exact Hp1|reflexivity]
              |apply Hp2]|].
      rewrite recognition_calls_app, processed_pages_app, fmap_app.
      apply sublist_app; assumption.
    + exists (es1 ++ (if success res then [] else
                        [page_error pdf (page res) (default [] (error res))]) ++ es2).
      split; [rewrite Hes2, He2, Hes1, <- !app_assoc; reflexivity|].
      rewrite !page_failures_app, Hf1, !length_app. rewrite <- Hf2, Hfail.
      destruct (success res); simpl; lia.
Qed.

End Runs.

Section DocumentRuns.

Variable json_loads : str -> option json.

(** The three ways a run of [process_pdf] ends without dispatching a page. *)
Lemma process_pdf_idle_cases (sched : Schedule) (pdf : Pdf) (s : State) :
  (exists t k, is_pdf_already_processed pdf s = (true, t, k) /\
     process_pdf json_loads sched pdf s = (already_processed pdf t k, s)) \/
  (exists st e,
     (is_pdf_already_processed pdf s).1.1 = false /\
     (st = fresh_stats pdf /\ fitz_open pdf = Raises e \/
      exists n, st = set_total n (fresh_stats pdf) /\ fitz_open pdf = Returns n /\
                mkdir_temp pdf = Raises e) /\
     process_pdf json_loads sched pdf s
     = (set_status failed st,
        add_status (set_status failed st)
          (add_error {| err_pdf_file := name pdf; err_page := PageNA;
                        err_stage := pdf_open; err_error := e |} s))) \/
  (exists n, fitz_open pdf = Returns n /\ mkdir_temp pdf = Returns () /\
             (is_pdf_already_processed pdf s).1.1 = false).
Proof.
  destruct (is_pdf_already_processed pdf s) as [[c t] k] eqn:Hpre.
  destruct c.
  { left. exists t, k. split; [reflexivity|]. apply process_pdf_complete, Hpre. }
  destruct (fitz_open pdf) as [n|e] eqn:Hopen.
  2:{ right. left. exists (fresh_stats pdf), e. split; [reflexivity|]. split; [auto|].
      unfold process_pdf. rewrite Hpre, Hopen. reflexivity. }
  destruct (mkdir_temp pdf) as [[]|e] eqn:Hmk.
  2:{ right. left. exists (set_total n (fresh_stats pdf)), e. split; [reflexivity|].
      split; [right; eauto|]. unfold process_pdf. rewrite Hpre, Hopen, Hmk. reflexivity. }
  right. right. exists n. auto.
Qed.

(** A run of [process_pdf] changes or removes no file that was there,
    in the directory of its PDF or elsewhere, and writes nothing outside
    the directory of its PDF. *)
Theorem process_pdf_keeps_files (sched : Schedule) (pdf : Pdf) (s : State) :
  let s' := (process_pdf json_loads sched pdf s).2 in
  (forall k q a, lookup_file k q s = Some a -> lookup_file k q s' = Some a) /\
  (forall k, k <> stem pdf -> results s' !! k = results s !! k).
Proof.
  destruct (process_pdf_idle_cases sched pdf s)
    as [(t & k & _ & ->)|[(st & e & _ & _ & ->)|(n & Hopen & Hmk & Hpre)]];
    [simpl; auto..|].
  rewrite (process_pdf_dispatch json_loads sched pdf s n Hopen Hmk Hpre). cbv zeta. cbn [snd].
  destruct (run_pages_leaves json_loads pdf (completion sched (seq 0 n))
              (set_total n (fresh_stats pdf)) s) as (Hk & Hq & _).
  split; [|exact Hk].
  intros k q a Hqa. unfold lookup_file. cbn [results add_status].
  destruct (decide (k = stem pdf)) as [->|Hne]; [apply Hq, Hqa|].
  rewrite Hk by exact Hne. exact Hqa.
Qed.

(** In a run of [process_pdf], among the events of each page every
    recognition call directly follows the permit taken for it, and no
    permit is left unused; no page gets more than one call, and only
    pages that the run processes (pages without artifact) get one. *)
Theorem recognition_calls_follow_permits (sched : Schedule) (pdf : Pdf) (s : State) :
  exists tr,
    trace (process_pdf json_loads sched pdf s).2 = trace s ++ tr /\
    (forall q, permits_paired (page_events q tr) = true) /\
    (forall q, q ∈ ev_page <$> recognition_calls tr -> q ∈ processed_pages tr) /\
    NoDup (processed_pages tr) /\
    NoDup (ev_page <$> recognition_calls tr).
Proof.
  assert (Hidle : trace (process_pdf json_loads sched pdf s).2 = trace s ->
    exists tr, trace (process_pdf json_loads sched pdf s).2 = trace s ++ tr /\
      (forall q, permits_paired (page_events q tr) = true) /\
      (forall q, q ∈ ev_page <$> recognition_calls tr -> q ∈ processed_pages tr) /\
      NoDup (processed_pages tr) /\ NoDup (ev_page <$> recognition_calls tr)).
  { intros H. exists []. rewrite app_nil_r. split; [exact H|]. split; [reflexivity|].
    split; [auto|]. split; constructor. }
  destruct (process_pdf_idle_cases sched pdf s)
    as [(t & k & _ & Heq)|[(st & e & _ & _ & Heq)|(n & Hopen & Hmk & Hpre)]];
    [apply Hidle; rewrite Heq; reflexivity..|]. clear Hidle.
  rewrite (process_pdf_dispatch json_loads sched pdf s n Hopen Hmk Hpre). cbv zeta. cbn [snd].
  destruct (run_pages_leaves json_loads pdf (completion sched (seq 0 n))
              (set_total n (fresh_stats pdf)) s) as (_ & _ & _ & (tr & Htr & Hp & Hsub) & _).
  destruct (run_pages_trace json_loads pdf _ (completion_NoDup sched n)
              (set_total n (fresh_stats pdf)) s) as (tr' & Htr' & Hpp).
  assert (tr' = tr) as -> by (eapply app_inv_head; rewrite <- Htr, <- Htr'; reflexivity).
  assert (Hnd : NoDup (processed_pages tr)).
  { rewrite Hpp. apply NoDup_fmap_2; [intros x y Hxy; lia|].
    apply NoDup_ListNoDup, List.NoDup_filter, NoDup_ListNoDup, completion_NoDup. }
  exists tr. split; [exact Htr|]. split; [exact Hp|].
  split; [intros q Hq; eapply elem_of_sublist; eassumption|].
  split; [exact Hnd|]. eapply sublist_NoDup; eassumption.
Qed.

(** The failed pages of the stats and the [page_processing] records
    agree: a run appends one such record per page it counts as failed,
    and none when its status is [completed]. *)
Theorem failed_pages_are_recorded (sched : Schedule) (pdf : Pdf) (s : State) :
  let r := process_pdf json_loads sched pdf s in
  exists es,
    errors r.2 = errors s ++ es /\
    length (page_failures es) = Doc.failed_pages r.1 /\
    (Doc.status r.1 = completed <-> Doc.status r.1 <> failed /\
       Doc.status r.1 <> skipped_already_processed /\ page_failures es = []).
Proof.
  destruct (process_pdf_idle_cases sched pdf s)
    as [(t & k & _ & ->)|[(st & e & _ & Hst & ->)|(n & Hopen & Hmk & Hpre)]].
  - exists []. simpl. rewrite app_nil_r. split; [reflexivity|]. split; [reflexivity|].
    split; [discriminate|intros (_ & H & _); contradiction].
  - eexists. simpl. split; [reflexivity|]. split.
    + destruct Hst as [[-> _]|(n & -> & _)]; reflexivity.
    + split; [discriminate|intros (H & _); contradiction].
  - rewrite (process_pdf_dispatch json_loads sched pdf s n Hopen Hmk Hpre).
    cbv zeta. cbn [fst snd].
    destruct (run_pages_leaves json_loads pdf (completion sched (seq 0 n))
                (set_total n (fresh_stats pdf)) s) as (_ & _ & _ & _ & (es & Hes & Hlen)).
    exists es. simpl in *. split; [exact Hes|]. split; [lia|].
    destruct (decide _) as [H0|H0]; split.
    + intros _. split; [discriminate|]. split; [discriminate|].
      apply length_zero_iff_nil. lia.
    + reflexivity.
    + discriminate.
    + intros (_ & _ & Hnil). rewrite Hnil in Hlen. simpl in Hlen. lia.
Qed.

(** A run appends its stats to [processing_status], the list the
    tracking CSV is written from, unless it found the PDF already
    processed: a skipped PDF leaves no entry there. *)
Lemma process_pdf_status_row (sched : Schedule) (pdf : Pdf) (s : State) :
  let r := process_pdf json_loads sched pdf s in
  processing_status r.2 =
    processing_status s ++
    (if decide (Doc.status r.1 = skipped_already_processed) then [] else [r.1]).
Proof.
  destruct (process_pdf_idle_cases sched pdf s)
    as [(t & k & _ & ->)|[(st & e & _ & _ & ->)|(n & Hopen & Hmk & Hpre)]].
  - simpl. rewrite app_nil_r. reflexivity.
  - reflexivity.
  - rewrite (process_pdf_dispatch json_loads sched pdf s n Hopen Hmk Hpre).
    cbv zeta. cbn [fst snd].
    destruct (run_pages_leaves json_loads pdf (completion sched (seq 0 n))
                (set_total n (fresh_stats pdf)) s) as (_ & _ & Hps & _).
    simpl. rewrite Hps. destruct (decide (Doc.failed_pages _ = 0%nat)); reflexivity.
Qed.

(** A PDF that [fitz.open] cannot open is reported as [failed] with all
    counters at 0, also when every artifact of it exists, because the
    precheck cannot count its pages; one [pdf_open] record without page
    is appended, and nothing is processed or written. *)
Theorem unopenable_pdf_is_failed (sched : Schedule) (pdf : Pdf) (e : str) (s : State) :
  fitz_open pdf = Raises e ->
  let r := process_pdf json_loads sched pdf s in
  r.1 = set_status failed (fresh_stats pdf) /\
  errors r.2 = errors s ++ [ {| err_pdf_file := name pdf; err_page := PageNA;
                                err_stage := pdf_open; err_error := e |} ] /\
  results r.2 = results s /\
  trace r.2 = trace s /\
  processing_status r.2 = processing_status s ++ [r.1].
Proof.
  intros Hopen. unfold process_pdf, is_pdf_already_processed. rewrite Hopen.
  destruct (results s !! stem pdf); simpl; auto.
Qed.

(** When the PDF opens with [n] pages and the directory for its page
    images cannot be created, the stats are [failed] with
    [total_pages = n] and no page counted, successful or failed. *)
Theorem missing_image_directory_fails_pdf (sched : Schedule) (pdf : Pdf) (n : nat)
    (e : str) (s : State) :
  fitz_open pdf = Returns n ->
  mkdir_temp pdf = Raises e ->
  (is_pdf_already_processed pdf s).1.1 = false ->
  let r := process_pdf json_loads sched pdf s in
  Doc.status r.1 = failed /\
  Doc.total_pages r.1 = n /\
  Doc.successful_pages r.1 = 0%nat /\
  Doc.failed_pages r.1 = 0%nat /\
  errors r.2 = errors s ++ [ {| err_pdf_file := name pdf; err_page := PageNA;
                                err_stage := pdf_open; err_error := e |} ] /\
  results r.2 = results s /\
  trace r.2 = trace s.
Proof.
  intros Hopen Hmk Hpre. unfold process_pdf.
  destruct (is_pdf_already_processed pdf s) as [[c t] k]. simpl in Hpre. subst c.
  rewrite Hopen, Hmk. simpl. auto 10.
Qed.

End DocumentRuns.

(** ** Cleaning a reply *)

Lemma lstrip_head (s : str) :
  lstrip s = [] \/ exists c t, lstrip s = c :: t /\ isspace c = false.
Proof.
  induction s as [|c s IH]; [left; reflexivity|]. simpl.
  destruct (isspace c) eqn:Hc; [exact IH|]. right. eauto.
Qed.

Lemma lstrip_nonspace (c : N) (t : str) : isspace c = false -> lstrip (c :: t) = c :: t.
Proof. intros H. simpl. rewrite H. reflexivity. Qed.

Lemma lstrip_spaces_app (w s : str) :
  Forall (fun c => isspace c = true) w -> lstrip (w ++ s) = lstrip s.
Proof. induction 1 as [|c w Hc _ IH]; [reflexivity|]. simpl. rewrite Hc. exact IH. Qed.

Lemma lstrip_app_nonspace (s : str) (c : N) (t : str) :
  isspace c = false -> lstrip (s ++ c :: t) = lstrip s ++ c :: t.
Proof.
  intros Hc. induction s as [|d s IH]; simpl.
  - rewrite Hc. reflexivity.
  - destruct (isspace d); [exact IH|reflexivity].
Qed.

Lemma rstrip_nonspace (c : N) (t : str) : isspace c = false -> rstrip (c :: t) = c :: rstrip t.
Proof.
  intros Hc. unfold rstrip. simpl. rewrite lstrip_app_nonspace by exact Hc.
  rewrite rev_app_distr. reflexivity.
Qed.

Lemma rstrip_app_spaces (s w : str) :
  Forall (fun c => isspace c = true) w -> rstrip (s ++ w) = rstrip s.
Proof.
  intros Hw. unfold rstrip. rewrite rev_app_distr, lstrip_spaces_app; [reflexivity|].
  apply Forall_rev, Hw.
Qed.

Lemma lstrip_idempotent (s : str) : lstrip (lstrip s) = lstrip s.
Proof.
  destruct (lstrip_head s) as [->|(c & t & -> & Hc)]; [reflexivity|].
  apply lstrip_nonspace, Hc.
Qed.

Lemma rstrip_idempotent (s : str) : rstrip (rstrip s) = rstrip s.
Proof. unfold rstrip. rewrite rev_involutive, lstrip_idempotent. reflexivity. Qed.

Lemma lstrip_strip (s : str) : lstrip (strip s) = strip s.
Proof.
  unfold strip. destruct (lstrip_head s) as [->|(c & t & -> & Hc)]; [reflexivity|].
  rewrite rstrip_nonspace by exact Hc. apply lstrip_nonspace, Hc.
Qed.

(** Stripping twice is stripping once. *)
Lemma strip_idempotent (s : str) : strip (strip s) = strip s.
Proof.
  unfold strip at 1. rewrite lstrip_strip. unfold strip. apply rstrip_idempotent.
Qed.

Lemma strip_between_spaces (w1 body w2 : str) :
  strip body = body ->
  Forall (fun c => isspace c = true) w1 ->
  Forall (fun c => isspace c = true) w2 ->
  strip (w1 ++ body ++ w2) = body.
Proof.
  intros Hb H1 H2. unfold strip. rewrite lstrip_spaces_app by exact H1.
  assert (Hl : lstrip body = body) by (rewrite <- Hb; apply lstrip_strip).
  assert (Hr : rstrip body = body).
  { rewrite <- Hb at 2. unfold strip. rewrite Hl. reflexivity. }
  destruct body as [|c t].
  - simpl. destruct (lstrip_decompose w2) as [w [Hw _]].
    assert (lstrip w2 = []) as ->; [|reflexivity].
    clear -H2. induction H2 as [|c w Hc _ IH]; [reflexivity|]. simpl. rewrite Hc. exact IH.
  - assert (Hc : isspace c = false).
    { simpl in Hl. destruct (isspace c) eqn:E; [|reflexivity].
      exfalso. destruct (lstrip_decompose t) as [w [Ht _]].
      apply (f_equal (@length N)) in Hl. rewrite Ht in Hl at 2.
      simpl in Hl. rewrite length_app in Hl. lia. }
    change ((c :: t) ++ w2) with (c :: t ++ w2). rewrite lstrip_nonspace by exact Hc.
    change (c :: t ++ w2) with ((c :: t) ++ w2). rewrite rstrip_app_spaces by exact H2.
    exact Hr.
Qed.

Lemma strip_solid (a b : N) (m : str) :
  isspace a = false -> isspace b = false ->
  strip (a :: m ++ [b]) = a :: m ++ [b].
Proof.
  intros Ha Hb. unfold strip. rewrite lstrip_nonspace, rstrip_nonspace by exact Ha.
  f_equal. unfold rstrip. rewrite rev_app_distr. simpl.
  rewrite Hb. simpl. rewrite rev_involutive. reflexivity.
Qed.

Lemma startswith_app (p x : str) : startswith (p ++ x) p = true.
Proof.
  induction p as [|a p IH]; [destruct x; reflexivity|].
  simpl. rewrite N.eqb_refl. exact IH.
Qed.

Lemma endswith_app (x p : str) : endswith (x ++ p) p = true.
Proof. unfold endswith. rewrite rev_app_distr. apply startswith_app. Qed.

Lemma startswith_cons (a b : N) (p s : str) :
  startswith (b :: s) (a :: p) = (a =? b) && startswith s p.
Proof. reflexivity. Qed.

Lemma startswith_nil (s : str) : startswith s [] = true.
Proof. destruct s; reflexivity. Qed.

Lemma startswith_fence_head (c : N) (t : str) :
  c <> 96 -> startswith (c :: t) code_fence = false /\
             startswith (c :: t) json_code_fence = false.
Proof.
  intros Hc. assert (E : (96 =? c) = false) by (apply N.eqb_neq; congruence).
  change code_fence with [96; 96; 96].
  change json_code_fence with [96; 96; 96; 106; 115; 111; 110].
  split; rewrite startswith_cons, E; reflexivity.
Qed.

Lemma space_is_no_backtick (c : N) : isspace c = true -> c <> 96.
Proof. intros H ->. vm_compute in H. discriminate. Qed.

(** What [clean_response] makes of a reply.  A reply that, once
    stripped, neither starts nor ends with a code fence is only
    stripped.  A body wrapped as [```json], whitespace, body,
    whitespace, [```] is given back as it was, provided the body has
    no whitespace around it and does not start with a backtick. *)
Theorem clean_response_unwraps :
  (forall raw,
     startswith (strip raw) code_fence = false ->
     endswith (strip raw) code_fence = false ->
     clean_response raw = strip raw) /\
  (forall body w1 w2,
     strip body = body ->
     head body <> Some 96 ->
     Forall (fun c => isspace c = true) w1 ->
     Forall (fun c => isspace c = true) w2 ->
     clean_response (json_code_fence ++ w1 ++ body ++ w2 ++ code_fence) = body).
Proof.
  split.
  - intros raw Hs He. unfold clean_response.
    assert (Hj : startswith (strip raw) json_code_fence = false).
    { change code_fence with [96; 96; 96] in Hs.
      change json_code_fence with [96; 96; 96; 106; 115; 111; 110].
      destruct (strip raw) as [|a [|b [|c t]]]; try reflexivity;
        rewrite ?startswith_cons in *; destruct (96 =? a); try reflexivity;
        destruct (96 =? b); try reflexivity.
      destruct (96 =? c); [|reflexivity].
      rewrite startswith_nil in Hs. discriminate. }
    rewrite Hj, Hs, He. apply strip_idempotent.
  - intros body w1 w2 Hb Hh H1 H2. unfold clean_response.
    set (inner := w1 ++ body ++ w2 ++ code_fence).
    assert (Hraw : strip (json_code_fence ++ inner) = json_code_fence ++ inner).
    { replace (json_code_fence ++ inner)
        with (96 :: ([96; 96; 106; 115; 111; 110] ++ w1 ++ body ++ w2 ++ [96; 96]) ++ [96]).
      - apply strip_solid; reflexivity.
      - unfold inner. change code_fence with ([96; 96] ++ [96]).
        change json_code_fence with (96 :: [96; 96; 106; 115; 111; 110]).
        rewrite <- !app_assoc. reflexivity. }
    rewrite Hraw, startswith_app.
    replace (drop 7 (json_code_fence ++ inner)) with inner by reflexivity.
    assert (Hend : endswith inner code_fence = true).
    { unfold inner. rewrite !app_assoc. apply endswith_app. }
    assert (Htake : take (length inner - 3) inner = w1 ++ body ++ w2).
    { unfold inner. rewrite !app_assoc, length_app.
      replace (length ((w1 ++ body) ++ w2) + length code_fence - 3)%nat
        with (length ((w1 ++ body) ++ w2)) by (simpl; lia).
      apply take_app_length. }
    destruct (w1 ++ body ++ w2) as [|c t] eqn:Hcore.
    + (* nothing between the fences *)
      assert (body = []) as ->.
      { destruct w1; [|discriminate]. destruct body; [reflexivity|discriminate]. }
      assert (inner = code_fence) as Hin.
      { unfold inner. destruct w1; [|discriminate]. destruct w2; [reflexivity|discriminate]. }
      rewrite Hin. reflexivity.
    + assert (Hc : c <> 96).
      { destruct w1 as [|d w1].
        - destruct body as [|d body].
          + simpl in Hcore. subst w2. inversion H2; subst. apply space_is_no_backtick. assumption.
          + simpl in Hcore. injection Hcore as -> _. simpl in Hh. congruence.
        - simpl in Hcore. injection Hcore as -> _. inversion H1; subst.
          apply space_is_no_backtick. assumption. }
      assert (Hstart : startswith inner code_fence = false).
      { unfold inner. rewrite !app_assoc. rewrite <- (app_assoc w1 body w2), Hcore.
        apply (startswith_fence_head c _ Hc). }
      rewrite Hstart, Hend, Htake, <- Hcore.
      apply strip_between_spaces; assumption.
Qed.

Lemma lstrip_spaces (w : str) : Forall (fun c => isspace c = true) w -> lstrip w = [].
Proof. induction 1 as [|c w Hc _ IH]; [reflexivity|]. simpl. rewrite Hc. exact IH. Qed.

Lemma strip_outer_spaces (w1 t w2 : str) :
  Forall (fun c => isspace c = true) w1 ->
  Forall (fun c => isspace c = true) w2 ->
  strip (w1 ++ t ++ w2) = strip t.
Proof.
  intros H1 H2. unfold strip. rewrite lstrip_spaces_app by exact H1.
  destruct (lstrip_decompose t) as (w & Ht & Hw).
  destruct (lstrip_head t) as [E|(c & t' & E & Hc)]; rewrite E in *.
  - rewrite app_nil_r in Ht. subst t.
    rewrite lstrip_spaces by (apply Forall_app; auto). reflexivity.
  - rewrite Ht at 1. rewrite <- app_assoc, lstrip_spaces_app by exact Hw.
    change ((c :: t') ++ w2) with (c :: t' ++ w2). rewrite lstrip_nonspace by exact Hc.
    change (c :: t' ++ w2) with ((c :: t') ++ w2). apply rstrip_app_spaces, H2.
Qed.

(** The selector does not see the whitespace around the embedded text:
    it answers the same for a text and for the text with whitespace
    before and after it. *)
Theorem selector_ignores_outer_whitespace (w1 t w2 : str) :
  Forall (fun c => isspace c = true) w1 ->
  Forall (fun c => isspace c = true) w2 ->
  check_page_has_text (w1 ++ t ++ w2) = check_page_has_text t.
Proof.
  intros H1 H2. unfold check_page_has_text. rewrite strip_outer_spaces by assumption.
  reflexivity.
Qed.

(** ** The corpus run *)

Lemma sum_fmap_cons {A} (f : A -> nat) (x : A) (l : list A) :
  sum_list (f <$> x :: l) = (f x + sum_list (f <$> l))%nat.
Proof. reflexivity. Qed.

(** The [as_completed] loop folds [merge_stats] over the stats that
    arrived and appends one record per future that raised. *)
Lemma merge_all_fold (arrivals : list (str * call Doc.t)) (o : Run.t)
    (errs : list ErrorRecord) :
  merge_all arrivals o errs = (foldl merge_stats o (returned arrivals), errs ++ raised arrivals).
Proof.
  revert o errs. induction arrivals as [|[f [st|m]] l IH]; intros o errs.
  - simpl. rewrite app_nil_r. reflexivity.
  - cbn [merge_all]. rewrite IH. reflexivity.
  - cbn [merge_all]. rewrite IH.
    change (raised ((f, Raises m) :: l))
      with ({| err_pdf_file := f; err_page := PageNA;
               err_stage := pdf_processing; err_error := m |} :: raised l).
    change (returned ((f, Raises m) :: l)) with (returned l).
    rewrite <- app_assoc. reflexivity.
Qed.

Lemma merge_stats_fold (sts : list Doc.t) (o : Run.t) :
  let r := foldl merge_stats o sts in
  Run.total_pdfs r = Run.total_pdfs o /\
  Run.processed_pdfs r = (Run.processed_pdfs o + length sts)%nat /\
  Run.skipped_pdfs r = (Run.skipped_pdfs o + length (List.filter is_skipped sts))%nat /\
  Run.total_pages r = (Run.total_pages o + sum_list (Doc.total_pages <$> sts))%nat /\
  Run.successful_pages r
    = (Run.successful_pages o + sum_list (Doc.successful_pages <$> sts))%nat /\
  Run.failed_pages r = (Run.failed_pages o + sum_list (Doc.failed_pages <$> sts))%nat /\
  Run.conventional_pages r
    = (Run.conventional_pages o + sum_list (Doc.conventional_pages <$> sts))%nat /\
  Run.gemini_ocr_pages r
    = (Run.gemini_ocr_pages o + sum_list (Doc.gemini_ocr_pages <$> sts))%nat /\
  Run.skipped_pages r
    = (Run.skipped_pages o
       + sum_list ((fun st => default 0%nat (Doc.skipped_pages st)) <$> sts))%nat /\
  Run.pdf_details r = Run.pdf_details o ++ sts.
Proof.
  revert o. induction sts as [|st sts IH]; intros o.
  - simpl. rewrite !Nat.add_0_r, !app_nil_r. repeat split; reflexivity.
  - cbn [foldl]. specialize (IH (merge_stats o st)).
    cbv zeta in IH. destruct IH as (H1 & H2 & H3 & H4 & H5 & H6 & H7 & H8 & H9 & H10).
    cbv zeta. rewrite H1, H2, H3, H4, H5, H6, H7, H8, H9, H10. clear.
    rewrite !sum_fmap_cons. unfold merge_stats. cbn [Run.total_pdfs Run.processed_pdfs
      Run.skipped_pdfs Run.total_pages Run.successful_pages Run.failed_pages
      Run.conventional_pages Run.gemini_ocr_pages Run.skipped_pages Run.pdf_details
      length List.filter].
    repeat split; try lia; try (rewrite <- app_assoc; reflexivity).
    unfold is_skipped at 2.
    destruct (Doc.status st); rewrite ?bool_decide_eq_false_2 by discriminate;
      rewrite ?bool_decide_eq_true_2 by reflexivity; simpl; lia.
Qed.

(** The loop of [process_all_pdfs]: the counters of [overall_stats] grow
    by the sums of the counters of the stats that arrived, [pdf_details]
    by those stats in the order of arrival; a future that raised adds
    one [pdf_processing] record and changes no counter, not even
    [processed_pdfs]. *)
Theorem overall_counters_are_sums (arrivals : list (str * call Doc.t)) (o : Run.t)
    (errs : list ErrorRecord) :
  let r := merge_all arrivals o errs in
  let sts := returned arrivals in
  Run.total_pdfs r.1 = Run.total_pdfs o /\
  Run.processed_pdfs r.1 = (Run.processed_pdfs o + length sts)%nat /\
  Run.skipped_pdfs r.1 = (Run.skipped_pdfs o + length (List.filter is_skipped sts))%nat /\
  Run.total_pages r.1 = (Run.total_pages o + sum_list (Doc.total_pages <$> sts))%nat /\
  Run.successful_pages r.1
    = (Run.successful_pages o + sum_list (Doc.successful_pages <$> sts))%nat /\
  Run.failed_pages r.1 = (Run.failed_pages o + sum_list (Doc.failed_pages <$> sts))%nat /\
  Run.conventional_pages r.1
    = (Run.conventional_pages o + sum_list (Doc.conventional_pages <$> sts))%nat /\
  Run.gemini_ocr_pages r.1
    = (Run.gemini_ocr_pages o + sum_list (Doc.gemini_ocr_pages <$> sts))%nat /\
  Run.skipped_pages r.1
    = (Run.skipped_pages o
       + sum_list ((fun st => default 0%nat (Doc.skipped_pages st)) <$> sts))%nat /\
  Run.pdf_details r.1 = Run.pdf_details o ++ sts /\
  r.2 = errs ++ raised arrivals.
Proof.
  cbv zeta. rewrite merge_all_fold. cbn [fst snd].
  pose proof (merge_stats_fold (returned arrivals) o) as H. cbv zeta in H.
  repeat split; apply H.
Qed.

Section CorpusRuns.

Variable json_loads : str -> option json.
Variable page_sched : nat -> Schedule.

(** The runs of the PDFs of a corpus: every future returns stats; the
    entries added to [processing_status] are the stats of the PDFs that
    were not skipped. *)
Lemma run_pdfs_returns (pdf_files : list Pdf) (order : list nat) :
  (forall i, i ∈ order -> (i < length pdf_files)%nat) ->
  forall s,
    let r := run_pdfs json_loads page_sched pdf_files order s in
    raised r.1 = [] /\
    length (returned r.1) = length order /\
    processing_status r.2
      = processing_status s ++ List.filter (fun st => negb (is_skipped st)) (returned r.1).
Proof.
  induction order as [|i rest IH]; intros Hlt s.
  - simpl. rewrite app_nil_r. auto.
  - cbn [run_pdfs].
    destruct (lookup_lt_is_Some_2 pdf_files i (Hlt i ltac:(left))) as [pdf Hpdf].
    rewrite Hpdf.
    pose proof (process_pdf_status_row json_loads (page_sched i) pdf s) as Hrow.
    destruct (process_pdf json_loads (page_sched i) pdf s) as [stats s1].
    cbv zeta in Hrow. cbn [fst snd] in Hrow.
    destruct (IH (fun j Hj => Hlt j ltac:(right; exact Hj)) s1) as (H1 & H2 & H3).
    destruct (run_pdfs json_loads page_sched pdf_files rest s1) as [arr s2].
    cbn [fst snd] in *.
    change (raised ((name pdf, Returns stats) :: arr)) with (raised arr).
    change (returned ((name pdf, Returns stats) :: arr)) with (stats :: returned arr).
    split; [exact H1|]. split; [cbn [length]; lia|].
    rewrite H3, Hrow, <- app_assoc. f_equal. cbn [List.filter].
    destruct (decide (Doc.status stats = skipped_already_processed)) as [E|E].
    + assert (is_skipped stats = true) as -> by (apply bool_decide_eq_true_2, E).
      reflexivity.
    + assert (is_skipped stats = false) as -> by (apply bool_decide_eq_false_2, E).
      reflexivity.
Qed.

(** The summary lists every PDF of the corpus, and the tracking table
    only those that were not skipped as already processed: after
    [process_all_pdfs] on a corpus that is not empty, [total_pdfs],
    [processed_pdfs] and the length of [pdf_details] are the number of
    PDFs, [skipped_pdfs] counts the skipped ones among them, and
    [processing_status], which the tracking table is written from, has
    grown by the stats of the others, in some order.  The error log is left as it was
    when the pipeline holds no error. *)
Theorem tracking_omits_skipped_pdfs (doc_sched : Schedule) (disk : Disk)
    (pdf_files : list Pdf) (cleanup_temp : bool) (s : State) (r : Reports) :
  pdf_files <> [] ->
  exists o s' r',
    process_all_pdfs json_loads page_sched doc_sched disk pdf_files cleanup_temp s r
      = (Stats o, s', r') /\
    Run.total_pdfs o = length pdf_files /\
    Run.processed_pdfs o = length pdf_files /\
    length (Run.pdf_details o) = length pdf_files /\
    Run.skipped_pdfs o = length (List.filter is_skipped (Run.pdf_details o)) /\
    processing_status s'
      ≡ₚ processing_status s
         ++ List.filter (fun st => negb (is_skipped st)) (Run.pdf_details o) /\
    tracking r' = written (write_tracking disk) (processing_status s') (tracking r) /\
    summary r' = written (write_summary disk) o (summary r) /\
    error_log r' = match errors s' with
                   | [] => error_log r
                   | _ :: _ => written (write_error_log disk) (errors s') (error_log r)
                   end.
Proof.
  intros Hne. unfold process_all_pdfs.
  destruct pdf_files as [|pdf0 pdfs]; [contradiction|].
  set (files := pdf0 :: pdfs). set (order := completion doc_sched (seq 0 (length files))).
  assert (Hlt : forall i, i ∈ order -> (i < length files)%nat).
  { intros i Hi. apply completion_elem in Hi. exact Hi. }
  destruct (run_pdfs_returns files order Hlt s) as (Hraised & Hlen & Hps).
  destruct (run_pdfs json_loads page_sched files order s) as [arr s1]. cbn [fst snd] in *.
  rewrite merge_all_fold, Hraised, app_nil_r.
  pose proof (merge_stats_fold (returned arr) (overall_stats_init (length files))) as Hsum.
  cbv zeta in Hsum. set (o := foldl merge_stats _ _) in *.
  destruct Hsum as (H1 & H2 & H3 & _ & _ & _ & _ & _ & _ & H10).
  simpl in H1, H2, H3, H10.
  exists o. eexists. eexists. split; [reflexivity|].
  unfold order in Hlen. rewrite completion_length in Hlen.
  split; [exact H1|]. split; [lia|]. split; [rewrite H10; exact Hlen|].
  split; [rewrite H3, H10; reflexivity|].
  split; [simpl; rewrite Hps, H10; reflexivity|].
  simpl. destruct (errors s1); repeat split; reflexivity.
Qed.

End CorpusRuns.

Section ExitStatus.

Variable json_loads : str -> option json.
Variable page_sched : nat -> Schedule.

Lemma sum_list_positive (l : list nat) :
  (0 < sum_list l)%nat <-> exists n, n ∈ l /\ (0 < n)%nat.
Proof.
  induction l as [|x l IH]; simpl.
  - split; [lia|]. intros (n & Hn & _). inversion Hn.
  - split.
    + intros H. destruct (decide (0 < x)%nat) as [Hx|Hx].
      * exists x. split; [left|exact Hx].
      * destruct (proj1 IH ltac:(lia)) as (n & Hn & Hpos). exists n. split; [right|]; assumption.
    + intros (n & Hn & Hpos). apply elem_of_cons in Hn as [->|Hn]; [lia|].
      assert (0 < sum_list l)%nat by (apply IH; eauto). lia.
Qed.

(** The exit status of [main] when the pipeline starts: 0 for a corpus
    without PDF, where nothing is run or written; otherwise 1 exactly
    when some PDF has a failed page in its stats, and 0 if none has. *)
Theorem exit_status_counts_failed_pages (doc_sched : Schedule) (disk : Disk)
    (pdf_files : list Pdf) (files : gmap str (gmap nat Artifact)) (r : Reports) :
  let fresh := {| results := files; errors := []; processing_status := []; trace := [] |} in
  let run := main json_loads page_sched doc_sched disk (Returns ()) true pdf_files files r in
  match (process_all_pdfs json_loads page_sched doc_sched disk pdf_files true fresh r).1.1 with
  | NoPdfs => pdf_files = [] /\ run = (0%nat, fresh, r)
  | Stats o =>
      pdf_files <> [] /\
      Run.failed_pages o = sum_list (Doc.failed_pages <$> Run.pdf_details o) /\
      (run.1.1 = 1%nat <-> exists st, st ∈ Run.pdf_details o /\ (0 < Doc.failed_pages st)%nat) /\
      (run.1.1 = 0%nat <-> forall st, st ∈ Run.pdf_details o -> Doc.failed_pages st = 0%nat)
  end.
Proof.
  intros fresh run. subst run. unfold main. fold fresh.
  destruct pdf_files as [|pdf0 pdfs] eqn:Hfiles; [simpl; auto|]. rewrite <- Hfiles.
  assert (Hne : pdf_files <> []) by (rewrite Hfiles; discriminate).
  unfold process_all_pdfs. rewrite Hfiles, <- Hfiles.
  destruct (run_pdfs _ _ _ _ _) as [arr s1]. rewrite merge_all_fold.
  pose proof (merge_stats_fold (returned arr) (overall_stats_init (length pdf_files))) as H.
  cbv zeta in H. set (o := foldl merge_stats _ _) in *.
  destruct H as (_ & _ & _ & _ & _ & H6 & _ & _ & _ & H10).
  cbn [fst snd].
  assert (Hsum : Run.failed_pages o = sum_list (Doc.failed_pages <$> Run.pdf_details o)).
  { rewrite H6, H10. reflexivity. }
  clearbody o.
  split; [exact Hne|]. split; [exact Hsum|].
  pose proof (sum_list_positive (Doc.failed_pages <$> Run.pdf_details o)) as Hpos.
  rewrite <- Hsum in Hpos.
  assert (Hex : (exists n, n ∈ Doc.failed_pages <$> Run.pdf_details o /\ (0 < n)%nat) <->
                exists st, st ∈ Run.pdf_details o /\ (0 < Doc.failed_pages st)%nat).
  { split.
    - intros (n & Hn & Hp). apply list_elem_of_fmap in Hn as (st & -> & Hst). eauto.
    - intros (st & Hst & Hp). exists (Doc.failed_pages st). split; [|exact Hp].
      apply list_elem_of_fmap. eauto. }
  rewrite Hex in Hpos.
  destruct (Nat.ltb_spec 0 (Run.failed_pages o)) as [Hlt|Hge]; split.
  - split; [intros _; apply Hpos, Hlt|reflexivity].
  - split; [discriminate|]. intros Hall. apply Hpos in Hlt as (st & Hst & Hp).
    specialize (Hall st Hst). lia.
  - split; [discriminate|]. intros H. apply Hpos in H. lia.
  - split; [|reflexivity]. intros _ st Hst.
    destruct (decide (0 < Doc.failed_pages st)%nat) as [Hp|Hp]; [|lia].
    assert (0 < Run.failed_pages o)%nat by (apply Hpos; eauto). lia.
Qed.

(** The runs of PDFs that cannot be opened. *)
Lemma run_pdfs_unopenable (pdf_files : list Pdf) (order : list nat) :
  (forall pdf, pdf ∈ pdf_files -> exists e, fitz_open pdf = Raises e) ->
  (forall i, i ∈ order -> (i < length pdf_files)%nat) ->
  forall s,
    let r := run_pdfs json_loads page_sched pdf_files order s in
    Forall (fun st => Doc.status st = failed /\ Doc.failed_pages st = 0%nat /\
                      Doc.total_pages st = 0%nat) (returned r.1) /\
    (exists es, errors r.2 = errors s ++ es /\ length es = length order /\
                Forall (fun e => err_stage e = pdf_open /\ err_page e = PageNA) es) /\
    results r.2 = results s /\
    trace r.2 = trace s.
Proof.
  intros Hbad. induction order as [|i rest IH]; intros Hlt s.
  - simpl. split; [constructor|]. split; [|auto]. exists []. rewrite app_nil_r. auto.
  - cbn [run_pdfs].
    destruct (lookup_lt_is_Some_2 pdf_files i (Hlt i ltac:(left))) as [pdf Hpdf].
    rewrite Hpdf.
    destruct (Hbad pdf (list_elem_of_lookup_2 _ _ _ Hpdf)) as [e He].
    set (stats := set_status failed (fresh_stats pdf)).
    set (s1 := add_status stats (pdf_failure pdf (fresh_stats pdf) e s).2).
    assert (Hrun : process_pdf json_loads (page_sched i) pdf s = (stats, s1)).
    { unfold process_pdf, is_pdf_already_processed. rewrite He.
      destruct (results s !! stem pdf); reflexivity. }
    rewrite Hrun.
    assert (Hst : stats = set_status failed (fresh_stats pdf)) by reflexivity.
    assert (Herr : errors s1 = errors s ++ [ {| err_pdf_file := name pdf; err_page := PageNA;
                                                err_stage := pdf_open; err_error := e |} ])
      by reflexivity.
    assert (Hres : results s1 = results s) by reflexivity.
    assert (Htr : trace s1 = trace s) by reflexivity.
    clearbody s1.
    destruct (IH (fun j Hj => Hlt j ltac:(right; exact Hj)) s1)
      as (Hall & (es & Hes & Hlen & Hstage) & Hres' & Htr').
    destruct (run_pdfs json_loads page_sched pdf_files rest s1) as [arr s2].
    cbn [fst snd] in *.
    change (returned ((name pdf, Returns stats) :: arr)) with (stats :: returned arr).
    split; [constructor; [subst stats; auto|exact Hall]|].
    split; [|split; congruence].
    eexists (_ :: es). split; [rewrite Hes, Herr, <- app_assoc; reflexivity|].
    split; [simpl; lia|]. constructor; [auto|exact Hstage].
Qed.

(** A corpus in which no PDF can be opened: [main] exits with status 0.
    One [pdf_open] record per PDF is in the error list, which is what
    the error log is written from; no page is counted, processed or
    written. *)
Theorem unopenable_corpus_exits_0 (doc_sched : Schedule) (disk : Disk)
    (pdf_files : list Pdf) (files : gmap str (gmap nat Artifact)) (r : Reports) :
  pdf_files <> [] ->
  (forall pdf, pdf ∈ pdf_files -> exists e, fitz_open pdf = Raises e) ->
  let run := main json_loads page_sched doc_sched disk (Returns ()) true pdf_files files r in
  run.1.1 = 0%nat /\
  length (errors run.1.2) = length pdf_files /\
  Forall (fun e => err_stage e = pdf_open /\ err_page e = PageNA) (errors run.1.2) /\
  results run.1.2 = files /\
  trace run.1.2 = [] /\
  error_log run.2 = written (write_error_log disk) (errors run.1.2) (error_log r).
Proof.
  intros Hne Hbad run. subst run. unfold main, process_all_pdfs.
  destruct pdf_files as [|pdf0 pdfs] eqn:Hfiles; [contradiction|].
  rewrite <- Hfiles in Hbad |- *.
  set (fresh := {| results := files; errors := []; processing_status := []; trace := [] |}).
  set (order := completion doc_sched (seq 0 (length pdf_files))).
  assert (Hlt : forall i, i ∈ order -> (i < length pdf_files)%nat).
  { intros i Hi. apply completion_elem in Hi. exact Hi. }
  destruct (run_pdfs_unopenable pdf_files order Hbad Hlt fresh)
    as (Hall & (es & Hes & Hlen & Hstage) & Hres & Htr).
  destruct (run_pdfs_returns json_loads page_sched pdf_files order Hlt fresh) as (Hraised & _).
  destruct (run_pdfs json_loads page_sched pdf_files order fresh) as [arr s1].
  cbn [fst snd] in *.
  rewrite merge_all_fold, Hraised, app_nil_r.
  pose proof (merge_stats_fold (returned arr) (overall_stats_init (length pdf_files))) as Hsum.
  cbv zeta in Hsum. set (o := foldl merge_stats _ _) in *.
  destruct Hsum as (_ & _ & _ & _ & _ & H6 & _).
  assert (Hzero : sum_list (Doc.failed_pages <$> returned arr) = 0%nat).
  { clear -Hall. induction Hall as [|st l (_ & H0 & _) _ IH]; [reflexivity|].
    rewrite sum_fmap_cons, H0, IH. reflexivity. }
  simpl in H6. rewrite Hzero in H6.
  unfold order in Hlen. rewrite completion_length in Hlen.
  simpl in Hes.
  assert (Hes' : errors s1 = es) by exact Hes.
  cbn [fst snd]. rewrite H6. simpl. rewrite Hes'.
  split; [reflexivity|].
  destruct es as [|e0 es']; [rewrite Hfiles in Hlen; discriminate|].
  simpl. repeat split; assumption.
Qed.

End ExitStatus.

(** ** The DeepSeek pipeline: conventional extraction *)

Section Conventional.

Import DeepSeek.

(** All the texts a [font_sizes] dict holds. *)
Lemma font_sizes_append_texts (d : FontSizes) (size : PrimFloat.float) (t x : str) :
  x ∈ concat (font_sizes_append d size t).*2 <-> x ∈ concat d.*2 \/ x = t.
Proof.
  induction d as [|[k l] d IH]; simpl.
  - rewrite ?app_nil_r, list_elem_of_singleton. split; [auto|]. intros [H| ->]; [inversion H|reflexivity].
  - destruct (PrimFloat.eqb k size); simpl; rewrite !elem_of_app.
    + rewrite list_elem_of_singleton. tauto.
    + rewrite IH. tauto.
Qed.

Lemma font_sizes_get_texts (d : FontSizes) (size : PrimFloat.float) (x : str) :
  x ∈ font_sizes_get d size -> x ∈ concat d.*2.
Proof.
  induction d as [|[k l] d IH]; simpl; [auto|].
  rewrite elem_of_app. destruct (PrimFloat.eqb k size); auto.
Qed.

Lemma collect_font_sizes_texts (blocks : list Block) (x : str) :
  x ∈ concat (collect_font_sizes blocks).*2 ->
  x <> [] /\ exists sp, sp ∈ text_spans blocks /\ x = strip (span_text sp).
Proof.
  unfold collect_font_sizes.
  assert (H : forall spans d,
    (forall y, y ∈ concat d.*2 ->
       y <> [] /\ exists sp, sp ∈ text_spans blocks /\ y = strip (span_text sp)) ->
    (forall sp, sp ∈ spans -> sp ∈ text_spans blocks) ->
    x ∈ concat (foldl (fun font_sizes span =>
           match strip (span_text span) with
           | [] => font_sizes
           | text_content => font_sizes_append font_sizes (span_size span) text_content
           end) d spans).*2 ->
    x <> [] /\ exists sp, sp ∈ text_spans blocks /\ x = strip (span_text sp)).
  { induction spans as [|sp spans IH]; intros d Hd Hin; simpl; [apply Hd|].
    apply IH; [|intros sp' Hsp'; apply Hin; right; exact Hsp'].
    destruct (strip (span_text sp)) as [|c t] eqn:Hs; [exact Hd|].
    intros y Hy. apply font_sizes_append_texts in Hy as [Hy| ->]; [apply Hd, Hy|].
    split; [discriminate|]. exists sp. split; [apply Hin; left|symmetry; exact Hs]. }
  apply H; [|auto]. simpl. intros y Hy. inversion Hy.
Qed.

Lemma find_headings_texts (d : FontSizes) (x : str) :
  x ∈ find_headings d -> x ∈ concat d.*2.
Proof.
  unfold find_headings. destruct (d.*1) as [|k keys]; [intros H; inversion H|].
  generalize (take 2 (sorted_descending (k :: keys))). intros sizes.
  assert (H : forall acc, (forall y, y ∈ acc -> y ∈ concat d.*2) ->
    x ∈ foldl (fun headings size =>
                 if PrimFloat.ltb (PrimFloat.mul (py_min k keys) heading_factor) size
                 then headings ++ font_sizes_get d size else headings) acc sizes ->
    x ∈ concat d.*2).
  { induction sizes as [|sz sizes IH]; intros acc Hacc; simpl; [apply Hacc|].
    apply IH. destruct (PrimFloat.ltb _ sz); [|exact Hacc].
    intros y Hy. apply elem_of_app in Hy as [Hy|Hy]; [apply Hacc, Hy|].
    eapply font_sizes_get_texts, Hy. }
  apply H. intros y Hy. inversion Hy.
Qed.

Lemma collect_images_length (idx : nat) (image_list : list (call Rect)) :
  (length (collect_images idx image_list) <= length image_list)%nat.
Proof.
  revert idx. induction image_list as [|[b|e] l IH]; intros idx; simpl;
    [lia|specialize (IH (S idx)); lia..].
Qed.

Variable layout : Pdf -> nat -> Layout.

(** What [extract_text_conventional] returns for a page.  It raises
    only what [get_text("dict")] or [get_images] raises.  Otherwise the
    text is the embedded text as it is; at most 10 headings are kept,
    each the stripped, non-empty text of a span of a text block; there
    is no table; and the structure summary agrees with the lists it
    summarises: [has_headings] and [has_images] are true exactly when
    the lists have an item, [has_tables] and [has_lists] are false. *)
Theorem conventional_result_is_consistent (pdf : Pdf) (i : nat) :
  match extract_text_conventional layout pdf i with
  | Raises e =>
      get_text_dict (layout pdf i) = Raises e \/ get_images (layout pdf i) = Raises e
  | Returns x =>
      exists blocks image_list hs imgs,
        get_text_dict (layout pdf i) = Returns blocks /\
        get_images (layout pdf i) = Returns image_list /\
        text (body x) = JStr (get_text pdf i) /\
        headings (body x) = JArr (JStr <$> hs) /\
        (length hs <= 10)%nat /\
        (forall h, h ∈ hs ->
           h <> [] /\ exists sp, sp ∈ text_spans blocks /\ h = strip (span_text sp)) /\
        tables (body x) = JArr [] /\
        images (body x) = JArr imgs /\
        (length imgs <= length image_list)%nat /\
        structure_flag (body x) "has_headings" = JBool (bool_decide (hs <> [])) /\
        structure_flag (body x) "has_tables" = JBool false /\
        structure_flag (body x) "has_lists" = JBool false /\
        structure_flag (body x) "has_images" = JBool (bool_decide (imgs <> [])) /\
        raw_response (body x) = None /\
        meta x = conventional_metadata pdf i
  end.
Proof.
  unfold extract_text_conventional.
  destruct (get_text_dict (layout pdf i)) as [blocks|e]; [|left; reflexivity].
  destruct (get_images (layout pdf i)) as [image_list|e]; [|right; reflexivity].
  set (all := find_headings (collect_font_sizes blocks)).
  exists blocks, image_list, (take 10 all), (collect_images 1 image_list).
  cbn [body meta text headings tables images raw_response].
  repeat split; try reflexivity.
  - rewrite length_take. lia.
  - eapply collect_font_sizes_texts, find_headings_texts.
    eapply elem_of_sublist; [exact H|apply sublist_take].
  - eapply collect_font_sizes_texts, find_headings_texts.
    eapply elem_of_sublist; [exact H|apply sublist_take].
  - apply collect_images_length.
  - unfold structure_flag. cbn. f_equal. destruct all; reflexivity.
  - unfold structure_flag. cbn. f_equal. destruct (collect_images 1 image_list); reflexivity.
Qed.

(** Page images keep the number of their position: the [k]-th image of
    [page.get_images()] is listed as [IMAGE_k] when its box is found,
    and left out when [get_image_bbox] raises, without renumbering the
    later ones. *)
Theorem page_images_keep_their_number (image_list : list (call Rect)) (entry : json) :
  entry ∈ collect_images 1 image_list <->
  exists k bbox, image_list !! k = Some (Returns bbox) /\ entry = image_entry (S k) bbox.
Proof.
  assert (H : forall l idx,
    entry ∈ collect_images idx l <->
    exists k bbox, l !! k = Some (Returns bbox) /\ entry = image_entry (idx + k) bbox).
  { induction l as [|[b|e] l IH]; intros idx; simpl.
    - split; [intros H; inversion H|intros (k & b & H & _); discriminate].
    - rewrite elem_of_cons, IH. split.
      + intros [->|(k & b' & Hk & ->)].
        * exists 0%nat, b. rewrite Nat.add_0_r. auto.
        * exists (S k), b'. rewrite Nat.add_succ_r. auto.
      + intros ([|k] & b' & Hk & ->); simpl in Hk.
        * left. inversion Hk. rewrite Nat.add_0_r. reflexivity.
        * right. exists k, b'. rewrite Nat.add_succ_r. auto.
    - rewrite IH. split.
      + intros (k & b' & Hk & ->). exists (S k), b'. rewrite Nat.add_succ_r. auto.
      + intros ([|k] & b' & Hk & ->); simpl in Hk; [discriminate|].
        exists k, b'. rewrite Nat.add_succ_r. auto. }
  apply H.
Qed.

End Conventional.

(** ** The DeepSeek pipeline: pages and documents *)

Section DeepSeekRuns.

Import DeepSeek.

Variable json_loads : str -> option json.
Variable layout : Pdf -> nat -> Layout.

Lemma deepseek_page_failures_app (es es' : list ErrorRecord) :
  page_failures (es ++ es') = page_failures es ++ page_failures es'.
Proof. apply List.filter_app. Qed.

(** One turn of the page loop, as the counters and the error list see it. *)
Lemma process_page_counts (pdf : Pdf) (page_num : nat) (stats : Doc.t) (s : State) :
  let r := process_page json_loads layout pdf page_num stats s in
  Doc.total_pages r.1 = Doc.total_pages stats /\
  (Doc.successful_pages r.1 + Doc.failed_pages r.1
   = Doc.successful_pages stats + Doc.failed_pages stats + 1)%nat /\
  (Doc.successful_pages r.1 + Doc.conventional_pages stats + Doc.deepseek_ocr_pages stats
   <= Doc.successful_pages stats + Doc.conventional_pages r.1 + Doc.deepseek_ocr_pages r.1)%nat /\
  (Doc.conventional_pages r.1 + Doc.deepseek_ocr_pages r.1
   <= Doc.conventional_pages stats + Doc.deepseek_ocr_pages stats + 1)%nat /\
  (mkdir_results pdf = Returns () ->
   (Doc.successful_pages r.1 + Doc.conventional_pages stats + Doc.deepseek_ocr_pages stats
    = Doc.successful_pages stats + Doc.conventional_pages r.1 + Doc.deepseek_ocr_pages r.1)%nat) /\
  ((exists e, mkdir_results pdf = Raises e) ->
   Doc.successful_pages r.1 = Doc.successful_pages stats) /\
  exists es,
    errors r.2 = errors s ++ es /\
    (length (page_failures es) + Doc.failed_pages stats = Doc.failed_pages r.1)%nat /\
    length (omap page_of (page_failures es)) = length (page_failures es) /\
    omap page_of (page_failures es) `sublist_of` [(page_num + 1)%nat].
Proof.
  unfold process_page, save_and_count, page_exception, save_page_result, process_page_image.
  cbv zeta.
  destruct (check_page_has_text _);
    [destruct (extract_text_conventional _ _ _) as [x|e]
    |destruct (get_pixmap _ _) as [[]|e];
      [destruct (generate _ _ _) as [g|e]; [destruct (py_len _)|]|]];
    destruct (mkdir_results pdf) as [[]|e'];
    try destruct (write_json pdf _) as [|e''|e''];
    cbn [fst snd Doc.total_pages Doc.successful_pages Doc.failed_pages
         Doc.conventional_pages Doc.deepseek_ocr_pages count_successful count_failed
         count_conventional count_deepseek_ocr errors add_error log_event set_results];
    (split; [reflexivity|]); (split; [lia|]); (split; [lia|]); (split; [lia|]);
    (split; [intros; first [lia|discriminate]|]);
    (split; [intros [? ?]; first [lia|discriminate]|]);
    first [ exists []; rewrite app_nil_r; split; [reflexivity|]; split; [simpl; lia|];
            split; [reflexivity|apply sublist_nil_l]
          | eexists [_]; split; [reflexivity|]; split; [simpl; lia|];
            split; [reflexivity|]; simpl; first [reflexivity|apply sublist_nil_l] ].
Qed.

Lemma run_pages_counts (pdf : Pdf) (pages : list nat) :
  forall stats s,
    let r := run_pages json_loads layout pdf pages stats s in
    Doc.total_pages r.1 = Doc.total_pages stats /\
    (Doc.successful_pages r.1 + Doc.failed_pages r.1
     = Doc.successful_pages stats + Doc.failed_pages stats + length pages)%nat /\
    (Doc.successful_pages r.1 + Doc.conventional_pages stats + Doc.deepseek_ocr_pages stats
     <= Doc.successful_pages stats + Doc.conventional_pages r.1 + Doc.deepseek_ocr_pages r.1)%nat /\
    (Doc.conventional_pages r.1 + Doc.deepseek_ocr_pages r.1
     <= Doc.conventional_pages stats + Doc.deepseek_ocr_pages stats + length pages)%nat /\
    (mkdir_results pdf = Returns () ->
     (Doc.successful_pages r.1 + Doc.conventional_pages stats + Doc.deepseek_ocr_pages stats
      = Doc.successful_pages stats + Doc.conventional_pages r.1 + Doc.deepseek_ocr_pages r.1)%nat) /\
    ((exists e, mkdir_results pdf = Raises e) ->
     Doc.successful_pages r.1 = Doc.successful_pages stats) /\
    exists es,
      errors r.2 = errors s ++ es /\
      (length (page_failures es) + Doc.failed_pages stats = Doc.failed_pages r.1)%nat /\
      length (omap page_of (page_failures es)) = length (page_failures es) /\
      omap page_of (page_failures es) `sublist_of` ((fun p => p + 1)%nat <$> pages).
Proof.
  induction pages as [|p pages IH]; intros stats s.
  - simpl. repeat split; try lia. exists []. rewrite app_nil_r. simpl. auto.
  - cbn [run_pages].
    pose proof (process_page_counts pdf p stats s) as H. cbv zeta in H.
    destruct (process_page json_loads layout pdf p stats s) as [stats1 s1].
    cbn [fst snd] in H.
    destruct H as (H1 & H2 & H3 & H4 & H5 & H6 & es1 & He1 & Hl1 & Hp1 & Hs1).
    specialize (IH stats1 s1). cbv zeta in IH.
    destruct (run_pages json_loads layout pdf pages stats1 s1) as [stats2 s2].
    cbn [fst snd] in *.
    destruct IH as (I1 & I2 & I3 & I4 & I5 & I6 & es2 & He2 & Hl2 & Hp2 & Hs2).
    split; [congruence|]. split; [simpl; lia|]. split; [lia|]. split; [simpl; lia|].
    split; [intros Hm; specialize (H5 Hm); specialize (I5 Hm); lia|].
    split; [intros Hm; specialize (H6 Hm); specialize (I6 Hm); lia|].
    exists (es1 ++ es2). split; [rewrite He2, He1, app_assoc; reflexivity|].
    rewrite deepseek_page_failures_app, omap_app, !length_app.
    split; [lia|]. split; [lia|]. rewrite fmap_cons. apply (sublist_app _ [_] _ _ Hs1 Hs2).
Qed.

(** The counters of a run of [process_pdf].  When the PDF opens, with
    [n] pages, and its image directory can be made, every page is
    counted once, as a success or as a failure, and no page is counted
    as a success without being counted as conventional or as
    recognized; the two agree as long as the results directory can be
    made, and no page is a success when it cannot.  When the PDF does
    not open, or opens and its image directory cannot be made, no page
    is counted at all, as a success or as a failure, also with
    [total_pages] at [n], and one [pdf_open] record is appended. *)
Theorem deepseek_counters_balance (pdf : Pdf) (s : State) :
  let r := process_pdf json_loads layout pdf s in
  let st := r.1 in
  match fitz_open pdf, mkdir_temp pdf with
  | Returns n, Returns _ =>
      Doc.total_pages st = n /\
      (Doc.successful_pages st + Doc.failed_pages st = n)%nat /\
      (Doc.successful_pages st <= Doc.conventional_pages st + Doc.deepseek_ocr_pages st <= n)%nat /\
      match mkdir_results pdf with
      | Returns _ =>
          Doc.successful_pages st
          = (Doc.conventional_pages st + Doc.deepseek_ocr_pages st)%nat
      | Raises _ => Doc.successful_pages st = 0%nat /\ Doc.failed_pages st = n
      end
  | Returns n, Raises e =>
      r = (set_total n (fresh_stats pdf), add_error (open_error pdf e) s)
  | Raises e, _ =>
      r = (fresh_stats pdf, add_error (open_error pdf e) s)
  end.
Proof.
  unfold process_pdf. cbv zeta.
  destruct (fitz_open pdf) as [n|e]; [|reflexivity].
  destruct (mkdir_temp pdf) as [[]|e]; [|reflexivity].
  pose proof (run_pages_counts pdf (seq 0 n) (set_total n (fresh_stats pdf)) s) as H.
  cbv zeta in H. destruct (run_pages _ _ _ _ _ _) as [st s']. cbn [fst snd] in *.
  destruct H as (H1 & H2 & H3 & H4 & H5 & H6 & _).
  rewrite length_seq in *. simpl in H1, H2, H3, H4, H5, H6.
  split; [exact H1|]. split; [lia|]. split; [lia|].
  destruct (mkdir_results pdf) as [[]|e].
  - specialize (H5 eq_refl). lia.
  - assert (Doc.successful_pages st = 0%nat) by (apply H6; eauto). lia.
Qed.

(** Every page that a run of [process_pdf] counts as failed has one
    error record: the run appends as many records of the stages
    [deepseek_ocr_processing] and [page_processing] as it counts failed
    pages, for distinct pages of the PDF, in the order of the pages. *)
Theorem deepseek_failed_page_has_one_record (pdf : Pdf) (s : State) :
  let r := process_pdf json_loads layout pdf s in
  exists es,
    errors r.2 = errors s ++ es /\
    length (page_failures es) = Doc.failed_pages r.1 /\
    omap page_of (page_failures es) `sublist_of` seq 1 (Doc.total_pages r.1) /\
    length (omap page_of (page_failures es)) = Doc.failed_pages r.1 /\
    NoDup (omap page_of (page_failures es)).
Proof.
  unfold process_pdf. cbv zeta.
  assert (Hidle : forall st e,
    Doc.failed_pages st = 0%nat ->
    exists es,
      errors (add_error (open_error pdf e) s) = errors s ++ es /\
      length (page_failures es) = Doc.failed_pages st /\
      omap page_of (page_failures es) `sublist_of` seq 1 (Doc.total_pages st) /\
      length (omap page_of (page_failures es)) = Doc.failed_pages st /\
      NoDup (omap page_of (page_failures es))).
  { intros st e H0. exists [open_error pdf e]. rewrite H0. simpl.
    split; [reflexivity|]. split; [reflexivity|]. split; [apply sublist_nil_l|].
    split; [reflexivity|constructor]. }
  destruct (fitz_open pdf) as [n|e]; [|apply Hidle; reflexivity].
  destruct (mkdir_temp pdf) as [[]|e]; [|apply Hidle; reflexivity]. clear Hidle.
  pose proof (run_pages_counts pdf (seq 0 n) (set_total n (fresh_stats pdf)) s) as H.
  cbv zeta in H. destruct (run_pages _ _ _ _ _ _) as [st s']. cbn [fst snd] in *.
  destruct H as (H1 & _ & _ & _ & _ & _ & es & He & Hl & Hlen & Hs).
  simpl in H1, Hl. rewrite H1.
  assert (Hseq : (fun p => p + 1)%nat <$> seq 0 n = seq 1 n).
  { rewrite <- (fmap_S_seq 0 n). apply list_fmap_ext. intros; lia. }
  rewrite Hseq in Hs.
  exists es. split; [exact He|]. split; [lia|]. split; [exact Hs|]. split; [lia|].
  eapply sublist_NoDup; [apply NoDup_seq|exact Hs].
Qed.

End DeepSeekRuns.

Section DeepSeekSelection.

Import DeepSeek.

Variable json_loads : str -> option json.
Variable layout : Pdf -> nat -> Layout.

Ltac file_of_page H :=
  unfold lookup_file, results_dir in *;
  cbn [results set_results log_event add_error] in H;
  rewrite ?insert_insert_eq, ?lookup_insert_eq in H;
  cbn [mbind option_bind] in H;
  rewrite ?lookup_insert_eq in H;
  first [ discriminate H
        | left; exact H
        | left;
          match type of H with
          | context [results ?s !! ?k] => destruct (results s !! k)
          end; cbn [default mbind option_bind] in H |- *;
          [exact H|rewrite lookup_empty in H; discriminate H]
        | right; congruence
        | idtac ].

Ltac page_delta f tr es w t :=
  exists f, tr, es, w, t; intros ? [R E T];
  unfold results_dir, set_results, log_event, add_error;
  cbn [fst snd trace errors results];
  rewrite ?insert_insert_eq, ?app_nil_r, <- ?app_assoc, ?insert_union_singleton_l,
    ?(left_id_L ∅ (∪));
  reflexivity.


(** The page loop selects the method by the embedded text.  A page
    that [check_page_has_text] accepts is neither rendered nor sent to
    recognition; it counts as conventional exactly when the
    conventional extractor returns, and a file written for it holds the
    conventional result.  Any other page is rendered first and never
    counts as conventional; it counts as recognized exactly when the
    rendering and the recognition go through, and a file written for
    it holds the result of the client with the metadata of the
    recognition. *)
Theorem hybrid_page_selection (pdf : Pdf) (page_num : nat) (stats : Doc.t) (s : State) :
  let i := (page_num + 1)%nat in
  let r := process_page json_loads layout pdf page_num stats s in
  exists tr,
    trace r.2 = trace s ++ tr /\
    if check_page_has_text (get_text pdf i) then
      Forall (fun e => ev_action e = WriteArtifact) tr /\
      Doc.deepseek_ocr_pages r.1 = Doc.deepseek_ocr_pages stats /\
      (Doc.conventional_pages r.1 = S (Doc.conventional_pages stats) <->
       exists x, extract_text_conventional layout pdf i = Returns x) /\
      (forall x, lookup_file (stem pdf) i r.2 = Some (Complete x) ->
                 lookup_file (stem pdf) i s = Some (Complete x) \/
                 extract_text_conventional layout pdf i = Returns x)
    else
      head tr = Some (event pdf i RenderPage) /\
      Doc.conventional_pages r.1 = Doc.conventional_pages stats /\
      (Doc.deepseek_ocr_pages r.1 = S (Doc.deepseek_ocr_pages stats) <->
       get_pixmap pdf i = Returns () /\ exists g, generate json_loads pdf i = Returns g) /\
      (forall x, lookup_file (stem pdf) i r.2 = Some (Complete x) ->
                 lookup_file (stem pdf) i s = Some (Complete x) \/
                 exists g, generate json_loads pdf i = Returns g /\
                           x = {| body := g; meta := ocr_metadata pdf i |})
    .
Proof.
  intros i r. subst r.
  unfold process_page, save_and_count, page_exception, save_page_result, process_page_image.
  cbv zeta. fold i.
  pose proof (generate_has_len json_loads pdf i) as Hlen.
  destruct (check_page_has_text (get_text pdf i)).
  - destruct (extract_text_conventional layout pdf i) as [x|e].
    + destruct (mkdir_results pdf) as [[]|e'];
        [destruct (write_json pdf i) as [|e''|e'']|];
        cbn [fst snd trace errors results add_error log_event set_results
             Doc.conventional_pages Doc.deepseek_ocr_pages count_successful count_failed
             count_conventional];
        (eexists; split; [first [reflexivity|symmetry; apply app_nil_r]|]);
        (split; [repeat constructor|]); (split; [reflexivity|]);
        (split; [split; [eauto|intros _; lia]|]); intros x' Hx'; file_of_page Hx'.
    + cbn [fst snd trace errors results add_error Doc.conventional_pages
           Doc.deepseek_ocr_pages count_failed].
      exists []. rewrite app_nil_r. split; [reflexivity|]. split; [constructor|].
      split; [reflexivity|]. split; [split; [lia|intros [? ?]; discriminate]|].
      intros x' Hx'. left. exact Hx'.
  - destruct (get_pixmap pdf i) as [[]|e].
    + destruct (generate json_loads pdf i) as [g|e] eqn:Hg.
      * destruct (py_len (text g)) as [n|] eqn:Hn; [|exfalso; eapply Hlen; eauto].
        destruct (mkdir_results pdf) as [[]|e'];
          [destruct (write_json pdf i) as [|e''|e'']|];
          cbn [fst snd trace errors results add_error log_event set_results
               Doc.conventional_pages Doc.deepseek_ocr_pages count_successful count_failed
               count_deepseek_ocr];
          rewrite <- ?app_assoc;
          (eexists; split; [reflexivity|]);
          (split; [reflexivity|]); (split; [reflexivity|]);
          (split; [split; [eauto|intros _; lia]|]); intros x' Hx'; file_of_page Hx'.
        right. exists g. split; [reflexivity|congruence].
      * cbn [fst snd trace errors results add_error log_event
             Doc.conventional_pages Doc.deepseek_ocr_pages count_failed].
        rewrite <- ?app_assoc. eexists. split; [reflexivity|]. split; [reflexivity|].
        split; [reflexivity|]. split; [split; [lia|intros (_ & ? & ?); discriminate]|].
        intros x' Hx'. left. exact Hx'.
    + cbn [fst snd trace errors results add_error log_event
           Doc.conventional_pages Doc.deepseek_ocr_pages count_failed].
      eexists. split; [reflexivity|]. split; [reflexivity|].
      split; [reflexivity|]. split; [split; [lia|intros (? & _); discriminate]|].
      intros x' Hx'. left. exact Hx'.
Qed.

(** The effect of one turn of the page loop does not depend on the
    state it starts from. *)
Lemma process_page_delta (pdf : Pdf) (page_num : nat) :
  exists (f : Doc.t -> Doc.t) tr es (w : gmap nat Artifact) (touched : bool),
    forall stats s,
      process_page json_loads layout pdf page_num stats s
      = (f stats,
         {| results := if touched then <[stem pdf := w ∪ results_dir pdf s]> (results s)
                       else results s;
            errors := errors s ++ es;
            trace := trace s ++ tr |}).
Proof.
  unfold process_page, save_and_count, page_exception, save_page_result, process_page_image.
  cbv zeta. set (i := (page_num + 1)%nat).
  destruct (check_page_has_text _).
  - destruct (extract_text_conventional _ _ _) as [x|e].
    + destruct (mkdir_results pdf) as [[]|e'];
        [destruct (write_json pdf i) as [|e''|e'']|].
      * page_delta (fun st => count_successful (count_conventional st))
          [event pdf i WriteArtifact] (@nil ErrorRecord)
          ({[i := Complete x]} : gmap nat Artifact) true.
      * page_delta (fun st => count_successful (count_conventional st))
          [event pdf i WriteArtifact] [save_error pdf i e'']
          (∅ : gmap nat Artifact) true.
      * page_delta (fun st => count_successful (count_conventional st))
          [event pdf i WriteArtifact] [save_error pdf i e'']
          ({[i := Truncated]} : gmap nat Artifact) true.
      * page_delta (fun st => count_failed (count_conventional st))
          (@nil Event) [page_error pdf i e'] (∅ : gmap nat Artifact) false.
    + page_delta count_failed (@nil Event) [page_error pdf i e] (∅ : gmap nat Artifact) false.
  - destruct (get_pixmap _ _) as [[]|e].
    + destruct (generate _ _ _) as [g|e]; [destruct (py_len _)|].
      * destruct (mkdir_results pdf) as [[]|e'];
          [destruct (write_json pdf i) as [|e''|e'']|].
        -- page_delta (fun st => count_successful (count_deepseek_ocr st))
             [event pdf i RenderPage; event pdf i Recognize; event pdf i WriteArtifact]
             (@nil ErrorRecord)
             ({[i := Complete {| body := g; meta := ocr_metadata pdf i |}]}
                : gmap nat Artifact) true.
        -- page_delta (fun st => count_successful (count_deepseek_ocr st))
             [event pdf i RenderPage; event pdf i Recognize; event pdf i WriteArtifact]
             [save_error pdf i e''] (∅ : gmap nat Artifact) true.
        -- page_delta (fun st => count_successful (count_deepseek_ocr st))
             [event pdf i RenderPage; event pdf i Recognize; event pdf i WriteArtifact]
             [save_error pdf i e''] ({[i := Truncated]} : gmap nat Artifact) true.
        -- page_delta (fun st => count_failed (count_deepseek_ocr st))
             [event pdf i RenderPage; event pdf i Recognize]
             [page_error pdf i e'] (∅ : gmap nat Artifact) false.
      * page_delta count_failed [event pdf i RenderPage; event pdf i Recognize]
          [recognition_error pdf i type_error] (∅ : gmap nat Artifact) false.
      * page_delta count_failed [event pdf i RenderPage; event pdf i Recognize]
          [recognition_error pdf i e] (∅ : gmap nat Artifact) false.
    + page_delta count_failed [event pdf i RenderPage]
        [page_error pdf i e] (∅ : gmap nat Artifact) false.
Qed.

(** The same for the whole page loop. *)
Lemma run_pages_delta (pdf : Pdf) (pages : list nat) :
  exists (f : Doc.t -> Doc.t) tr es (w : gmap nat Artifact) (touched : bool),
    forall stats s,
      run_pages json_loads layout pdf pages stats s
      = (f stats,
         {| results := if touched then <[stem pdf := w ∪ results_dir pdf s]> (results s)
                       else results s;
            errors := errors s ++ es;
            trace := trace s ++ tr |}).
Proof.
  induction pages as [|p pages IH].
  - exists (fun st => st), [], [], ∅, false. intros stats [R E T]. simpl.
    rewrite !app_nil_r. reflexivity.
  - destruct (process_page_delta pdf p) as (f1 & tr1 & es1 & w1 & t1 & H1).
    destruct IH as (f2 & tr2 & es2 & w2 & t2 & H2).
    exists (fun st => f2 (f1 st)), (tr1 ++ tr2), (es1 ++ es2),
      (match t1, t2 with
       | true, true => w2 ∪ w1
       | true, false => w1
       | false, true => w2
       | false, false => ∅
       end), (t1 || t2).
    intros stats [R E T]. cbn [run_pages]. rewrite H1, H2.
    unfold results_dir. cbn [results errors trace]. rewrite !app_assoc.
    destruct t1, t2; cbn [orb]; rewrite ?lookup_insert_eq, ?insert_insert_eq;
      unfold default, from_option, id; rewrite ?(assoc_L (∪)); reflexivity.
Qed.

(** The same for [process_pdf]. *)
Lemma deepseek_process_pdf_delta (pdf : Pdf) :
  exists stats tr es (w : gmap nat Artifact) (touched : bool),
    forall s,
      process_pdf json_loads layout pdf s
      = (stats,
         {| results := if touched then <[stem pdf := w ∪ results_dir pdf s]> (results s)
                       else results s;
            errors := errors s ++ es;
            trace := trace s ++ tr |}).
Proof.
  unfold process_pdf. cbv zeta.
  destruct (fitz_open pdf) as [n|e].
  - destruct (mkdir_temp pdf) as [[]|e].
    + destruct (run_pages_delta pdf (seq 0 n)) as (f & tr & es & w & t & H).
      exists (f (set_total n (fresh_stats pdf))), tr, es, w, t. intros s. apply H.
    + exists (set_total n (fresh_stats pdf)), [], [open_error pdf e], ∅, false.
      intros [R E T]. unfold add_error. simpl. rewrite app_nil_r. reflexivity.
  - exists (fresh_stats pdf), [], [open_error pdf e], ∅, false.
    intros [R E T]. unfold add_error. simpl. rewrite app_nil_r. reflexivity.
Qed.

(** A run of [process_pdf] never looks at what an earlier run left: from
    any two states it returns the same stats, makes the same calls and
    appends the same records.  A second run over the same PDF repeats
    every call of the first, recognition calls included, appends its
    records once more, and writes the files it wrote before. *)
Theorem deepseek_run_ignores_earlier_artifacts (pdf : Pdf) (s1 s2 : State) :
  let r1 := process_pdf json_loads layout pdf s1 in
  let r2 := process_pdf json_loads layout pdf s2 in
  let again := process_pdf json_loads layout pdf r1.2 in
  r1.1 = r2.1 /\
  again.1 = r1.1 /\
  (exists tr es,
     trace r1.2 = trace s1 ++ tr /\ errors r1.2 = errors s1 ++ es /\
     trace r2.2 = trace s2 ++ tr /\ errors r2.2 = errors s2 ++ es /\
     trace again.2 = trace r1.2 ++ tr /\ errors again.2 = errors r1.2 ++ es) /\
  results again.2 = results r1.2.
Proof.
  destruct (deepseek_process_pdf_delta pdf) as (stats & tr & es & w & t & H).
  cbv zeta. rewrite (H s1), (H s2). cbn [fst snd]. rewrite H. cbn [fst snd].
  split; [reflexivity|]. split; [reflexivity|].
  split; [exists tr, es; cbn [trace errors]; auto 10|].
  cbn [results]. destruct t; [|reflexivity].
  unfold results_dir. cbn [results]. rewrite lookup_insert_eq, insert_insert_eq.
  unfold default, from_option, id. rewrite (assoc_L (∪)), (idemp_L (∪)). reflexivity.
Qed.

End DeepSeekSelection.

(** ** The DeepSeek pipeline: the corpus *)

Section DeepSeekCorpus.

Import DeepSeek.

Variable json_loads : str -> option json.
Variable layout : Pdf -> nat -> Layout.

Lemma deepseek_merge_stats_fold (sts : list Doc.t) (o : Run.t) :
  let r := foldl merge_stats o sts in
  Run.total_pdfs r = Run.total_pdfs o /\
  Run.processed_pdfs r = (Run.processed_pdfs o + length sts)%nat /\
  Run.total_pages r = (Run.total_pages o + sum_list (Doc.total_pages <$> sts))%nat /\
  Run.successful_pages r
    = (Run.successful_pages o + sum_list (Doc.successful_pages <$> sts))%nat /\
  Run.failed_pages r = (Run.failed_pages o + sum_list (Doc.failed_pages <$> sts))%nat /\
  Run.conventional_pages r
    = (Run.conventional_pages o + sum_list (Doc.conventional_pages <$> sts))%nat /\
  Run.deepseek_ocr_pages r
    = (Run.deepseek_ocr_pages o + sum_list (Doc.deepseek_ocr_pages <$> sts))%nat /\
  Run.pdf_details r = Run.pdf_details o ++ sts.
Proof.
  revert o. induction sts as [|st sts IH]; intros o.
  - simpl. rewrite !Nat.add_0_r, !app_nil_r. repeat split; reflexivity.
  - cbn [foldl]. specialize (IH (merge_stats o st)).
    cbv zeta in IH. destruct IH as (H1 & H2 & H3 & H4 & H5 & H6 & H7 & H8).
    cbv zeta. rewrite H1, H2, H3, H4, H5, H6, H7, H8. clear.
    rewrite !sum_fmap_cons. unfold merge_stats. cbn [Run.total_pdfs Run.processed_pdfs
      Run.total_pages Run.successful_pages Run.failed_pages
      Run.conventional_pages Run.deepseek_ocr_pages Run.pdf_details length].
    repeat split; try lia. rewrite <- app_assoc. reflexivity.
Qed.

(** The loop of [process_all_pdfs]: the stats of each PDF are those of
    a run of its own, and the states only grow. *)
Lemma deepseek_run_pdfs_fold (pdf_files : list Pdf) (s0 : State) :
  forall o s,
    let r := run_pdfs json_loads layout pdf_files o s in
    r.1 = foldl merge_stats o (corpus_stats json_loads layout pdf_files s0) /\
    exists es, errors r.2 = errors s ++ es /\
      (Forall (fun pdf => Doc.total_pages (process_pdf json_loads layout pdf s0).1 = 0%nat)
         pdf_files ->
       results r.2 = results s /\
       length es = length (List.filter (fun pdf => match fitz_open pdf, mkdir_temp pdf with
                                                   | Returns _, Returns _ => false
                                                   | _, _ => true
                                                   end) pdf_files) /\
       Forall (fun e => err_stage e = pdf_open /\ err_page e = PageNA) es).
Proof.
  induction pdf_files as [|pdf rest IH]; intros o s.
  - simpl. split; [reflexivity|]. exists []. rewrite app_nil_r. auto.
  - cbn [run_pdfs].
    destruct (deepseek_process_pdf_delta json_loads layout pdf) as (st & tr & es & w & t & H).
    assert (Hst : (process_pdf json_loads layout pdf s0).1 = st) by (rewrite H; reflexivity).
    assert (Hzero : Doc.total_pages st = 0%nat ->
              results (process_pdf json_loads layout pdf s).2 = results s /\
              errors (process_pdf json_loads layout pdf s).2
              = errors s ++ (if match fitz_open pdf, mkdir_temp pdf with
                                | Returns _, Returns _ => false
                                | _, _ => true
                                end then [open_error pdf
                                            match fitz_open pdf with
                                            | Raises e => e
                                            | Returns _ =>
                                                match mkdir_temp pdf with
                                                | Raises e => e
                                                | Returns _ => []
                                                end
                                            end]
                             else [])).
    { rewrite <- Hst. unfold process_pdf. cbv zeta.
      destruct (fitz_open pdf) as [n|e]; [|intros _; split; reflexivity].
      destruct (mkdir_temp pdf) as [[]|e]; [|intros _; split; reflexivity].
      pose proof (run_pages_counts json_loads layout pdf (seq 0 n)
                    (set_total n (fresh_stats pdf)) s0) as Hc. cbv zeta in Hc.
      destruct Hc as (Hc & _). simpl in Hc. rewrite Hc. intros ->. simpl.
      rewrite app_nil_r. auto. }
    rewrite (H s) in *. cbn [fst snd] in *.
    specialize (IH (merge_stats o st)
                  {| results := if t then <[stem pdf := w ∪ results_dir pdf s]> (results s)
                                else results s;
                     errors := errors s ++ es; trace := trace s ++ tr |}).
    cbv zeta in IH. destruct IH as (IH1 & es' & IH2 & IH3).
    split; [rewrite IH1; unfold corpus_stats; rewrite fmap_cons, Hst; reflexivity|].
    exists (es ++ es'). split; [rewrite IH2; cbn [errors]; rewrite app_assoc; reflexivity|].
    intros Hall. apply Forall_cons in Hall as [H0 Hall]. rewrite Hst in H0.
    destruct (IH3 Hall) as (R1 & R2 & R3). destruct (Hzero H0) as (Z1 & Z2).
    cbn [results errors] in Z1, Z2, R1. apply app_inv_head in Z2.
    split; [congruence|]. cbn [List.filter]. rewrite length_app, R2.
    split.
    + rewrite Z2. destruct (fitz_open pdf); [destruct (mkdir_temp pdf)|]; reflexivity.
    + apply Forall_app. split; [|exact R3]. rewrite Z2.
      destruct (fitz_open pdf); [destruct (mkdir_temp pdf)|]; repeat constructor.
Qed.

(** [process_all_pdfs] on a corpus that is not empty.  The stats of
    every PDF are listed, each as a run of its own returns them; the
    counters are their sums and both PDF counters the number of PDFs.
    The summary is written in every case and the error log when there
    is an error; after that the call raises [ZeroDivisionError] when no
    page was counted at all, and returns the stats otherwise. *)
Theorem deepseek_overall_counters_are_sums (disk : Disk) (pdf_files : list Pdf)
    (cleanup_temp : bool) (s : State) (r : Reports) :
  pdf_files <> [] ->
  let sts := corpus_stats json_loads layout pdf_files s in
  exists o s' r',
    process_all_pdfs json_loads layout disk pdf_files cleanup_temp s r
    = (if Nat.eqb (Run.total_pages o) 0 then Raises zero_division_error
       else Returns (Stats o), s', r') /\
    Run.pdf_details o = sts /\
    Run.total_pdfs o = length pdf_files /\
    Run.processed_pdfs o = length pdf_files /\
    Run.total_pages o = sum_list (Doc.total_pages <$> sts) /\
    Run.successful_pages o = sum_list (Doc.successful_pages <$> sts) /\
    Run.failed_pages o = sum_list (Doc.failed_pages <$> sts) /\
    Run.conventional_pages o = sum_list (Doc.conventional_pages <$> sts) /\
    Run.deepseek_ocr_pages o = sum_list (Doc.deepseek_ocr_pages <$> sts) /\
    summary r' = written (write_summary disk) o (summary r) /\
    error_log r' = match errors s' with
                   | [] => error_log r
                   | _ :: _ => written (write_error_log disk) (errors s') (error_log r)
                   end.
Proof.
  intros Hne sts. subst sts. unfold process_all_pdfs.
  destruct pdf_files as [|pdf0 pdfs] eqn:Hfiles; [contradiction|]. rewrite <- Hfiles.
  destruct (deepseek_run_pdfs_fold pdf_files s (overall_stats_init (length pdf_files)) s)
    as (Ho & _).
  destruct (run_pdfs _ _ _ _ _) as [o s']. cbn [fst snd] in Ho.
  pose proof (deepseek_merge_stats_fold (corpus_stats json_loads layout pdf_files s)
                (overall_stats_init (length pdf_files))) as Hsum.
  cbv zeta in Hsum. rewrite <- Ho in Hsum.
  destruct Hsum as (H1 & H2 & H3 & H4 & H5 & H6 & H7 & H8).
  simpl in H1, H2, H3, H4, H5, H6, H7, H8.
  exists o, s'. eexists. split.
  { unfold print_summary. destruct (Nat.eqb (Run.total_pages o) 0); reflexivity. }
  assert (Hlen : length (corpus_stats json_loads layout pdf_files s) = length pdf_files)
    by apply length_fmap.
  repeat split; try assumption; try lia.
  all: unfold save_error_log; destruct (errors s'); reflexivity.
Qed.

(** The exit status of [main] when the pipeline starts: 0 for a corpus
    without PDF; otherwise 0 exactly when some page was counted and no
    page failed, and 1 in every other case, also when no page failed
    because no page was counted. *)
Theorem deepseek_exit_status (disk : Disk) (pdf_files : list Pdf)
    (files : gmap str (gmap nat Artifact)) (r : Reports) :
  let fresh := {| results := files; errors := []; trace := [] |} in
  let sts := corpus_stats json_loads layout pdf_files fresh in
  let status := (main json_loads layout disk (Returns ()) true pdf_files files r).1.1 in
  (status = 0%nat \/ status = 1%nat) /\
  (status = 0%nat <->
   pdf_files = [] \/
   (0 < sum_list (Doc.total_pages <$> sts))%nat /\ sum_list (Doc.failed_pages <$> sts) = 0%nat).
Proof.
  intros fresh sts status. subst status sts. unfold main, process_all_pdfs. fold fresh.
  destruct pdf_files as [|pdf0 pdfs] eqn:Hfiles; [simpl; split; [auto|split; auto]|].
  rewrite <- Hfiles.
  assert (Hne : pdf_files <> []) by (rewrite Hfiles; discriminate).
  destruct (deepseek_run_pdfs_fold pdf_files fresh (overall_stats_init (length pdf_files))
              fresh) as (Ho & _).
  destruct (run_pdfs _ _ _ _ _) as [o s']. cbn [fst snd] in Ho.
  pose proof (deepseek_merge_stats_fold (corpus_stats json_loads layout pdf_files fresh)
                (overall_stats_init (length pdf_files))) as Hsum.
  cbv zeta in Hsum. rewrite <- Ho in Hsum.
  destruct Hsum as (_ & _ & H3 & _ & H5 & _). simpl in H3, H5.
  unfold print_summary. rewrite <- H3, <- H5.
  destruct (Nat.eqb_spec (Run.total_pages o) 0) as [H0|H0]; cbn [fst snd].
  - split; [auto|]. split; [discriminate|]. intros [?|[? _]]; [contradiction|lia].
  - destruct (Nat.ltb_spec 0 (Run.failed_pages o)); cbn [fst snd].
    + split; [auto|]. split; [discriminate|]. intros [?|[_ ?]]; [contradiction|lia].
    + split; [auto|]. split; [|reflexivity]. intros _. right. lia.
Qed.

(** A corpus in which no PDF has a page to process, because it does
    not open or opens with no page: after the summary is written with
    all page counters at 0, [print_summary] divides by zero, so
    [process_all_pdfs] raises and [main] exits with status 1.  Nothing
    is written to the results directory, and the only records are the
    [pdf_open] ones of the PDFs that did not open or had no image
    directory. *)
Theorem deepseek_pageless_corpus_exits_1 (disk : Disk) (pdf_files : list Pdf)
    (files : gmap str (gmap nat Artifact)) (r : Reports) :
  pdf_files <> [] ->
  (forall pdf, pdf ∈ pdf_files -> fitz_open pdf = Returns 0%nat \/ exists e, fitz_open pdf = Raises e) ->
  let fresh := {| results := files; errors := []; trace := [] |} in
  let run := process_all_pdfs json_loads layout disk pdf_files true fresh r in
  (main json_loads layout disk (Returns ()) true pdf_files files r).1.1 = 1%nat /\
  run.1.1 = Raises zero_division_error /\
  results run.1.2 = files /\
  Forall (fun e => err_stage e = pdf_open /\ err_page e = PageNA) (errors run.1.2) /\
  exists o,
    summary run.2 = written (write_summary disk) o (summary r) /\
    Run.total_pdfs o = length pdf_files /\
    Run.processed_pdfs o = length pdf_files /\
    Run.total_pages o = 0%nat /\
    Run.successful_pages o = 0%nat /\
    Run.failed_pages o = 0%nat.
Proof.
  intros Hne Hbad fresh run. subst run. unfold main, process_all_pdfs. fold fresh.
  destruct pdf_files as [|pdf0 pdfs] eqn:Hfiles; [contradiction|].
  rewrite <- Hfiles in Hbad |- *.
  assert (Hzero : Forall (fun pdf => Doc.total_pages (process_pdf json_loads layout pdf fresh).1
                                     = 0%nat) pdf_files).
  { apply Forall_forall. intros pdf Hin. unfold process_pdf. cbv zeta.
    destruct (Hbad pdf Hin) as [H0|[e He]]; [rewrite H0|rewrite He; reflexivity].
    destruct (mkdir_temp pdf) as [[]|e]; reflexivity. }
  assert (Hnone : Forall (fun st => Doc.total_pages st = 0%nat /\
                                    Doc.successful_pages st = 0%nat /\
                                    Doc.failed_pages st = 0%nat)
                    (corpus_stats json_loads layout pdf_files fresh)).
  { unfold corpus_stats. apply Forall_fmap, Forall_forall. intros pdf Hin. simpl.
    unfold process_pdf. cbv zeta.
    destruct (Hbad pdf Hin) as [H0|[e He]]; [rewrite H0|rewrite He; auto].
    destruct (mkdir_temp pdf) as [[]|e]; auto. }
  destruct (deepseek_run_pdfs_fold pdf_files fresh (overall_stats_init (length pdf_files))
              fresh) as (Ho & es & Hes & Hrest).
  destruct (Hrest Hzero) as (Hres & _ & Hst).
  destruct (run_pdfs _ _ _ _ _) as [o s']. cbn [fst snd] in *.
  pose proof (deepseek_merge_stats_fold (corpus_stats json_loads layout pdf_files fresh)
                (overall_stats_init (length pdf_files))) as Hsum.
  cbv zeta in Hsum. rewrite <- Ho in Hsum.
  destruct Hsum as (H1 & H2 & H3 & H4 & H5 & _). simpl in H1, H2, H3, H4, H5.
  assert (Hsums : sum_list (Doc.total_pages <$> corpus_stats json_loads layout pdf_files fresh) = 0%nat /\
                  sum_list (Doc.successful_pages <$> corpus_stats json_loads layout pdf_files fresh) = 0%nat /\
                  sum_list (Doc.failed_pages <$> corpus_stats json_loads layout pdf_files fresh) = 0%nat).
  { clear -Hnone. induction Hnone as [|st l (A & B & C) _ (IA & IB & IC)]; [auto|].
    rewrite !sum_fmap_cons, A, B, C, IA, IB, IC. auto. }
  destruct Hsums as (S1 & S2 & S3). rewrite S1 in H3. rewrite S2 in H4. rewrite S3 in H5.
  unfold corpus_stats in H2. rewrite length_fmap in H2.
  unfold print_summary. rewrite H3. cbn [Nat.eqb fst snd].
  split; [reflexivity|]. split; [reflexivity|]. split; [exact Hres|].
  split; [rewrite Hes; exact Hst|].
  exists o. split; [unfold save_error_log; destruct (errors s'); reflexivity|]. auto.
Qed.

End DeepSeekCorpus.

(** ** The properties on concrete runs *)

Lemma generate_keeps_raw_reply_report :
  generate BasicJson.loads report 2 = Returns (raw_text_result prose_reply) /\
  exists raw,
    generate_content report 2 = Returns raw /\
    raw_response (raw_text_result prose_reply) = Some raw /\
    metadata (raw_text_result prose_reply) = None /\
    is_Some (py_len (text (raw_text_result prose_reply))).
Proof.
  split; [vm_compute; reflexivity|].
  apply (generate_keeps_raw_reply BasicJson.loads report 2). vm_compute. reflexivity.
Defined.

Lemma non_object_reply_fails_page_oddities :
  BasicJson.loads (clean_response list_reply) = Some (JArr []) /\
  let r := process_single_page BasicJson.loads oddities 0 empty_state in
  (exists e, generate BasicJson.loads oddities 1 = Raises e /\
             errors r.2 = [recognition_error oddities 1 e]) /\
  r.1 = page_failure 1 no_result /\
  results r.2 = ∅.
Proof.
  split; [vm_compute; reflexivity|].
  apply (non_object_reply_fails_page BasicJson.loads oddities 0 2 list_reply (JArr [])
           empty_state);
    [reflexivity|reflexivity|lia|reflexivity|reflexivity|vm_compute; reflexivity
    |intros members; discriminate].
Defined.

Lemma unsized_text_fails_page_oddities :
  BasicJson.loads (clean_response null_text_reply) = Some (JObj [(of_string "text", JNull)]) /\
  let r := process_single_page BasicJson.loads oddities 1 empty_state in
  (exists e, generate BasicJson.loads oddities 2 = Raises e /\
             errors r.2 = [recognition_error oddities 2 e]) /\
  r.1 = page_failure 2 no_result /\
  results r.2 = ∅.
Proof.
  split; [vm_compute; reflexivity|].
  apply (unsized_text_fails_page BasicJson.loads oddities 1 2 null_text_reply
           [(of_string "text", JNull)] empty_state);
    [reflexivity|reflexivity|lia|reflexivity|reflexivity|vm_compute; reflexivity
    |vm_compute; reflexivity].
Defined.

Lemma unopenable_pdf_is_failed_locked :
  let r := process_pdf BasicJson.loads in_submission_order locked empty_state in
  r.1 = set_status failed (fresh_stats locked) /\
  errors r.2 = [ {| err_pdf_file := name locked; err_page := PageNA; err_stage := pdf_open;
                    err_error := of_string "cannot open broken document" |} ] /\
  results r.2 = ∅ /\
  trace r.2 = [] /\
  processing_status r.2 = [r.1].
Proof.
  apply (unopenable_pdf_is_failed BasicJson.loads in_submission_order locked
           (of_string "cannot open broken document") empty_state).
  reflexivity.
Defined.

Lemma missing_image_directory_fails_pdf_memo :
  let r := process_pdf BasicJson.loads in_submission_order no_temp_dir empty_state in
  Doc.status r.1 = failed /\
  Doc.total_pages r.1 = 2%nat /\
  Doc.successful_pages r.1 = 0%nat /\
  Doc.failed_pages r.1 = 0%nat /\
  errors r.2 = [ {| err_pdf_file := name no_temp_dir; err_page := PageNA;
                    err_stage := pdf_open; err_error := of_string "Permission denied" |} ] /\
  results r.2 = ∅ /\
  trace r.2 = [].
Proof.
  apply (missing_image_directory_fails_pdf BasicJson.loads in_submission_order no_temp_dir
           2 (of_string "Permission denied") empty_state);
    [reflexivity|reflexivity|vm_compute; reflexivity].
Defined.

Lemma clean_response_unwraps_fenced_reply :
  clean_response prose_reply = strip prose_reply /\
  clean_response fenced_reply = json_reply.
Proof.
  destruct clean_response_unwraps as [Hplain Hfenced]. split.
  - apply Hplain; vm_compute; reflexivity.
  - apply (Hfenced json_reply newline newline).
    + vm_compute. reflexivity.
    + vm_compute. discriminate.
    + repeat constructor.
    + repeat constructor.
Defined.

Lemma selector_ignores_outer_whitespace_rich_text :
  check_page_has_text (newline ++ rich_text ++ of_string "   ") = check_page_has_text rich_text.
Proof.
  apply (selector_ignores_outer_whitespace newline rich_text (of_string "   "));
    repeat constructor.
Defined.

Lemma tracking_omits_skipped_pdfs_rerun :
  exists o s' r',
    process_all_pdfs BasicJson.loads (fun _ => in_submission_order) last_submitted_first
      sound_disk [report; leaflet] true leaflet_run.2 no_reports = (Stats o, s', r') /\
    Run.total_pdfs o = 2%nat /\
    Run.processed_pdfs o = 2%nat /\
    Run.skipped_pdfs o = length (List.filter is_skipped (Run.pdf_details o)) /\
    tracking r' = Some (Whole (processing_status s')).
Proof.
  destruct (tracking_omits_skipped_pdfs BasicJson.loads (fun _ => in_submission_order)
              last_submitted_first sound_disk [report; leaflet] true leaflet_run.2 no_reports)
    as (o & s' & r' & Hrun & H1 & H2 & _ & H4 & _ & H6 & _); [discriminate|].
  exists o, s', r'. auto.
Defined.

Lemma unopenable_corpus_exits_0_locked :
  let run := main BasicJson.loads (fun _ => in_submission_order) in_submission_order
               sound_disk (Returns ()) true [locked; locked] ∅ no_reports in
  run.1.1 = 0%nat /\
  length (errors run.1.2) = 2%nat /\
  Forall (fun e => err_stage e = pdf_open /\ err_page e = PageNA) (errors run.1.2) /\
  results run.1.2 = ∅ /\
  trace run.1.2 = [] /\
  error_log run.2 = Some (Whole (errors run.1.2)).
Proof.
  apply (unopenable_corpus_exits_0 BasicJson.loads (fun _ => in_submission_order)
           in_submission_order sound_disk [locked; locked] ∅ no_reports).
  - discriminate.
  - intros pdf Hin. exists (of_string "cannot open broken document").
    apply elem_of_cons in Hin as [->|Hin]; [reflexivity|].
    apply elem_of_cons in Hin as [->|Hin]; [reflexivity|]. inversion Hin.
Defined.

Lemma deepseek_overall_counters_are_sums_report :
  exists o s' r',
    DeepSeek.process_all_pdfs BasicJson.loads DeepSeek.title_pages DeepSeek.sound_disk
      [report; locked] true DeepSeek.empty_state DeepSeek.no_reports
    = (Returns (DeepSeek.Stats o), s', r') /\
    DeepSeek.Run.total_pdfs o = 2%nat /\
    DeepSeek.Run.total_pages o = 3%nat /\
    DeepSeek.Run.successful_pages o = 2%nat /\
    DeepSeek.Run.failed_pages o = 1%nat /\
    DeepSeek.Run.conventional_pages o = 1%nat /\
    DeepSeek.Run.deepseek_ocr_pages o = 1%nat /\
    DeepSeek.summary r' = Some (Whole o).
Proof.
  destruct (deepseek_overall_counters_are_sums BasicJson.loads DeepSeek.title_pages
              DeepSeek.sound_disk [report; locked] true DeepSeek.empty_state
              DeepSeek.no_reports)
    as (o & s' & r' & Hrun & _ & H1 & _ & H3 & H4 & H5 & H6 & H7 & H8 & _); [discriminate|].
  exists o, s', r'.
  assert (E3 : DeepSeek.Run.total_pages o = 3%nat) by (rewrite H3; vm_compute; reflexivity).
  rewrite E3 in Hrun. split; [exact Hrun|]. split; [exact H1|]. split; [exact E3|].
  split; [rewrite H4; vm_compute; reflexivity|].
  split; [rewrite H5; vm_compute; reflexivity|].
  split; [rewrite H6; vm_compute; reflexivity|].
  split; [rewrite H7; vm_compute; reflexivity|exact H8].
Defined.

Lemma deepseek_pageless_corpus_exits_1_locked :
  let run := DeepSeek.process_all_pdfs BasicJson.loads DeepSeek.title_pages DeepSeek.sound_disk
               [blank; locked] true DeepSeek.empty_state DeepSeek.no_reports in
  (DeepSeek.main BasicJson.loads DeepSeek.title_pages DeepSeek.sound_disk (Returns ()) true
     [blank; locked] ∅ DeepSeek.no_reports).1.1 = 1%nat /\
  run.1.1 = Raises DeepSeek.zero_division_error /\
  DeepSeek.results run.1.2 = ∅ /\
  exists o,
    DeepSeek.summary run.2 = Some (Whole o) /\
    DeepSeek.Run.total_pages o = 0%nat /\
    DeepSeek.Run.failed_pages o = 0%nat.
Proof.
  destruct (deepseek_pageless_corpus_exits_1 BasicJson.loads DeepSeek.title_pages
              DeepSeek.sound_disk [blank; locked] ∅ DeepSeek.no_reports)
    as (Hexit & Hraise & Hres & _ & o & Hsum & _ & _ & H0 & _ & Hf).
  - discriminate.
  - intros pdf Hin. apply elem_of_cons in Hin as [->|Hin]; [left; reflexivity|].
    apply elem_of_cons in Hin as [->|Hin]; [right; eexists; reflexivity|]. inversion Hin.
  - split; [exact Hexit|]. split; [exact Hraise|]. split; [exact Hres|].
    exists o. auto.
Defined.
